(** * Verification of the pip / pipenv Ansible modules

    Shallow embedding of
      - lib/ansible/module_utils/pip.py
      - lib/ansible/modules/packaging/language/pip.py
      - lib/ansible/modules/packaging/language/pipenv.py

    Python [str] values are modelled as [string] (a sequence of 8-bit
    characters); the [str] methods used by the modules are defined in
    [Module Str].  Everything that lives outside the repository (the
    [AnsibleModule] object, the file system, [pkg_resources],
    [distutils.version], [shlex], the wrapped executables) is gathered in
    the record [Host] and is a parameter of every definition that needs it. *)

From Stdlib Require Import ZArith Ascii String List Bool Lia.
From stdpp Require Import base list strings gmap.

Local Open Scope string_scope.
Local Open Scope list_scope.

(* ===================================================================== *)
(** ** Python string methods *)
(* ===================================================================== *)

Module Str.

(** [s.startswith(p)] *)
Fixpoint startswith (p s : string) : bool :=
  match p, s with
  | EmptyString, _ => true
  | String a p', String b s' => Ascii.eqb a b && startswith p' s'
  | String _ _, EmptyString => false
  end.

(** [p in s] for a string [p] *)
Fixpoint contains (p s : string) : bool :=
  startswith p s ||
  match s with
  | EmptyString => false
  | String _ s' => contains p s'
  end.

(** [s.split(sep)] for a non-empty literal separator: the occurrences of
    [sep] are found left to right and do not overlap.  [skip] counts the
    characters of a separator that was just recognised and that are still
    to be dropped. *)
Fixpoint split_from (sep s : string) (skip : nat) : list string :=
  match s with
  | EmptyString => [EmptyString]
  | String c s' =>
      match skip with
      | S k => split_from sep s' k
      | O =>
          if startswith sep s
          then EmptyString :: split_from sep s' (String.length sep - 1)
          else match split_from sep s' 0 with
               | h :: t => String c h :: t
               | [] => [String c EmptyString]
               end
      end
  end.

Definition split (sep s : string) : list string := split_from sep s 0.

(** [s.count(sep)]: the number of non-overlapping occurrences. *)
Fixpoint count_from (sep s : string) (skip : nat) : nat :=
  match s with
  | EmptyString => 0
  | String c s' =>
      match skip with
      | S k => count_from sep s' k
      | O =>
          if startswith sep s
          then S (count_from sep s' (String.length sep - 1))
          else count_from sep s' 0
      end
  end.

Definition count (sep s : string) : nat := count_from sep s 0.

(** [sep.join(l)] *)
Fixpoint join (sep : string) (l : list string) : string :=
  match l with
  | [] => EmptyString
  | [x] => x
  | x :: rest => x +:+ sep +:+ join sep rest
  end.

(** The characters removed by [strip] and [lstrip] without argument:
    space, tab, newline, carriage return, vertical tab, form feed. *)
Definition is_space (c : ascii) : bool :=
  let n := nat_of_ascii c in
  (Nat.eqb n 32) || ((Nat.leb 9 n) && (Nat.leb n 13)).

Fixpoint lstrip (s : string) : string :=
  match s with
  | EmptyString => EmptyString
  | String c s' => if is_space c then lstrip s' else s
  end.

Fixpoint rev_string (s acc : string) : string :=
  match s with
  | EmptyString => acc
  | String c s' => rev_string s' (String c acc)
  end.

Definition rstrip (s : string) : string :=
  rev_string (lstrip (rev_string s EmptyString)) EmptyString.

Definition strip (s : string) : string := rstrip (lstrip s).

(** [s.lower()] on the ASCII letters. *)
Definition lower_char (c : ascii) : ascii :=
  let n := nat_of_ascii c in
  if (Nat.leb 65 n) && (Nat.leb n 90) then ascii_of_nat (n + 32) else c.

Fixpoint lower (s : string) : string :=
  match s with
  | EmptyString => EmptyString
  | String c s' => String (lower_char c) (lower s')
  end.

(** [c.isdigit()] *)
Definition isdigit (c : ascii) : bool :=
  let n := nat_of_ascii c in (Nat.leb 48 n) && (Nat.leb n 57).

(** [s.endswith(p)] *)
Definition endswith (p s : string) : bool :=
  startswith (rev_string p EmptyString) (rev_string s EmptyString).

(** [s.split()] without argument: maximal runs of non-space characters. *)
Fixpoint words_from (s : string) (cur : option string) : list string :=
  match s with
  | EmptyString => match cur with Some w => [rev_string w EmptyString] | None => [] end
  | String c s' =>
      if is_space c
      then match cur with
           | Some w => rev_string w EmptyString :: words_from s' None
           | None => words_from s' None
           end
      else match cur with
           | Some w => words_from s' (Some (String c w))
           | None => words_from s' (Some (String c EmptyString))
           end
  end.

Definition words (s : string) : list string := words_from s None.

(** Python truthiness of a string. *)
Definition truthy (s : string) : bool :=
  match s with EmptyString => false | _ => true end.

(** [x in l] for a list of strings. *)
Definition mem (x : string) (l : list string) : bool :=
  existsb (String.eqb x) l.

End Str.

(* ===================================================================== *)
(** ** module_utils/pip.py: names and version specifiers *)
(* ===================================================================== *)

(** The keys of [op_dict]. *)
Inductive spec_op := OpGe | OpLe | OpGt | OpLt | OpEq | OpNe | OpCompat.

Definition op_token (op : spec_op) : string :=
  match op with
  | OpGe => ">=" | OpLe => "<=" | OpGt => ">" | OpLt => "<"
  | OpEq => "==" | OpNe => "!=" | OpCompat => "~="
  end.

Definition op_keys : list string :=
  map op_token [OpGe; OpLe; OpGt; OpLt; OpEq; OpNe; OpCompat].

(** [op_dict]: the value stored under each key, applied to the outcome of
    comparing two versions ([operator.ge] and so on). *)
Definition op_dict (op : spec_op) (c : comparison) : bool :=
  match op with
  | OpGe => match c with Lt => false | _ => true end
  | OpLe => match c with Gt => false | _ => true end
  | OpGt => match c with Gt => true | _ => false end
  | OpLt => match c with Lt => true | _ => false end
  | OpEq => match c with Eq => true | _ => false end
  | OpNe => match c with Eq => false | _ => true end
  | OpCompat => match c with Lt => false | _ => true end
  end.

(** [_is_vcs_url]: [re.match(r'(svn|git|hg|bzr)\+', name)] *)
Definition _is_vcs_url (name : string) : bool :=
  existsb (fun p => Str.startswith p name) ["svn+"; "git+"; "hg+"; "bzr+"].

Definition _is_package_name (name : string) : bool :=
  negb (existsb (fun op => Str.startswith op (Str.lstrip name)) op_keys).

(** The second loop of [_recover_package_name], with its two accumulators. *)
Fixpoint recover_loop (names name_parts package_names : list string)
  : list string :=
  match names with
  | [] => package_names ++ [Str.join "," name_parts]
  | name :: rest =>
      let '(name_parts, package_names) :=
        if _is_package_name name
        then ([], match name_parts with
                  | [] => package_names
                  | _ => package_names ++ [Str.join "," name_parts]
                  end)
        else (name_parts, package_names) in
      recover_loop rest (name_parts ++ [name]) package_names
  end.

Definition _recover_package_name (names : list string) : list string :=
  let tmp := flat_map (Str.split ",") names in
  recover_loop tmp [] [].

(* ===================================================================== *)
(** ** Exceptions and the objects of [pkg_resources] *)
(* ===================================================================== *)

Inductive exn :=
  ValueError | AttributeError | NameError | IndexError | TypeError | KeyError.

(** A pure computation that may raise. *)
Inductive except (A : Type) :=
| Ok (a : A)
| Raise (e : exn).
Arguments Ok {A} a.
Arguments Raise {A} e.

Definition except_bind {A B} (c : except A) (k : A -> except B) : except B :=
  match c with Ok a => k a | Raise e => Raise e end.

(** [op_dict[op]]: the value under the key [op], [KeyError] for a string
    that is not a key. *)
Definition op_dict_getitem (op : string) : except (comparison -> bool) :=
  match List.find (fun key => String.eqb (op_token key) op)
                  [OpGe; OpLe; OpGt; OpLt; OpEq; OpNe; OpCompat] with
  | Some key => Ok (op_dict key)
  | None => Raise KeyError
  end.

(** A [pkg_resources.Requirement].  [specs] lists the (operator, version)
    pairs of strings.  [specifier] is [None] when the attribute is missing
    (reading it raises [AttributeError]), otherwise it holds
    [specifier.contains], which answers with a boolean or raises (a recent
    setuptools raises [InvalidVersion], a [ValueError], on a version that
    it cannot parse).  [req_native] is [to_native(requirement)]. *)
Record Requirement := {
  project_name : string;
  specs : list (string * string);
  specifier : option (string -> except bool);
  req_native : string;
}.

(** An instance of class [Package].  [__init__] sets [_plain_package] and
    [_requirement] together: either the requirement was parsed
    ([_plain_package = True]) or it was not and [_requirement] stays
    [None]. *)
Inductive Package :=
| PlainPackage (package_name : string) (_requirement : Requirement)
| RawPackage (package_name : string).

Definition package_name (p : Package) : string :=
  match p with PlainPackage n _ => n | RawPackage n => n end.

Definition _plain_package (p : Package) : bool :=
  match p with PlainPackage _ _ => true | RawPackage _ => false end.

Definition has_version_specifier (p : Package) : bool :=
  match p with
  | PlainPackage _ r => match specs r with [] => false | _ => true end
  | RawPackage _ => false
  end.

(** [Package.__str__] *)
Definition Package_str (p : Package) : string :=
  match p with
  | PlainPackage _ r => req_native r
  | RawPackage n => n
  end.

(** What [_is_present] receives as [req]: module pip passes a [Package],
    module pipenv passes the [str] ['pipenv']. *)
Inductive req_arg :=
| ReqPackage (p : Package)
| ReqStr (s : string).

(* ===================================================================== *)
(** ** The process and its host *)
(* ===================================================================== *)

(** The argument of [run_command]: a command line or an argument vector. *)
Inductive cmdline :=
| CmdStr (s : string)
| CmdList (args : list string).

(** The call sites of [module.run_command] in the three files. *)
Inductive call_site :=
| PipList          (* _get_packages: pip list --format=freeze *)
| PipFreeze        (* _get_packages: pip freeze *)
| VenvHelp         (* _get_cmd_options: <virtualenv> --help *)
| VenvCreate       (* setup_virtualenv *)
| SpecialProbe     (* _get_package_info *)
| PipAction        (* pip.main: pip install / uninstall *)
| PipInstallPipenv (* pipenv.main: pip install pipenv *)
| PipenvSync.      (* pipenv.main: pipenv sync *)

Record invocation := {
  inv_site : call_site;
  inv_cmd : cmdline;
  inv_cwd : option string;
  inv_environ_update : list (string * string);
  inv_path_prefix : option string;
}.

Record run_record := {
  rr_inv : invocation;
  rr_rc : Z;
  rr_out : string;
  rr_err : string;
}.

(** Process-global state, and the commands run so far. *)
Record World := {
  umask : Z;
  environ : gmap string string;
  history : list run_record;
}.

(** Everything the modules obtain from outside the repository. *)
Record Host := {
  HAS_SETUPTOOLS : bool;
  PY3 : bool;
  sys_executable : string;
  gettempdir : string;
  (** [module.run_command]: exit code, stdout, stderr *)
  run_command_result : World -> invocation -> Z * string * string;
  (** [module.get_bin_path(arg, False, opt_dirs)] *)
  get_bin_path_result : World -> string -> list string -> option string;
  os_path_exists : World -> string -> bool;
  is_executable : World -> string -> bool;
  (** the binding of the global name [Requirement] in module_utils/pip.py
      and its [parse] ([None]: [ValueError]).  The file as it stands has
      no import for the name, which is the case [None] here. *)
  Requirement_global : option (string -> option Requirement);
  (** [LooseVersion(a)._cmp(LooseVersion(b))], which every comparison
      operator of [LooseVersion] calls; on Python 3 it raises [TypeError]
      when a number meets a word at the first place where the two versions
      differ *)
  LooseVersion_cmp : string -> string -> except comparison;
  (** [int(s, 8)], [None] when it raises *)
  int_octal : string -> option Z;
  (** [shlex.split], [None] when it raises [ValueError] *)
  shlex_split : string -> option (list string);
}.

Inductive state_choice := present | absent | latest | forcereinstall.

(** [module.params] (the keys of both argument specs). *)
Record Params := {
  p_state : state_choice;
  p_name : option (list string);
  p_version : option string;
  p_requirements : option string;
  p_virtualenv : option string;
  p_virtualenv_site_packages : bool;
  p_virtualenv_command : string;
  p_virtualenv_python : option string;
  p_extra_args : option string;
  p_editable : bool;
  p_chdir : option string;
  p_executable : option string;
  p_umask : option string;
  p_path : option string;
}.

Record AnsibleModule := {
  params : Params;
  check_mode : bool;
}.

(** The keyword arguments of [exit_json] (the ones that merely repeat
    parameters are left out). *)
Record exit_result := {
  changed : bool;
  res_cmd : option cmdline;
  res_stdout : option string;
  res_stderr : option string;
  res_warnings : list string;
}.

(** How a run ends: [exit_json], [fail_json] or an uncaught exception. *)
Inductive outcome :=
| ExitJson (r : exit_result)
| FailJson (msg : string) (cmd : option cmdline)
| Uncaught (e : exn).

Inductive result (A : Type) :=
| Ret (a : A)
| Stop (o : outcome).
Arguments Ret {A} a.
Arguments Stop {A} o.

Definition M (A : Type) : Type := World -> World * result A.

Definition ret {A} (a : A) : M A := fun w => (w, Ret a).

Definition bind {A B} (c : M A) (k : A -> M B) : M B :=
  fun w =>
    match c w with
    | (w', Ret a) => k a w'
    | (w', Stop o) => (w', Stop o)
    end.

Declare Scope prog_scope.
Delimit Scope prog_scope with prog.
Notation "x <- c ; k" := (bind c (fun x => k))
  (at level 20, c at level 100, k at level 200, only parsing) : prog_scope.
Notation "' p <- c ; k" := (bind c (fun p => k))
  (at level 20, p pattern, c at level 100, k at level 200, only parsing) : prog_scope.
Notation "c >> k" := (bind c (fun _ => k))
  (at level 100, k at level 200, only parsing, right associativity) : prog_scope.
Local Open Scope prog_scope.

Definition stop {A} (o : outcome) : M A := fun w => (w, Stop o).

Definition raise {A} (e : exn) : M A := stop (Uncaught e).

Definition fail_json {A} (msg : string) (cmd : option cmdline) : M A :=
  stop (FailJson msg cmd).

Definition exit_json {A} (r : exit_result) : M A := stop (ExitJson r).

Definition lift_except {A} (c : except A) : M A :=
  match c with Ok a => ret a | Raise e => raise e end.

(** [try: body finally: handler] *)
Definition try_finally {A} (body : M A) (handler : M unit) : M A :=
  fun w =>
    let '(w1, r) := body w in
    match handler w1 with
    | (w2, Ret _) => (w2, r)
    | (w2, Stop o) => (w2, Stop o)
    end.

(** [if cond: stmt] for a statement that does not return a value. *)
Definition when (b : bool) (c : M unit) : M unit := if b then c else ret tt.

(** [os.umask(mask)]: installs [mask & 0o777], returns the previous mask. *)
Definition os_umask (mask : Z) : M Z :=
  fun w => ({| umask := Z.land mask 511; environ := environ w; history := history w |},
            Ret (umask w)).

(** [os.environ[key] = value] *)
Definition os_environ_set (key value : string) : M unit :=
  fun w => ({| umask := umask w; environ := <[key := value]> (environ w);
               history := history w |}, Ret tt).

Definition truthy_opt (o : option string) : bool :=
  match o with Some s => Str.truthy s | None => false end.

Definition or_empty (o : option string) : string :=
  match o with Some s => s | None => EmptyString end.

(** [os.path.join(a, b)] *)
Definition path_join (a b : string) : string :=
  if Str.startswith "/" b then b
  else if negb (Str.truthy a) || Str.endswith "/" a then a +:+ b
  else a +:+ "/" +:+ b.

Definition path_isabs (s : string) : bool := Str.startswith "/" s.

(** [os.path.basename] *)
Definition path_basename (s : string) : string :=
  List.last (Str.split "/" s) EmptyString.

(* ===================================================================== *)
(** ** module_utils/pip.py *)
(* ===================================================================== *)

Section ModuleUtils.
Context (host : Host).

(** [Package.__init__(name_string, version_string)] *)
Definition Package_init (name_string : string) (version_string : option string)
  : except Package :=
  let package_name := name_string in
  except_bind
    (if truthy_opt version_string then
       match Str.lstrip (or_empty version_string) with
       | EmptyString => Raise IndexError            (* version_string[0] *)
       | String c _ as version_string =>
           let separator := if Str.isdigit c then "==" else " " in
           Ok (Str.join separator [name_string; version_string])
       end
     else Ok name_string)
    (fun name_string =>
       match Requirement_global host with
       | None => Raise NameError
       | Some parse =>
           match parse name_string with
           | Some r =>
               if String.eqb (project_name r) "distribute"
               then Ok (PlainPackage "setuptools" r)
               else Ok (PlainPackage (project_name r) r)
           | None => Ok (RawPackage package_name)     (* except ValueError: pass *)
           end
       end).

(** [all(op_dict[op](version_to_test, LooseVersion(ver)) for op, ver in specs)]:
    the generator is consumed up to the first constraint that fails. *)
Fixpoint all_specs_hold (version_to_test : string) (specs : list (string * string))
  : except bool :=
  match specs with
  | [] => Ok true
  | (op, ver) :: rest =>
      except_bind (op_dict_getitem op) (fun compare =>
      except_bind (LooseVersion_cmp host version_to_test ver) (fun c =>
      if compare c then all_specs_hold version_to_test rest else Ok false))
  end.

(** [Package.is_satisfied_by(version_to_test)]: only [AttributeError] is
    caught, whether reading [specifier] or [contains] raised it; every
    other exception goes to the caller. *)
Definition is_satisfied_by (p : Package) (version_to_test : string) : except bool :=
  match p with
  | RawPackage _ => Ok false
  | PlainPackage _ r =>
      (* old setuptools has no specifier, do fallback *)
      let fallback := all_specs_hold version_to_test (specs r) in
      match specifier r with
      | Some contains =>
          match contains version_to_test with
          | Raise AttributeError => fallback
          | answer => answer
          end
      | None => fallback
      end
  end.

(** [req.package_name] *)
Definition req_package_name (req : req_arg) : except string :=
  match req with
  | ReqPackage p => Ok (package_name p)
  | ReqStr _ => Raise AttributeError
  end.

(** [req.is_satisfied_by(v)] *)
Definition req_is_satisfied_by (req : req_arg) (v : string) : except bool :=
  match req with
  | ReqPackage p => is_satisfied_by p v
  | ReqStr _ => Raise AttributeError
  end.

(** [_is_present(module, req, installed_pkgs)] *)
Fixpoint _is_present (req : req_arg) (installed_pkgs : list string)
  : except bool :=
  match installed_pkgs with
  | [] => Ok false
  | pkg :: rest =>
      if Str.contains "==" pkg then
        match Str.split "==" pkg with
        | [pkg_name; pkg_version] =>
            except_bind (req_package_name req) (fun name =>
            if String.eqb (Str.lower pkg_name) name then
              except_bind (req_is_satisfied_by req pkg_version) (fun sat =>
              if sat then Ok true else _is_present req rest)
            else _is_present req rest)
        | _ => Raise ValueError     (* pkg_name, pkg_version = ... *)
        end
      else _is_present req rest
  end.

(** [module.run_command(...)], called from [site]: the command is given
    to the host, which answers with the exit code and the two outputs, and
    is added to the history.  ([AnsibleModule] applies [environ_update] and
    [path_prefix] to [os.environ] for the time of the call and puts the
    former values back before it returns.) *)
Definition run_command (site : call_site) (cmd : cmdline) (cwd : option string)
    (environ_update : list (string * string)) (path_prefix : option string)
  : M (Z * string * string) :=
  fun w =>
    let inv := {| inv_site := site; inv_cmd := cmd; inv_cwd := cwd;
                  inv_environ_update := environ_update;
                  inv_path_prefix := path_prefix |} in
    let '(rc, out, err) := run_command_result host w inv in
    ({| umask := umask w; environ := environ w;
        history := history w ++
                   [{| rr_inv := inv; rr_rc := rc; rr_out := out; rr_err := err |}] |},
     Ret (rc, out, err)).

(** [module.get_bin_path(arg, False, opt_dirs)] *)
Definition get_bin_path (arg : string) (opt_dirs : list string)
  : M (option string) :=
  fun w => (w, Ret (get_bin_path_result host w arg opt_dirs)).

(** [module.get_bin_path(arg, True)] *)
Definition get_bin_path_required (arg : string) : M string :=
  found <- get_bin_path arg [] ;
  match found with
  | Some p => ret p
  | None => fail_json ("Failed to find required executable " +:+ arg) None
  end.

Definition path_exists (p : string) : M bool :=
  fun w => (w, Ret (os_path_exists host w p)).

Definition path_is_executable (p : string) : M bool :=
  fun w => (w, Ret (is_executable host w p)).

Definition nonzero (rc : Z) : bool := negb (Z.eqb rc 0).

Definition _fail {A} (cmd : cmdline) (out err : string) : M A :=
  let msg := EmptyString in
  let msg := if Str.truthy out then msg +:+ "stdout: " +:+ out else msg in
  let msg := if Str.truthy err
             then msg +:+ String "010"%char ":stderr: " +:+ err else msg in
  fail_json msg (Some cmd).

Definition _get_cmd_options (cmd : string) : M (list string) :=
  let thiscmd := cmd +:+ " --help" in
  '(rc, stdout, stderr) <- run_command VenvHelp (CmdStr thiscmd) None [] None ;
  when (nonzero rc)
       (fail_json ("Could not get output from " +:+ thiscmd +:+ ": "
                   +:+ (stdout +:+ stderr)) None) >>
  let words := Str.words (Str.strip stdout) in
  let cmd_options := List.filter (Str.startswith "--") words in
  ret cmd_options.

Definition lang_env : list (string * string) :=
  [("LANG", "C"); ("LC_ALL", "C"); ("LC_MESSAGES", "C")].

Definition _get_packages (pip : string) (chdir : string)
  : M (string * string * string) :=
  (* Try 'pip list' command first. *)
  let command := pip +:+ " list --format=freeze" in
  '(rc, out, err) <- run_command PipList (CmdStr command) (Some chdir) lang_env None ;
  (* If there was an error (pip version too old) then use 'pip freeze'. *)
  if nonzero rc then
    let command := pip +:+ " freeze" in
    '(rc, out, err) <- run_command PipFreeze (CmdStr command) (Some chdir) [] None ;
    when (nonzero rc) (_fail (CmdStr command) out err) >>
    ret (command, out, err)
  else
    ret (command, out, err).

(** The two [for ... else] loops of [_get_pip]. *)
Fixpoint find_pip_in_path (candidates : list string) : M (option string) :=
  match candidates with
  | [] => ret None
  | basename :: rest =>
      pip <- get_bin_path basename [] ;
      match pip with
      | Some p => ret (Some p)
      | None => find_pip_in_path rest
      end
  end.

Fixpoint find_pip_in_venv (venv_dir : string) (candidates : list string)
  : M (option string) :=
  match candidates with
  | [] => ret None
  | basename :: rest =>
      let candidate := path_join venv_dir basename in
      ex <- path_exists candidate ;
      isx <- (if ex then path_is_executable candidate else ret false) ;
      if isx then ret (Some candidate) else find_pip_in_venv venv_dir rest
  end.

Definition _get_pip (env : option string) (executable : option string)
  : M string :=
  let candidate_pip_basenames := if PY3 host then ["pip3"] else ["pip2"; "pip"] in
  let '(pip, candidate_pip_basenames) :=
    match executable with
    | Some executable =>
        if path_isabs executable then (Some executable, candidate_pip_basenames)
        else (None, [executable])
    | None => (None, candidate_pip_basenames)
    end in
  match pip with
  | Some pip => ret pip
  | None =>
      match env with
      | None =>
          found <- find_pip_in_path candidate_pip_basenames ;
          match found with
          | Some pip => ret pip
          | None => fail_json ("Unable to find any of "
                               +:+ Str.join ", " candidate_pip_basenames
                               +:+ " to use.  pip needs to be installed.") None
          end
      | Some env =>
          let venv_dir := path_join env "bin" in
          let candidate_pip_basenames :=
            [List.hd EmptyString candidate_pip_basenames; "pip"] in
          found <- find_pip_in_venv venv_dir candidate_pip_basenames ;
          match found with
          | Some pip => ret pip
          | None => fail_json ("Unable to find pip in the virtualenv, " +:+ env
                               +:+ ", under any of these names: "
                               +:+ Str.join ", " candidate_pip_basenames
                               +:+ ". Make sure pip is present in the virtualenv.")
                              None
          end
      end
  end.

Definition _SPECIAL_PACKAGE_CHECKERS (package : string) : option string :=
  if String.eqb package "setuptools"
  then Some "import setuptools; print(setuptools.__version__)"
  else if String.eqb package "pip"
  then Some ("import pkg_resources; print(pkg_resources.get_distribution("
             +:+ String "034"%char "pip"
             +:+ String "034"%char ").version)")
  else None.

Definition _get_package_info (package : string) (env : option string)
  : M (option string) :=
  let opt_dirs := if truthy_opt env then [or_empty env +:+ "/bin"] else [] in
  python_bin <- get_bin_path "python" opt_dirs ;
  match python_bin with
  | None => ret None
  | Some python_bin =>
      match _SPECIAL_PACKAGE_CHECKERS package with
      | None => raise KeyError
      | Some checker =>
          '(rc, out, err) <-
             run_command SpecialProbe (CmdList [python_bin; "-c"; checker]) None [] None ;
          if nonzero rc then ret None
          else ret (Some (package +:+ "==" +:+ Str.strip out))
      end
  end.

Definition setup_virtualenv (module : AnsibleModule) (env chdir out err : string)
  : M (string * string) :=
  when (check_mode module)
       (exit_json {| changed := true; res_cmd := None; res_stdout := None;
                     res_stderr := None; res_warnings := [] |}) >>
  let cmd := p_virtualenv_command (params module) in
  cmd <- (if String.eqb (path_basename cmd) cmd
          then get_bin_path_required cmd else ret cmd) ;
  cmd <- (if p_virtualenv_site_packages (params module)
          then ret (cmd +:+ " --system-site-packages")
          else
            cmd_opts <- _get_cmd_options cmd ;
            if Str.mem "--no-site-packages" cmd_opts
            then ret (cmd +:+ " --no-site-packages") else ret cmd) ;
  let virtualenv_python := p_virtualenv_python (params module) in
  cmd <- (if negb (existsb (fun ex => Str.contains ex (p_virtualenv_command (params module)))
                           ["pyvenv"; "-m venv"])
          then
            if truthy_opt virtualenv_python
            then ret (cmd +:+ " -p" +:+ or_empty virtualenv_python)
            else if PY3 host
            then ret (cmd +:+ " -p" +:+ sys_executable host)
            else ret cmd
          else if truthy_opt (p_virtualenv_python (params module))
          then fail_json ("virtualenv_python should not be used when"
                          +:+ " using the venv module or pyvenv as virtualenv_command") None
          else ret cmd) ;
  let cmd := cmd +:+ " " +:+ env in
  '(rc, out_venv, err_venv) <- run_command VenvCreate (CmdStr cmd) (Some chdir) [] None ;
  let out := out +:+ out_venv in
  let err := err +:+ err_venv in
  when (nonzero rc) (_fail (CmdStr cmd) out err) >>
  ret (out, err).

End ModuleUtils.

(* ===================================================================== *)
(** ** modules/packaging/language/pip.py *)
(* ===================================================================== *)

Definition state_map (state : state_choice) : list string :=
  match state with
  | present => ["install"]
  | absent => ["uninstall"; "-y"]
  | latest => ["install"; "-U"]
  | forcereinstall => ["install"; "-U"; "--force-reinstall"]
  end.

Definition state_eqb (a b : state_choice) : bool :=
  match a, b with
  | present, present | absent, absent | latest, latest
  | forcereinstall, forcereinstall => true
  | _, _ => false
  end.

Definition is_some {A} (o : option A) : bool :=
  match o with Some _ => true | None => false end.

Definition truthy_list {A} (o : option (list A)) : bool :=
  match o with Some (_ :: _) => true | _ => false end.

Definition or_nil {A} (o : option (list A)) : list A :=
  match o with Some l => l | None => [] end.

(** The value of the variable [umask] once the string parameter has been
    converted: an [int], or the (empty) string left as it was. *)
Inductive umask_value :=
| UmaskInt (z : Z)
| UmaskStr (s : string).

Definition newline : string := String "010"%char EmptyString.

Definition exit_changed (b : bool) : exit_result :=
  {| changed := b; res_cmd := None; res_stdout := None; res_stderr := None;
     res_warnings := [] |}.

Section Modules.
Context (host : Host).

(** The statements shared by both [main] functions: conversion of the
    [umask] parameter and the call of [os.umask]. *)
Definition parse_umask (umask : option string) : M (option umask_value) :=
  match umask with
  | Some s =>
      if Str.truthy s then
        match int_octal host s with
        | Some z => ret (Some (UmaskInt z))
        | None => fail_json "umask must be an octal integer" None
        end
      else ret (Some (UmaskStr s))
  | None => ret None
  end.

Definition set_umask (umask : option umask_value) : M (option Z) :=
  match umask with
  | None => ret None
  | Some (UmaskInt z) => old <- os_umask z ; ret (Some old)
  | Some (UmaskStr _) => raise TypeError
  end.

Definition restore_umask (old_umask : option Z) : M unit :=
  match old_umask with
  | Some old => _ <- os_umask old ; ret tt
  | None => ret tt
  end.

(** [if env: if not os.path.exists(...): ...setup_virtualenv...] *)
Definition ensure_virtualenv (module : AnsibleModule) (env : option string)
    (chdir out err : string) : M (bool * string * string) :=
  if truthy_opt env then
    ex <- path_exists host (path_join (path_join (or_empty env) "bin") "activate") ;
    if negb ex then
      '(out, err) <- setup_virtualenv host module (or_empty env) chdir out err ;
      ret (true, out, err)
    else ret (false, out, err)
  else ret (false, out, err).

Fixpoint map_except {A B} (f : A -> except B) (l : list A) : except (list B) :=
  match l with
  | [] => Ok []
  | a :: rest =>
      except_bind (f a) (fun b =>
      except_bind (map_except f rest) (fun bs => Ok (b :: bs)))
  end.

(** [if name: ...]: the VCS test, the [Package] instances and the checks
    on [version]. *)
Definition build_packages (name : list string) (version : option string)
  : M (bool * list Package) :=
  let has_vcs := existsb (fun pkg => Str.truthy pkg && _is_vcs_url pkg) name in
  (* convert raw input package names to Package instances *)
  packages <- lift_except
                (map_except (fun pkg => Package_init host pkg None)
                            (_recover_package_name name)) ;
  (* check invalid combination of arguments *)
  match version with
  | Some version =>
      when (Nat.ltb 1 (length packages))
           (fail_json ("'version' argument is ambiguous when installing multiple package distributions. "
                       +:+ "Please specify version restrictions next to each package in 'name' argument.")
                      None) >>
      match packages with
      | [] => raise IndexError
      | p0 :: rest =>
          when (has_version_specifier p0)
               (fail_json ("The 'version' argument conflicts with any version specifier provided along with a package name. "
                           +:+ "Please keep the version specifier, but remove the 'version' argument.")
                          None) >>
          (* if the version specifier is provided by version, append that into the package *)
          p0' <- lift_except (Package_init host (package_name p0) (Some version)) ;
          ret (has_vcs, p0' :: rest)
      end
  | None => ret (has_vcs, packages)
  end.

(** [if module.params['editable']: ...] *)
Definition editable_args (editable : bool) (extra_args : option string)
  : option string :=
  if editable then
    let args_list := if truthy_opt extra_args
                     then Str.split " " (or_empty extra_args) else [] in
    if negb (Str.mem "-e" args_list)
    then Some (Str.join " " (args_list ++ ["-e"]))
    else extra_args
  else extra_args.

(** The special case for [pip freeze], which lists neither setuptools nor
    pip. *)
Fixpoint special_packages (pkgs : list string) (name : list string)
    (env : option string) (pkg_list : list string) (out : string)
  : M (list string * string) :=
  match pkgs with
  | [] => ret (pkg_list, out)
  | pkg :: rest =>
      if Str.mem pkg name then
        formatted_dep <- _get_package_info host pkg env ;
        match formatted_dep with
        | Some dep => special_packages rest name env (pkg_list ++ [dep])
                                       (out +:+ (dep +:+ newline))
        | None => special_packages rest name env pkg_list out
        end
      else special_packages rest name env pkg_list out
  end.

(** [for package in packages: ... changed = True; break] *)
Fixpoint any_package_changes (state : state_choice) (packages : list Package)
    (pkg_list : list string) : except bool :=
  match packages with
  | [] => Ok false
  | package :: rest =>
      except_bind (_is_present host (ReqPackage package) pkg_list) (fun is_present =>
      if (state_eqb state present && negb is_present)
         || (state_eqb state absent && is_present)
      then Ok true
      else any_package_changes state rest pkg_list)
  end.

(** [if module.check_mode: ...] *)
Definition pip_check_mode (module : AnsibleModule) (pip chdir : string)
    (env extra_args : option string) (packages : list Package)
    (out err : string) : M unit :=
  let state := p_state (params module) in
  let name := p_name (params module) in
  let requirements := p_requirements (params module) in
  when (truthy_opt extra_args || truthy_opt requirements
        || state_eqb state latest || negb (truthy_list name))
       (exit_json (exit_changed true)) >>
  '(pkg_cmd, out_pip, err_pip) <- _get_packages host pip chdir ;
  let out := out +:+ out_pip in
  let err := err +:+ err_pip in
  '(changed, out) <-
     (if truthy_list name then
        let pkg_list :=
          List.filter (fun p => negb (Str.startswith "You are using" p)
                                && negb (Str.startswith "You should consider" p)
                                && Str.truthy p)
                      (Str.split newline out) in
        '(pkg_list, out) <-
           (if Str.endswith " freeze" pkg_cmd
               && (Str.mem "pip" (or_nil name) || Str.mem "setuptools" (or_nil name))
            then special_packages ["setuptools"; "pip"] (or_nil name) env pkg_list out
            else ret (pkg_list, out)) ;
        changed <- lift_except (any_package_changes state packages pkg_list) ;
        ret (changed, out)
      else ret (false, out)) ;
  exit_json {| changed := changed; res_cmd := Some (CmdStr pkg_cmd);
               res_stdout := Some out; res_stderr := Some err;
               res_warnings := [] |}.

(** The body of the [try] statement of [main]. *)
Definition pip_body (module : AnsibleModule) (env : option string) : M unit :=
  let state := p_state (params module) in
  let name := p_name (params module) in
  let version := p_version (params module) in
  let requirements := p_requirements (params module) in
  let extra_args := p_extra_args (params module) in
  when (state_eqb state latest && is_some version)
       (fail_json "version is incompatible with state=latest" None) >>
  let chdir := match p_chdir (params module) with
               | None => gettempdir host
               | Some chdir => chdir
               end in
  let err := EmptyString in
  let out := EmptyString in
  '(venv_created, out, err) <- ensure_virtualenv module env chdir out err ;
  pip <- _get_pip host env (p_executable (params module)) ;
  let cmd := [pip] ++ state_map state in
  let path_prefix :=
    if truthy_opt env
    then Some (Str.join "/" (removelast (Str.split "/" pip)))
    else None in
  '(has_vcs, packages) <-
     (if truthy_list name then build_packages (or_nil name) version
      else ret (false, [])) ;
  let extra_args := editable_args (p_editable (params module)) extra_args in
  cmd <- (if truthy_opt extra_args then
            match shlex_split host (or_empty extra_args) with
            | Some l => ret (cmd ++ l)
            | None => raise ValueError
            end
          else ret cmd) ;
  cmd <- (if truthy_list name then ret (cmd ++ map Package_str packages)
          else if truthy_opt requirements
          then ret (cmd ++ ["-r"; or_empty requirements])
          else exit_json {| changed := false; res_cmd := None;
                            res_stdout := None; res_stderr := None;
                            res_warnings := ["No valid name or requirements file found."] |}) ;
  when (check_mode module)
       (pip_check_mode module pip chdir env extra_args packages out err) >>
  out_freeze_before <-
    (if truthy_opt requirements || has_vcs then
       '(_, out_freeze_before, _) <- _get_packages host pip chdir ;
       ret (Some out_freeze_before)
     else ret None) ;
  '(rc, out_pip, err_pip) <-
     run_command host PipAction (CmdList cmd) (Some chdir) [] path_prefix ;
  let out := out +:+ out_pip in
  let err := err +:+ err_pip in
  (if Z.eqb rc 1 && state_eqb state absent
      && (Str.contains "not installed" out_pip || Str.contains "not installed" err_pip)
   then ret tt  (* rc is 1 when attempting to uninstall non-installed package *)
   else when (nonzero rc) (_fail (CmdList cmd) out err)) >>
  changed <-
    (if state_eqb state absent
     then ret (Str.contains "Successfully uninstalled" out_pip)
     else match out_freeze_before with
          | None => ret (Str.contains "Successfully installed" out_pip)
          | Some out_freeze_before =>
              '(_, out_freeze_after, _) <- _get_packages host pip chdir ;
              ret (negb (String.eqb out_freeze_before out_freeze_after))
          end) ;
  let changed := changed || venv_created in
  exit_json {| changed := changed; res_cmd := Some (CmdList cmd);
               res_stdout := Some out; res_stderr := Some err;
               res_warnings := [] |}.

Definition joined_env (module : AnsibleModule) : option string :=
  let env := p_virtualenv (params module) in
  if truthy_opt env && truthy_opt (p_chdir (params module))
  then Some (path_join (or_empty (p_chdir (params module))) (or_empty env))
  else env.

(** [main()] of module pip, the [AnsibleModule] object being built. *)
Definition pip_main (module : AnsibleModule) : M unit :=
  when (negb (HAS_SETUPTOOLS host))
       (fail_json "No setuptools found in remote host, please install it first." None) >>
  let env := joined_env module in
  umask <- parse_umask (p_umask (params module)) ;
  old_umask <- set_umask umask ;
  try_finally (pip_body module env) (restore_umask old_umask).

(* ===================================================================== *)
(** ** modules/packaging/language/pipenv.py *)
(* ===================================================================== *)

Fixpoint chars (s : string) : list string :=
  match s with
  | EmptyString => []
  | String c s' => String c EmptyString :: chars s'
  end.

Definition _get_pipenv (env executable : option string) : M string :=
  if truthy_opt env then ret (path_join (or_empty env) "bin/pipenv")
  else
    let candidate_name := "pipenv" in
    if truthy_opt executable then
      (* os.path.abspath(executable) is a non-empty string *)
      ret (or_empty executable)
    else
      pipenv <- get_bin_path host candidate_name [] ;
      match pipenv with
      | None => fail_json ("Unable to find " +:+ Str.join ", " (chars candidate_name)
                           +:+ ". pipenv needs to be installed.") None
      | Some pipenv => ret pipenv
      end.

Definition has_changes (lockfile pip : string) : bool := true.

(** The body of the [try] statement of [main]. *)
Definition pipenv_body (module : AnsibleModule) (env : option string) : M unit :=
  let path := p_path (params module) in
  let executable := p_executable (params module) in
  let chdir := match p_chdir (params module) with
               | None => gettempdir host
               | Some chdir => chdir
               end in
  let err := EmptyString in
  let out := EmptyString in
  '(venv_created, out, err) <- ensure_virtualenv module env chdir out err ;
  pip <- _get_pip host env (Some chdir) ;
  '(command, out_list, err_list) <- _get_packages host pip chdir ;
  let packages := [command; out_list; err_list] in
  is_present <- lift_except (_is_present host (ReqStr "pipenv") packages) ;
  '(pipenv_installed, out, err) <-
     (if negb is_present && truthy_opt env then
        '(rc, out_pip, err_pip) <-
           run_command host PipInstallPipenv (CmdList ["pip"; "install"; "pipenv"])
                       None [] None ;
        let out := out +:+ out_pip in
        let err := err +:+ err_pip in
        when (nonzero rc) (_fail (CmdList ["pip"; "install"; "pipenv"]) out err) >>
        ret (true, out, err)
      else ret (false, out, err)) ;
  lockfile <- match path with
              | Some path => ret (path_join path "Pipfile.lock")
              | None => raise (if PY3 host then TypeError else AttributeError)
              end ;
  '(ran_pipenv, cmd, out, err) <-
     (if has_changes lockfile pip then
        pipenv <- _get_pipenv env executable ;
        let cmd := [pipenv; "sync"] in
        when (truthy_opt env) (os_environ_set "VIRTUAL_ENV" (or_empty env)) >>
        '(rc, out_pipenv, err_pipenv) <-
           run_command host PipenvSync (CmdList cmd) path [] None ;
        let out := out +:+ out_pipenv in
        let err := err +:+ err_pipenv in
        when (nonzero rc) (_fail (CmdList cmd) out err) >>
        ret (true, Some (CmdList cmd), out, err)
      else ret (false, None, out, err)) ;
  let changed := venv_created || pipenv_installed || ran_pipenv in
  exit_json {| changed := changed; res_cmd := cmd;
               res_stdout := Some out; res_stderr := Some err;
               res_warnings := [] |}.

(** [main()] of module pipenv, the [AnsibleModule] object being built. *)
Definition pipenv_main (module : AnsibleModule) : M unit :=
  when (negb (HAS_SETUPTOOLS host))
       (fail_json "No setuptools found in remote host, please install it first." None) >>
  let env := joined_env module in
  umask <- parse_umask (p_umask (params module)) ;
  old_umask <- set_umask umask ;
  try_finally (pipenv_body module env) (restore_umask old_umask).

End Modules.

(* ===================================================================== *)
(** ** Reference hosts and inputs *)
(* ===================================================================== *)

(** A version made of decimal numbers separated by dots, compared
    component by component: what [LooseVersion] computes on such strings. *)
Fixpoint decimal_from (s : string) (acc : nat) : nat :=
  match s with
  | EmptyString => acc
  | String c s' => decimal_from s' (10 * acc + (nat_of_ascii c - 48))
  end.

Definition numeric_version (s : string) : list nat :=
  map (fun part => decimal_from part 0) (Str.split "." s).

Fixpoint compare_components (a b : list nat) : comparison :=
  match a, b with
  | [], [] => Eq
  | [], _ :: _ => Lt
  | _ :: _, [] => Gt
  | x :: a', y :: b' =>
      match Nat.compare x y with
      | Eq => compare_components a' b'
      | c => c
      end
  end.

Definition numeric_cmp (a b : string) : comparison :=
  compare_components (numeric_version a) (numeric_version b).

(** [int(s, 8)] on strings of octal digits. *)
Fixpoint octal_from (s : string) (acc : Z) : option Z :=
  match s with
  | EmptyString => Some acc
  | String c s' =>
      let n := nat_of_ascii c in
      if Nat.leb 48 n && Nat.leb n 55
      then octal_from s' (8 * acc + Z.of_nat (n - 48))%Z
      else None
  end.

Definition octal (s : string) : option Z :=
  match s with
  | EmptyString => None
  | _ => octal_from s 0%Z
  end.

(** A host on which every command succeeds silently, every executable is
    found under /usr/bin and every path exists. *)
Definition quiet_host : Host := {|
  HAS_SETUPTOOLS := true;
  PY3 := true;
  sys_executable := "/usr/bin/python3";
  gettempdir := "/tmp";
  run_command_result := fun _ _ => (0%Z, EmptyString, EmptyString);
  get_bin_path_result := fun _ arg _ => Some ("/usr/bin/" +:+ arg);
  os_path_exists := fun _ _ => true;
  is_executable := fun _ _ => true;
  Requirement_global := None;
  LooseVersion_cmp := fun a b => Ok (numeric_cmp a b);
  int_octal := octal;
  shlex_split := fun s => Some (Str.words s);
|}.

Definition world0 : World :=
  {| umask := 18%Z; environ := ∅; history := [] |}.

(** A requirement and its [Package], as [Requirement.parse("foo")] of a
    recent setuptools would give. *)
Definition foo_requirement : Requirement :=
  {| project_name := "foo"; specs := [];
     specifier := Some (fun _ => Ok true); req_native := "foo" |}.

Definition foo_package : Package := PlainPackage "foo" foo_requirement.

(** The same requirement as a setuptools that parses versions strictly
    holds it: [specifier.contains] accepts a version made of digits and
    dots and raises [InvalidVersion], a [ValueError], on any other string. *)
Fixpoint release_only (version : string) : bool :=
  match version with
  | EmptyString => true
  | String c rest => (Str.isdigit c || Ascii.eqb c ".") && release_only rest
  end.

Definition strict_requirement : Requirement :=
  {| project_name := "foo"; specs := [];
     specifier := Some (fun version => if release_only version then Ok true
                                       else Raise ValueError);
     req_native := "foo" |}.

Definition strict_package : Package := PlainPackage "foo" strict_requirement.

(** A host with an old pip, which has no [list --format=freeze], and a
    virtualenv under /venv: every other command succeeds silently. *)
Definition venv_host : Host := {|
  HAS_SETUPTOOLS := true;
  PY3 := true;
  sys_executable := "/usr/bin/python3";
  gettempdir := "/tmp";
  run_command_result := fun _ inv =>
    match inv_site inv with
    | PipList => (2%Z, EmptyString, "no such option: --format")
    | _ => (0%Z, EmptyString, EmptyString)
    end;
  get_bin_path_result := fun _ arg _ => Some ("/usr/bin/" +:+ arg);
  os_path_exists := fun _ p => Str.mem p ["/venv/bin/activate"; "/venv/bin/pip"];
  is_executable := fun _ p => Str.mem p ["/venv/bin/pip"];
  Requirement_global := None;
  LooseVersion_cmp := fun a b => Ok (numeric_cmp a b);
  int_octal := octal;
  shlex_split := fun s => Some (Str.words s);
|}.

(** [Requirement.parse] on the strings [name] and [name==version]. *)
Definition parse_simple (s : string) : option Requirement :=
  match Str.split "==" s with
  | [n] =>
      if Str.truthy n
      then Some {| project_name := n; specs := [];
                   specifier := Some (fun _ => Ok true); req_native := n |}
      else None
  | [n; v] =>
      Some {| project_name := n; specs := [("==", v)];
              specifier := Some (fun version => Ok (String.eqb v version));
              req_native := s |}
  | _ => None
  end.

(** A host with a recent pip, where foo 1.0 and bar 2.0 are installed, and
    where module_utils/pip.py finds [Requirement]. *)
Definition listing_host : Host := {|
  HAS_SETUPTOOLS := true;
  PY3 := true;
  sys_executable := "/usr/bin/python3";
  gettempdir := "/tmp";
  run_command_result := fun _ inv =>
    match inv_site inv with
    | PipList => (0%Z, "foo==1.0" +:+ newline +:+ "bar==2.0" +:+ newline, EmptyString)
    | _ => (0%Z, EmptyString, EmptyString)
    end;
  get_bin_path_result := fun _ arg _ => Some ("/usr/bin/" +:+ arg);
  os_path_exists := fun _ _ => false;
  is_executable := fun _ _ => false;
  Requirement_global := Some parse_simple;
  LooseVersion_cmp := fun a b => Ok (numeric_cmp a b);
  int_octal := octal;
  shlex_split := fun s => Some (Str.words s);
|}.

(** pip with [name] and [version], in check mode or not. *)
Definition pip_named_module (name : list string) (version : option string)
    (check : bool) : AnsibleModule := {|
  params := {|
    p_state := present; p_name := Some name; p_version := version;
    p_requirements := None; p_virtualenv := None;
    p_virtualenv_site_packages := false; p_virtualenv_command := "virtualenv";
    p_virtualenv_python := None; p_extra_args := None; p_editable := false;
    p_chdir := None; p_executable := None; p_umask := None;
    p_path := None |};
  check_mode := check;
|}.

(** pipenv: [path=/srv/app virtualenv=/venv chdir=proj umask=022] *)
Definition pipenv_venv_module : AnsibleModule := {|
  params := {|
    p_state := present; p_name := None; p_version := None;
    p_requirements := None; p_virtualenv := Some "/venv";
    p_virtualenv_site_packages := false; p_virtualenv_command := "virtualenv";
    p_virtualenv_python := None; p_extra_args := None; p_editable := false;
    p_chdir := Some "proj"; p_executable := None; p_umask := Some "022";
    p_path := Some "/srv/app" |};
  check_mode := false;
|}.

(** pip: [requirements=requirements.txt umask=022] *)
Definition pip_requirements_module : AnsibleModule := {|
  params := {|
    p_state := present; p_name := None; p_version := None;
    p_requirements := Some "requirements.txt"; p_virtualenv := None;
    p_virtualenv_site_packages := false; p_virtualenv_command := "virtualenv";
    p_virtualenv_python := None; p_extra_args := None; p_editable := false;
    p_chdir := None; p_executable := None; p_umask := Some "022";
    p_path := None |};
  check_mode := false;
|}.

(* ===================================================================== *)
(** ** Vocabulary of the statements about runs *)
(* ===================================================================== *)

(** [s] occurs in [t]. *)
Definition substring (s t : string) : Prop :=
  exists a b, t = a +:+ s +:+ b.

(** The failure report [o] forwards the stdout and stderr of [r]. *)
Definition reported (o : option outcome) (r : run_record) : Prop :=
  match o with
  | Some (FailJson msg _) => substring (rr_out r) msg /\ substring (rr_err r) msg
  | _ => False
  end.

(** [pip uninstall] of a package that is not installed: exit code 1 and
    the words [not installed] in the output. *)
Definition uninstall_of_absent (state : state_choice) (r : run_record) : Prop :=
  inv_site (rr_inv r) = PipAction /\ state = absent /\ rr_rc r = 1%Z
  /\ (Str.contains "not installed" (rr_out r)
      || Str.contains "not installed" (rr_err r)) = true.

(** The commands run, in order, and the way the run ended ([None] while
    it goes on): a command with a nonzero exit code is [pip list] followed
    by [pip freeze], or is tolerated ([tol]), or is the last one and is
    reported. *)
Fixpoint trace_ok (tol : run_record -> Prop) (o : option outcome)
    (l : list run_record) : Prop :=
  match l with
  | [] => True
  | r :: rest =>
      (rr_rc r = 0%Z
       \/ (inv_site (rr_inv r) = PipList
           /\ exists r2 rest', rest = r2 :: rest'
                               /\ inv_site (rr_inv r2) = PipFreeze)
       \/ tol r
       \/ (rest = [] /\ reported o r))
      /\ trace_ok tol o rest
  end.

(** What module pip tolerates. *)
Definition pip_tolerates (state : state_choice) (r : run_record) : Prop :=
  inv_site (rr_inv r) = SpecialProbe \/ uninstall_of_absent state r.

(** A run ends in failure: [fail_json] or an uncaught exception. *)
Definition is_failure (o : outcome) : Prop :=
  match o with
  | FailJson _ _ | Uncaught _ => True
  | ExitJson _ => False
  end.

(** The way a run ended, [None] if it has not stopped. *)
Definition outcome_of {A} (r : result A) : option outcome :=
  match r with Stop o => Some o | Ret _ => None end.

(** [r] was answered by a failure report that forwards its output. *)
Definition forwarded {A} (res : result A) (r : run_record) : Prop :=
  exists msg cmd, res = Stop (FailJson msg cmd)
                  /\ substring (rr_out r) msg /\ substring (rr_err r) msg.

(** The call sites of the creation of a virtualenv. *)
Definition venv_sites (s : call_site) : bool :=
  match s with VenvHelp | VenvCreate => true | _ => false end.

(** [version] is given together with [state=latest], or with a [name]
    that holds more than one package, or with a single package whose name
    carries a version specifier. *)
Definition version_conflict (host : Host) (module : AnsibleModule) : Prop :=
  is_some (p_version (params module)) = true
  /\ (p_state (params module) = latest
      \/ (truthy_list (p_name (params module)) = true
          /\ 1 < length (_recover_package_name (or_nil (p_name (params module)))))
      \/ (truthy_list (p_name (params module)) = true
          /\ exists p pk,
              _recover_package_name (or_nil (p_name (params module))) = [p]
              /\ Package_init host p None = Ok pk
              /\ has_version_specifier pk = true)).

(** The ends of a run with such arguments: a failure, or the exit of
    [setup_virtualenv] in check mode. *)
Definition rejected (module : AnsibleModule) (o : outcome) : Prop :=
  is_failure o
  \/ (check_mode module = true
      /\ p_state (params module) <> latest
      /\ truthy_opt (p_virtualenv (params module)) = true
      /\ o = ExitJson (exit_changed true)).

(** pip in check mode: [name=a,b version=1.0 virtualenv=/venv2], the
    virtualenv not being there yet. *)
Definition pip_check_conflict_module : AnsibleModule := {|
  params := {|
    p_state := present; p_name := Some ["a"; "b"]; p_version := Some "1.0";
    p_requirements := None; p_virtualenv := Some "/venv2";
    p_virtualenv_site_packages := false; p_virtualenv_command := "virtualenv";
    p_virtualenv_python := None; p_extra_args := None; p_editable := false;
    p_chdir := None; p_executable := None; p_umask := None;
    p_path := None |};
  check_mode := true;
|}.

(** pip: [name=a,b version=1.0] *)
Definition pip_conflict_module : AnsibleModule :=
  pip_named_module ["a"; "b"] (Some "1.0") false.



(** The compatible-release clause [~= ver] on numeric versions: at least
    [ver], and equal to [ver] on all but its last component. *)
Definition compatible_release (v ver : list nat) : bool :=
  match compare_components v ver with Lt => false | _ => true end
  && match compare_components (firstn (length ver - 1) v) (removelast ver) with
     | Eq => true
     | _ => false
     end.

(** The standard meaning of a version constraint on numeric versions. *)
Definition standard_meaning (op : spec_op) (v ver : string) : bool :=
  match op with
  | OpCompat => compatible_release (numeric_version v) (numeric_version ver)
  | _ => op_dict op (numeric_cmp v ver)
  end.

(** One of the three strings of the tuple of [_get_packages] holds ['==']. *)
Definition any_has_separator (command out err : string) : bool :=
  Str.contains "==" command || Str.contains "==" out || Str.contains "==" err.

(** A listing command that succeeded and whose command line, stdout or
    stderr holds ['==']. *)
Definition listing_with_separator (r : run_record) : Prop :=
  (inv_site (rr_inv r) = PipList \/ inv_site (rr_inv r) = PipFreeze)
  /\ rr_rc r = 0%Z
  /\ exists command, inv_cmd (rr_inv r) = CmdStr command
                     /\ any_has_separator command (rr_out r) (rr_err r) = true.

(** The call sites of module pipenv after the listing. *)
Definition pipenv_sites (s : call_site) : bool :=
  match s with PipInstallPipenv | PipenvSync => true | _ => false end.




(* ===================================================================== *)
(** ** The program logic and the invariants of the proofs *)
(* ===================================================================== *)

(** [hoare P c Q]: from a world that satisfies [P], the final world and
    the result of [c] satisfy [Q]. *)
Definition hoare {A} (P : World -> Prop) (c : M A)
    (Q : World -> result A -> Prop) : Prop :=
  forall w, P w -> Q (fst (c w)) (snd (c w)).

(** The postcondition made of an invariant [I] for the runs that go on
    and a condition [J] on the runs that stop. *)
Definition post {A} (I : World -> Prop) (J : World -> outcome -> Prop)
  : World -> result A -> Prop :=
  fun w r => match r with Ret _ => I w | Stop o => J w o end.

(** The same with a condition [V] on the value returned. *)
Definition postv {A} (I : World -> Prop) (J : World -> outcome -> Prop)
    (V : A -> Prop) : World -> result A -> Prop :=
  fun w r => match r with Ret a => I w /\ V a | Stop o => J w o end.

(** Footprint of a run since the world [w0]: the umask is unchanged, the
    environment variables outside of [vars] are unchanged, and the
    commands run since then come from the call sites [sites]. *)
Definition within (sites : call_site -> bool) (vars : list string) (w0 w : World)
  : Prop :=
  umask w = umask w0
  /\ (forall k, ~ In k vars -> environ w !! k = environ w0 !! k)
  /\ exists new, history w = history w0 ++ new
                 /\ Forall (fun r => sites (inv_site (rr_inv r)) = true) new.

(** The footprint holds however the run goes on, and a run that stops
    does so with an outcome that [good] allows. *)
Definition always (sites : call_site -> bool) (vars : list string) (w0 : World)
    (good : outcome -> Prop) {A} : World -> result A -> Prop :=
  post (within sites vars w0) (fun w o => within sites vars w0 w /\ good o).

(** The commands run since the history was [h0] are in order: while the
    run goes on, and when it stops with [o]. *)
Definition traced (tol : run_record -> Prop) (h0 : list run_record) (w : World)
  : Prop :=
  exists new, history w = h0 ++ new /\ trace_ok tol None new.

Definition traced_stop (tol : run_record -> Prop) (h0 : list run_record)
    (w : World) (o : outcome) : Prop :=
  exists new, history w = h0 ++ new /\ trace_ok tol (Some o) new.

Definition tracing (tol : run_record -> Prop) (h0 : list run_record) {A}
  : World -> result A -> Prop :=
  post (traced tol h0) (traced_stop tol h0).

(** One command has just been run and its exit code not yet looked at. *)
Definition pending (tol : run_record -> Prop) (h0 : list run_record)
    (r : run_record) (w : World) : Prop :=
  exists new, history w = h0 ++ new ++ [r] /\ trace_ok tol None new.

(** [pip list] has failed and [pip freeze] has just been run. *)
Definition fallback_pending (tol : run_record -> Prop) (h0 : list run_record)
    (r1 r2 : run_record) (w : World) : Prop :=
  exists new, history w = h0 ++ new ++ [r1; r2] /\ trace_ok tol None new.

(** An element of the result of [_recover_package_name] that opens with a
    package name. *)
Definition opens_with_package_name (e : string) : Prop :=
  _is_package_name (hd EmptyString (Str.split "," e)) = true.

(** Every [exit_json] says [changed=true]. *)
Definition reports_changed (o : outcome) : Prop :=
  forall r, o = ExitJson r -> changed r = true.

(** No listing with ['=='] has succeeded since the history was [h0]. *)
Definition unlisted (h0 : list run_record) (w : World) : Prop :=
  exists new, history w = h0 ++ new
              /\ Forall (fun r => ~ listing_with_separator r) new.

(** How the check of module pipenv ends the run. *)
Definition check_raised {A} (r : result A) : Prop :=
  r = Stop (Uncaught ValueError) \/ r = Stop (Uncaught AttributeError).

Definition site_index (s : call_site) : nat :=
  match s with
  | PipList => 0 | PipFreeze => 1 | VenvHelp => 2 | VenvCreate => 3
  | SpecialProbe => 4 | PipAction => 5 | PipInstallPipenv => 6 | PipenvSync => 7
  end.

Definition site_eqb (a b : call_site) : bool :=
  Nat.eqb (site_index a) (site_index b).

(** Every call site but [s]. *)
Definition other_than (s x : call_site) : bool := negb (site_eqb x s).

(** The commands of [l] that were run from the call site [s]. *)
Definition runs_of (s : call_site) (l : list run_record) : list run_record :=
  List.filter (fun r => site_eqb (inv_site (rr_inv r)) s) l.

(** Since the history was [h0], nothing was run from [s]; at most one
    command was run from [s]. *)
Definition never_run (s : call_site) (h0 : list run_record) (w : World) : Prop :=
  exists new, history w = h0 ++ new /\ runs_of s new = [].

Definition run_at_most_once (s : call_site) (h0 : list run_record) (w : World)
  : Prop :=
  exists new, history w = h0 ++ new /\ length (runs_of s new) <= 1.

(** A block whose footprint leaves the call site [s] out. *)
Definition apart_from {A} (s : call_site) (c : M A) : Prop :=
  forall w0, hoare (within (other_than s) ["VIRTUAL_ENV"] w0) c
                   (always (other_than s) ["VIRTUAL_ENV"] w0 (fun _ => True)).

(* ===================================================================== *)
(** ** Vocabulary of the further properties *)
(* ===================================================================== *)

(** Every character of [s] satisfies [P]. *)
Fixpoint all_chars (P : ascii -> bool) (s : string) : bool :=
  match s with
  | EmptyString => true
  | String c s' => P c && all_chars P s'
  end.

Definition no_space (s : string) : bool :=
  all_chars (fun c => negb (Str.is_space c)) s.

(** [any(ex in module.params['virtualenv_command'] for ex in ('pyvenv', '-m venv'))] *)
Definition uses_venv_module (module : AnsibleModule) : bool :=
  existsb (fun ex => Str.contains ex (p_virtualenv_command (params module)))
          ["pyvenv"; "-m venv"].

(** The statements of [main] around the body of its [try]. *)
Definition guarded (host : Host) (umask_param : option string) (body : M unit)
  : M unit :=
  bind (parse_umask host umask_param) (fun u =>
  bind (set_umask u) (fun old_umask =>
  try_finally body (restore_umask old_umask))).

(** The commands run since the history was [h0] all satisfy [ok]. *)
Definition recorded (ok : run_record -> Prop) (h0 : list run_record) (w : World)
  : Prop :=
  exists new, history w = h0 ++ new /\ Forall ok new.

(** This holds however the run goes on, and a run that stops does so with
    an outcome that [good] allows. *)
Definition recording (ok : run_record -> Prop) (good : outcome -> Prop)
    (h0 : list run_record) {A} : World -> result A -> Prop :=
  post (recorded ok h0) (fun w o => recorded ok h0 w /\ good o).

(** The same for a block that stops the run. *)
Definition ending (ok : run_record -> Prop) (good : outcome -> Prop)
    (h0 : list run_record) {A} : World -> result A -> Prop :=
  fun w r => exists o, r = Stop o /\ recorded ok h0 w /\ good o.

(** A run that ends without a report of success, or with the one of
    [setup_virtualenv] in check mode. *)
Definition unsuccessful (module : AnsibleModule) (o : outcome) : Prop :=
  is_failure o
  \/ (check_mode module = true /\ o = ExitJson (exit_changed true)).

(** The call sites of the queries: the two listings and the version probe. *)
Definition query_sites (s : call_site) : bool :=
  match s with PipList | PipFreeze | SpecialProbe => true | _ => false end.

(** The variable [chdir] of both [main] functions. *)
Definition main_chdir (host : Host) (module : AnsibleModule) : string :=
  match p_chdir (params module) with
  | None => gettempdir host
  | Some chdir => chdir
  end.


(** [module.exit_json(changed=False, warnings=["No valid name or
    requirements file found."])] *)
Definition nothing_to_do : exit_result :=
  {| changed := false; res_cmd := None; res_stdout := None; res_stderr := None;
     res_warnings := ["No valid name or requirements file found."] |}.

(** The listing commands of a run use [pip] as the pip executable. *)
Definition lists_with (pip : string) (r : run_record) : Prop :=
  (inv_site (rr_inv r) = PipList
   -> inv_cmd (rr_inv r) = CmdStr (pip +:+ " list --format=freeze"))
  /\ (inv_site (rr_inv r) = PipFreeze
      -> inv_cmd (rr_inv r) = CmdStr (pip +:+ " freeze")).

(** The call sites of module pipenv when no virtualenv is given. *)
Definition plain_pipenv_sites (s : call_site) : bool :=
  match s with PipList | PipFreeze | PipenvSync => true | _ => false end.

(** Since the history was [h0], [VIRTUAL_ENV] has been set to [v]. *)
Definition activated (v : string) (h0 : list run_record) (w : World) : Prop :=
  (exists new, history w = h0 ++ new)
  /\ environ w !! "VIRTUAL_ENV" = Some v.

(** The same, in case [pipenv sync] has been run. *)
Definition activated_if_synced (v : string) (h0 : list run_record) (w : World)
  : Prop :=
  exists new, history w = h0 ++ new
              /\ ((exists r, In r new /\ inv_site (rr_inv r) = PipenvSync)
                  -> environ w !! "VIRTUAL_ENV" = Some v).

(** *** Further hosts and inputs *)

(** [Package("Django")], the requirement being parsed. *)
Definition django_package : Package :=
  PlainPackage "Django"
    {| project_name := "Django"; specs := []; specifier := Some (fun _ => Ok true);
       req_native := "Django" |}.

(** The virtualenv has been created in the run so far. *)
Definition virtualenv_created (w : World) : bool :=
  existsb (fun r => site_eqb (inv_site (rr_inv r)) VenvCreate) (history w).

(** A host on which every command succeeds silently, and on which the
    virtualenv /venv2 is there once the command that creates it has run. *)
Definition creating_host : Host := {|
  HAS_SETUPTOOLS := true;
  PY3 := true;
  sys_executable := "/usr/bin/python3";
  gettempdir := "/tmp";
  run_command_result := fun _ _ => (0%Z, EmptyString, EmptyString);
  get_bin_path_result := fun _ arg _ => Some ("/usr/bin/" +:+ arg);
  os_path_exists := fun w p =>
    virtualenv_created w && Str.mem p ["/venv2/bin/activate"; "/venv2/bin/pip3"];
  is_executable := fun w p => virtualenv_created w && Str.mem p ["/venv2/bin/pip3"];
  Requirement_global := Some parse_simple;
  LooseVersion_cmp := fun a b => Ok (numeric_cmp a b);
  int_octal := octal;
  shlex_split := fun s => Some (Str.words s);
|}.

(** pip: [name=[] virtualenv=/venv2] *)
Definition pip_empty_module : AnsibleModule := {|
  params := {|
    p_state := present; p_name := Some []; p_version := None;
    p_requirements := None; p_virtualenv := Some "/venv2";
    p_virtualenv_site_packages := false; p_virtualenv_command := "virtualenv";
    p_virtualenv_python := None; p_extra_args := None; p_editable := false;
    p_chdir := None; p_executable := None; p_umask := None;
    p_path := None |};
  check_mode := false;
|}.

(** pip: [requirements=requirements.txt umask=8] *)
Definition bad_umask_module : AnsibleModule := {|
  params := {|
    p_state := present; p_name := None; p_version := None;
    p_requirements := Some "requirements.txt"; p_virtualenv := None;
    p_virtualenv_site_packages := false; p_virtualenv_command := "virtualenv";
    p_virtualenv_python := None; p_extra_args := None; p_editable := false;
    p_chdir := None; p_executable := None; p_umask := Some "8";
    p_path := None |};
  check_mode := false;
|}.

(** pip in check mode: [requirements=requirements.txt] *)
Definition pip_check_requirements_module : AnsibleModule := {|
  params := {|
    p_state := present; p_name := None; p_version := None;
    p_requirements := Some "requirements.txt"; p_virtualenv := None;
    p_virtualenv_site_packages := false; p_virtualenv_command := "virtualenv";
    p_virtualenv_python := None; p_extra_args := None; p_editable := false;
    p_chdir := None; p_executable := None; p_umask := None;
    p_path := None |};
  check_mode := true;
|}.

(** pipenv: [path=/srv/app] *)
Definition pipenv_plain_module : AnsibleModule := {|
  params := {|
    p_state := present; p_name := None; p_version := None;
    p_requirements := None; p_virtualenv := None;
    p_virtualenv_site_packages := false; p_virtualenv_command := "virtualenv";
    p_virtualenv_python := None; p_extra_args := None; p_editable := false;
    p_chdir := None; p_executable := None; p_umask := None;
    p_path := Some "/srv/app" |};
  check_mode := false;
|}.

(* ===================================================================== *)
(** * Properties *)
(* ===================================================================== *)

Lemma append_cons c (s t : string) : String c s +:+ t = String c (s +:+ t).
Proof. reflexivity. Qed.

Lemma append_nil_r (s : string) : s +:+ EmptyString = s.
Proof.
  induction s as [|c s IH]; [reflexivity | now rewrite append_cons, IH].
Qed.

Lemma append_assoc (a b c : string) : (a +:+ b) +:+ c = a +:+ (b +:+ c).
Proof.
  induction a as [|x a IH]; [reflexivity | now rewrite !append_cons, IH].
Qed.

(** [split] and [count] on overlapping separators, as Python has them. *)
Example split_overlapping :
  Str.split "==" "a====b===c" = ["a"; ""; "b"; "=c"]
  /\ Str.count "==" "a====b===c" = 3.
Proof. split; reflexivity. Qed.



Lemma contains_count sep s :
  sep <> EmptyString -> Str.contains sep s = true -> 1 <= Str.count sep s.
Proof.
  intros Hne. unfold Str.count.
  induction s as [|c s IH]; simpl.
  - destruct sep; [congruence | simpl; discriminate].
  - destruct (Str.startswith sep (String c s)); simpl; [lia | exact IH].
Qed.

Lemma count_contains sep s k :
  1 <= Str.count_from sep s k -> Str.contains sep s = true.
Proof.
  revert k; induction s as [|c s IH]; intros k; simpl; [lia|].
  destruct k as [|k].
  - destruct (Str.startswith sep (String c s)); simpl; [reflexivity | apply IH].
  - intros H. rewrite (IH _ H). apply orb_true_r.
Qed.

Lemma contains_iff_count sep s :
  sep <> EmptyString -> (Str.contains sep s = true <-> 1 <= Str.count sep s).
Proof.
  intros Hne; split; [now apply contains_count | apply count_contains].
Qed.

(** ** [_is_present] *)

Section IsPresent.
Context (host : Host).

Lemma _is_present_cons req pkg rest :
  _is_present host req (pkg :: rest) =
  match _is_present host req [pkg] with
  | Ok false => _is_present host req rest
  | r => r
  end.
Proof.
  simpl. destruct (Str.contains "==" pkg); [|reflexivity].
  destruct (Str.split "==" pkg) as [|a [|b [|c l]]]; try reflexivity.
  destruct (req_package_name req) as [n|e]; simpl; [|reflexivity].
  destruct (String.eqb (Str.lower a) n); [|reflexivity].
  destruct (req_is_satisfied_by host req b) as [[|]|e]; reflexivity.
Qed.


(** The loop body on a single element. *)
Lemma _is_present_one_no_sep req pkg :
  Str.contains "==" pkg = false -> _is_present host req [pkg] = Ok false.
Proof. intros H; simpl; now rewrite H. Qed.



Lemma _is_present_one_str s pkg :
  Str.contains "==" pkg = true ->
  _is_present host (ReqStr s) [pkg] = Raise ValueError
  \/ _is_present host (ReqStr s) [pkg] = Raise AttributeError.
Proof.
  intros H. simpl. rewrite H.
  destruct (Str.split "==" pkg) as [|a [|b [|c l]]]; simpl; auto.
Qed.







End IsPresent.



(** C9 as stated fails: every element holds ['=='] once, and [_is_present]
    raises the [InvalidVersion] (a [ValueError]) of [specifier.contains]
    instead of returning a boolean. *)
Lemma C9_is_present_counterexample :
  (forall pkg, In pkg ["foo==1.0-custom"] -> Str.count "==" pkg <= 1)
  /\ _is_present quiet_host (ReqPackage strict_package) ["foo==1.0-custom"]
     = Raise ValueError.
Proof.
  split; [|reflexivity].
  intros pkg [<-|[]]. vm_compute. lia.
Qed.





(** The check of module pipenv on the tuple of [_get_packages]. *)
Lemma pipenv_check_raises host command out err :
  any_has_separator command out err = true ->
  _is_present host (ReqStr "pipenv") [command; out; err] = Raise ValueError
  \/ _is_present host (ReqStr "pipenv") [command; out; err] = Raise AttributeError.
Proof.
  unfold any_has_separator. intros H.
  assert (Hone : forall pkg rest,
             Str.contains "==" pkg = false ->
             _is_present host (ReqStr "pipenv") (pkg :: rest)
             = _is_present host (ReqStr "pipenv") rest).
  { intros pkg rest Hc. now rewrite _is_present_cons, _is_present_one_no_sep. }
  assert (Hhit : forall pkg rest,
             Str.contains "==" pkg = true ->
             _is_present host (ReqStr "pipenv") (pkg :: rest) = Raise ValueError
             \/ _is_present host (ReqStr "pipenv") (pkg :: rest) = Raise AttributeError).
  { intros pkg rest Hc. rewrite _is_present_cons.
    destruct (_is_present_one_str host "pipenv" pkg Hc) as [-> | ->]; auto. }
  destruct (Str.contains "==" command) eqn:Hc; [now apply Hhit|].
  rewrite (Hone _ _ Hc).
  destruct (Str.contains "==" out) eqn:Ho; [now apply Hhit|].
  rewrite (Hone _ _ Ho).
  destruct (Str.contains "==" err) eqn:He; [now apply Hhit|].
  discriminate.
Qed.

Lemma pipenv_check_passes host command out err :
  any_has_separator command out err = false ->
  _is_present host (ReqStr "pipenv") [command; out; err] = Ok false.
Proof.
  unfold any_has_separator. intros H.
  apply orb_false_iff in H as [H He]. apply orb_false_iff in H as [Hc Ho].
  cbn [_is_present]. now rewrite Hc, Ho, He.
Qed.

(** ** [_recover_package_name] *)

Lemma join_cons sep x l :
  l <> [] -> Str.join sep (x :: l) = x +:+ sep +:+ Str.join sep l.
Proof. destruct l; [congruence | reflexivity]. Qed.

Lemma join_app sep l1 l2 :
  l1 <> [] -> l2 <> [] ->
  Str.join sep (l1 ++ l2) = Str.join sep l1 +:+ sep +:+ Str.join sep l2.
Proof.
  intros H1 H2. induction l1 as [|x l1 IH]; [congruence|].
  destruct l1 as [|y l1].
  - cbn [app]. now rewrite join_cons.
  - rewrite <- app_comm_cons, join_cons by discriminate.
    rewrite IH by discriminate.
    rewrite (join_cons sep x (y :: l1)) by discriminate.
    now rewrite !append_assoc.
Qed.

(** Joining a group first, or joining its members in place, is the same. *)
Lemma join_group sep pre g post :
  g <> [] ->
  Str.join sep (pre ++ [Str.join sep g] ++ post) = Str.join sep (pre ++ g ++ post).
Proof.
  intros Hg.
  assert (Hmid : Str.join sep ([Str.join sep g] ++ post) = Str.join sep (g ++ post)).
  { destruct post as [|q post].
    - now rewrite !app_nil_r.
    - rewrite (join_app sep g (q :: post)) by (auto; discriminate).
      cbn [app]. now rewrite join_cons by discriminate. }
  destruct pre as [|p pre]; [exact Hmid|].
  rewrite (join_app sep (p :: pre) ([_] ++ post)) by discriminate.
  rewrite (join_app sep (p :: pre) (g ++ post)).
  - now rewrite Hmid.
  - discriminate.
  - destruct g; [congruence | discriminate].
Qed.

Lemma recover_loop_join names name_parts package_names :
  name_parts <> [] ->
  Str.join "," (recover_loop names name_parts package_names)
  = Str.join "," (package_names ++ name_parts ++ names).
Proof.
  revert name_parts package_names.
  induction names as [|name rest IH]; intros parts pkgs Hne.
  - cbn [recover_loop].
    rewrite <- (join_group "," pkgs parts []) by assumption.
    now rewrite app_nil_r.
  - cbn [recover_loop]. destruct (_is_package_name name).
    + destruct parts as [|t parts]; [congruence|].
      rewrite IH by discriminate.
      rewrite <- app_assoc.
      change ([name] ++ rest) with (name :: rest).
      change (Str.join "," (pkgs ++ [Str.join "," (t :: parts)] ++ name :: rest)
              = Str.join "," (pkgs ++ (t :: parts) ++ name :: rest)).
      now apply join_group.
    + rewrite IH by (destruct parts; discriminate).
      now rewrite <- app_assoc.
Qed.

Lemma startswith_comma c s :
  Str.startswith "," (String c s) = Ascii.eqb "," c.
Proof. cbn. apply andb_true_r. Qed.

Lemma contains_comma_cons c s :
  Str.contains "," (String c s) = Ascii.eqb "," c || Str.contains "," s.
Proof. cbn [Str.contains]. now rewrite startswith_comma. Qed.

Lemma split_comma_free s :
  Forall (fun t => Str.contains "," t = false) (Str.split "," s).
Proof.
  unfold Str.split. induction s as [|c s IH].
  - constructor; [reflexivity | constructor].
  - cbn [Str.split_from]. rewrite startswith_comma.
    destruct (Ascii.eqb "," c) eqn:Hc.
    + constructor; [reflexivity | exact IH].
    + destruct (Str.split_from "," s 0) as [|h t]; constructor.
      * now rewrite contains_comma_cons, Hc.
      * constructor.
      * rewrite contains_comma_cons, Hc. now inversion IH.
      * now inversion IH.
Qed.

(** The first token of a string that starts with a comma-free token. *)
Lemma hd_split_token t rest :
  Str.contains "," t = false ->
  hd EmptyString (Str.split "," t) = t
  /\ hd EmptyString (Str.split "," (t +:+ "," +:+ rest)) = t.
Proof.
  unfold Str.split. change ("," +:+ rest) with (String ","%char rest).
  induction t as [|c t IH]; intros H.
  - split; reflexivity.
  - rewrite contains_comma_cons in H. apply orb_false_iff in H as [Hc Ht].
    destruct (IH Ht) as [IH1 IH2].
    rewrite !append_cons. cbn [Str.split_from]. rewrite !startswith_comma, Hc.
    split.
    + destruct (Str.split_from "," t 0); cbn [hd] in *; congruence.
    + destruct (Str.split_from "," (t +:+ String ","%char rest) 0);
        cbn [hd] in *; congruence.
Qed.

Lemma hd_split_join t g :
  Str.contains "," t = false ->
  hd EmptyString (Str.split "," (Str.join "," (t :: g))) = t.
Proof.
  intros H. destruct g as [|u g].
  - apply (hd_split_token t EmptyString H).
  - rewrite join_cons by discriminate. apply (hd_split_token t _ H).
Qed.

Lemma recover_loop_heads names name_parts package_names :
  Forall (fun t => Str.contains "," t = false) names ->
  Forall (fun t => Str.contains "," t = false) name_parts ->
  Forall opens_with_package_name (tail package_names) ->
  (package_names <> [] ->
   exists t g, name_parts = t :: g /\ _is_package_name t = true) ->
  Forall opens_with_package_name
         (tail (recover_loop names name_parts package_names)).
Proof.
  revert name_parts package_names.
  induction names as [|name rest IH]; intros parts pkgs Hn Hp Ht Hcur.
  - cbn [recover_loop]. destruct pkgs as [|p0 pkgs]; [constructor|].
    cbn [app tail] in *. apply Forall_app; split; [exact Ht|].
    destruct Hcur as (t & g & -> & Hpk); [discriminate|].
    constructor; [|constructor].
    unfold opens_with_package_name. rewrite hd_split_join; [exact Hpk|].
    now inversion Hp.
  - inversion Hn as [|? ? Hname Hrest]; subst.
    cbn [recover_loop]. destruct (_is_package_name name) eqn:Hpk.
    + apply IH; auto.
      * constructor; [exact Hname | constructor].
      * destruct parts as [|t parts]; [exact Ht|].
        destruct pkgs as [|p0 pkgs]; [constructor|].
        cbn [app tail] in *. apply Forall_app; split; [exact Ht|].
        destruct Hcur as (t' & g & Heq & Hpk'); [discriminate|].
        injection Heq as <- <-.
        constructor; [|constructor].
        unfold opens_with_package_name. rewrite hd_split_join; [exact Hpk'|].
        now inversion Hp.
      * intros _. exists name, []. split; [reflexivity | exact Hpk].
    + apply IH; auto.
      * apply Forall_app; split; [exact Hp | constructor; [exact Hname | constructor]].
      * intros Hne. destruct (Hcur Hne) as (t & g & -> & Ht').
        exists t, (g ++ [name]). split; [reflexivity | exact Ht'].
Qed.

(** The two examples of the docstring. *)
Example recover_package_name_doc1 :
  _recover_package_name
    ["django>1.11.1"; "<1.11.3"; "ipaddress"; "simpleproject>1.1.0"; "<2.0.0"]
  = ["django>1.11.1,<1.11.3"; "ipaddress"; "simpleproject>1.1.0,<2.0.0"].
Proof. reflexivity. Qed.

Example recover_package_name_doc2 :
  _recover_package_name
    ["django>1.11.1,<1.11.3,ipaddress"; "simpleproject>1.1.0,<2.0.0"]
  = ["django>1.11.1,<1.11.3"; "ipaddress"; "simpleproject>1.1.0,<2.0.0"].
Proof. reflexivity. Qed.

(** C10.  [_recover_package_name] keeps every comma-separated token, in
    order: joined with commas, its result and the flattened input are the
    same string; and every element of the result after the first opens
    with a package name (a token that starts with none of the comparison
    operators).  Holds for every list of names, empty names included. *)
Theorem C10_recover_package_name_preserves_tokens (names : list string) :
  Str.join "," (_recover_package_name names)
  = Str.join "," (flat_map (Str.split ",") names)
  /\ Forall opens_with_package_name (tail (_recover_package_name names)).
Proof.
  unfold _recover_package_name. cbv zeta. split.
  - destruct (flat_map (Str.split ",") names) as [|t tokens]; [reflexivity|].
    cbn [recover_loop].
    assert (H : recover_loop tokens ([] ++ [t]) [] = recover_loop tokens [t] [])
      by reflexivity.
    destruct (_is_package_name t); rewrite H, recover_loop_join by discriminate;
      reflexivity.
  - apply recover_loop_heads.
    + induction names as [|n names IH]; [constructor|].
      cbn [flat_map]. apply Forall_app; split; [apply split_comma_free | exact IH].
    + constructor.
    + constructor.
    + congruence.
Qed.

(* ===================================================================== *)
(** ** A program logic for [M] *)
(* ===================================================================== *)

Lemma hoare_conseq {A} (P P' : World -> Prop) (Q Q' : World -> result A -> Prop) c :
  (forall w, P' w -> P w) -> (forall w r, Q w r -> Q' w r) ->
  hoare P c Q -> hoare P' c Q'.
Proof. unfold hoare; auto. Qed.

Lemma hoare_ret {A} (P : World -> Prop) (a : A) Q :
  (forall w, P w -> Q w (Ret a)) -> hoare P (ret a) Q.
Proof. unfold hoare, ret; auto. Qed.

Lemma hoare_stop {A} (P : World -> Prop) o (Q : World -> result A -> Prop) :
  (forall w, P w -> Q w (Stop o)) -> hoare P (stop o) Q.
Proof. unfold hoare, stop; auto. Qed.

Lemma hoare_bind {A B} (P : World -> Prop) R (Q : World -> result B -> Prop)
    (c : M A) (k : A -> M B) :
  hoare P c R ->
  (forall a, hoare (fun w => R w (Ret a)) (k a) Q) ->
  (forall w o, R w (Stop o) -> Q w (Stop o)) ->
  hoare P (bind c k) Q.
Proof.
  unfold hoare, bind. intros Hc Hk Hs w Hw. specialize (Hc w Hw).
  destruct (c w) as [w' [a|o]]; cbn [fst snd] in *; [now apply Hk | now apply Hs].
Qed.

Lemma hoare_bind_post {A B} I J (c : M A) (k : A -> M B) :
  hoare I c (post I J) ->
  (forall a, hoare I (k a) (post I J)) ->
  hoare I (bind c k) (post I J).
Proof.
  intros Hc Hk. apply (hoare_bind I (post I J)); auto.
Qed.

Lemma hoare_bind_postv {A B} I J (V : B -> Prop) (c : M A) (k : A -> M B) :
  hoare I c (post I J) ->
  (forall a, hoare I (k a) (postv I J V)) ->
  hoare I (bind c k) (postv I J V).
Proof.
  intros Hc Hk. apply (hoare_bind I (post I J)); auto.
Qed.

Lemma hoare_ret_postv {A} I J (V : A -> Prop) (a : A) :
  V a -> hoare I (ret a) (postv I J V).
Proof. intros Hv. apply hoare_ret. intros w Hw. split; assumption. Qed.

(** Operations that only read the world. *)
Lemma hoare_read {A} (P : World -> Prop) (f : World -> A) Q :
  (forall w, P w -> Q w (Ret (f w))) -> hoare P (fun w => (w, Ret (f w))) Q.
Proof. unfold hoare; auto. Qed.

Lemma hoare_lift_except {A} (P : World -> Prop) (c : except A) Q :
  (forall w a, P w -> c = Ok a -> Q w (Ret a)) ->
  (forall w e, P w -> c = Raise e -> Q w (Stop (Uncaught e))) ->
  hoare P (lift_except c) Q.
Proof.
  intros H1 H2. destruct c as [a|e]; cbn [lift_except].
  - apply hoare_ret. eauto.
  - apply hoare_stop. eauto.
Qed.

(** One step of a proof that follows the structure of the program. *)
Ltac hoare_step :=
  lazymatch goal with
  | |- hoare _ (bind _ _) _ => apply hoare_bind_post; [ | intros ? ]
  | |- hoare _ (when ?b _) _ => unfold when; destruct b eqn:?
  | |- hoare _ (if ?b then _ else _) _ => destruct b eqn:?
  | |- hoare _ (match ?x with _ => _ end) _ => destruct x eqn:?
  end.

(** ** Footprint: what a run may touch, and how it may stop *)

Section Footprint.
Context (host : Host).
(** the call sites allowed, the environment variables allowed to change,
    the world at the start, and the outcomes allowed *)
Context (sites : call_site -> bool) (vars : list string) (w0 : World).
Context (good : outcome -> Prop).
Context (good_fail : forall msg cmd, good (FailJson msg cmd)).
Context (good_raise : forall e, good (Uncaught e)).

Local Abbreviation inside := (within sites vars w0).
Local Abbreviation kept := (always sites vars w0 good).

Lemma within_ret {A} (a : A) : hoare inside (ret a) kept.
Proof. apply hoare_ret. auto. Qed.

Lemma within_stop {A} o : good o -> hoare inside (@stop A o) kept.
Proof. intros Hg. apply hoare_stop. intros w Hw. split; assumption. Qed.

Lemma within_fail_json {A} msg cmd : hoare inside (@fail_json A msg cmd) kept.
Proof. apply within_stop, good_fail. Qed.

Lemma within_exit_json {A} r :
  good (ExitJson r) -> hoare inside (@exit_json A r) kept.
Proof. apply within_stop. Qed.

Lemma within_raise {A} e : hoare inside (@raise A e) kept.
Proof. apply within_stop, good_raise. Qed.

Lemma within__fail {A} cmd out err : hoare inside (@_fail A cmd out err) kept.
Proof. apply within_stop, good_fail. Qed.

Lemma within_lift_except {A} (c : except A) : hoare inside (lift_except c) kept.
Proof.
  apply hoare_lift_except; [intros; assumption|].
  intros w e Hw _. split; [assumption | apply good_raise].
Qed.

Lemma within_get_bin_path arg dirs : hoare inside (get_bin_path host arg dirs) kept.
Proof. apply hoare_read. auto. Qed.

Lemma within_path_exists p : hoare inside (path_exists host p) kept.
Proof. apply hoare_read. auto. Qed.

Lemma within_path_is_executable p :
  hoare inside (path_is_executable host p) kept.
Proof. apply hoare_read. auto. Qed.

Lemma within_run_command site cmd cwd env prefix :
  sites site = true ->
  hoare inside (run_command host site cmd cwd env prefix) kept.
Proof.
  intros Hs w (Hu & He & new & Hh & Hn). unfold run_command.
  destruct (run_command_result host w _) as [[rc out] err].
  unfold always, within. cbn [fst snd umask environ history post].
  split; [exact Hu|]. split; [exact He|].
  eexists (new ++ [_]). rewrite Hh, <- app_assoc. split; [reflexivity|].
  apply Forall_app; split; [exact Hn|]. constructor; [exact Hs | constructor].
Qed.

Lemma within_os_environ_set key value :
  In key vars -> hoare inside (os_environ_set key value) kept.
Proof.
  intros Hk w (Hu & He & Hh). unfold os_environ_set.
  unfold always, within. cbn [fst snd umask environ history post].
  split; [exact Hu|]. split; [|exact Hh].
  intros k Hnk. rewrite lookup_insert_ne; [auto|].
  intros ->. contradiction.
Qed.

Ltac within_prim :=
  first [ apply within_ret | apply within_fail_json
        | apply within_exit_json; solve [auto]
        | apply within_raise | apply within__fail
        | apply within_lift_except | apply within_get_bin_path
        | apply within_path_exists | apply within_path_is_executable
        | apply within_run_command; first [assumption | reflexivity]
        | apply within_os_environ_set; first [assumption | now left]
        | solve [auto] ].

Ltac within_auto := repeat first [ within_prim | hoare_step ].

Lemma within_get_bin_path_required arg :
  hoare inside (get_bin_path_required host arg) kept.
Proof. unfold get_bin_path_required. within_auto. Qed.

Lemma within__get_cmd_options cmd :
  sites VenvHelp = true -> hoare inside (_get_cmd_options host cmd) kept.
Proof. intros H. unfold _get_cmd_options. within_auto. Qed.

Lemma within__get_packages pip chdir :
  sites PipList = true -> sites PipFreeze = true ->
  hoare inside (_get_packages host pip chdir) kept.
Proof. intros H1 H2. unfold _get_packages. within_auto. Qed.

Lemma within_find_pip_in_path candidates :
  hoare inside (find_pip_in_path host candidates) kept.
Proof.
  induction candidates as [|c l IH]; cbn [find_pip_in_path]; within_auto.
Qed.

Lemma within_find_pip_in_venv dir candidates :
  hoare inside (find_pip_in_venv host dir candidates) kept.
Proof.
  induction candidates as [|c l IH]; cbn [find_pip_in_venv]; within_auto.
Qed.

Lemma within__get_pip env executable :
  hoare inside (_get_pip host env executable) kept.
Proof.
  pose proof within_find_pip_in_path. pose proof within_find_pip_in_venv.
  unfold _get_pip.
  destruct executable as [e|]; [destruct (path_isabs e)|]; within_auto.
Qed.

Lemma within__get_package_info package env :
  sites SpecialProbe = true ->
  hoare inside (_get_package_info host package env) kept.
Proof. intros H. unfold _get_package_info. within_auto. Qed.

Lemma within_setup_virtualenv module env chdir out err :
  sites VenvHelp = true -> sites VenvCreate = true ->
  (check_mode module = true -> good (ExitJson (exit_changed true))) ->
  hoare inside (setup_virtualenv host module env chdir out err) kept.
Proof.
  intros H1 H2 Hx. unfold setup_virtualenv. fold (exit_changed true).
  pose proof within_get_bin_path_required.
  pose proof (fun cmd => within__get_cmd_options cmd H1).
  within_auto.
Qed.

Lemma within_ensure_virtualenv module env chdir out err :
  sites VenvHelp = true -> sites VenvCreate = true ->
  (check_mode module = true -> good (ExitJson (exit_changed true))) ->
  hoare inside (ensure_virtualenv host module env chdir out err) kept.
Proof.
  intros H1 H2 Hx. unfold ensure_virtualenv.
  pose proof (fun e c o r => within_setup_virtualenv module e c o r H1 H2 Hx).
  within_auto.
Qed.

Lemma within_build_packages name version :
  hoare inside (build_packages host name version) kept.
Proof. unfold build_packages. within_auto. Qed.

Lemma within_special_packages pkgs name env pkg_list out :
  sites SpecialProbe = true ->
  hoare inside (special_packages host pkgs name env pkg_list out) kept.
Proof.
  intros H. revert pkg_list out.
  induction pkgs as [|pkg rest IH]; intros pkg_list out;
    cbn [special_packages]; [within_auto|].
  pose proof (fun p e => within__get_package_info p e H).
  destruct (Str.mem pkg name); [|apply IH].
  apply hoare_bind_post; [auto|]. intros [dep|]; apply IH.
Qed.

Lemma within_pip_check_mode module pip chdir env extra_args packages out err :
  sites PipList = true -> sites PipFreeze = true -> sites SpecialProbe = true ->
  (forall r, good (ExitJson r)) ->
  hoare inside (pip_check_mode host module pip chdir env extra_args packages out err)
        kept.
Proof.
  intros H1 H2 H3 Hx. unfold pip_check_mode.
  pose proof (fun p c => within__get_packages p c H1 H2).
  pose proof (fun a b c d e => within_special_packages a b c d e H3).
  within_auto.
Qed.

Lemma within_pip_body module env :
  (forall s, sites s = true) -> (forall r, good (ExitJson r)) ->
  hoare inside (pip_body host module env) kept.
Proof.
  intros Hs Hx. unfold pip_body.
  pose proof (fun e c o r =>
                within_ensure_virtualenv module e c o r (Hs _) (Hs _) (fun _ => Hx _)).
  pose proof within__get_pip.
  pose proof within_build_packages.
  pose proof (fun p c => within__get_packages p c (Hs _) (Hs _)).
  pose proof (fun a b c d e f g h =>
                within_pip_check_mode a b c d e f g h (Hs _) (Hs _) (Hs _) Hx).
  pose proof (Hs PipAction).
  within_auto.
Qed.

Lemma within__get_pipenv env executable :
  hoare inside (_get_pipenv host env executable) kept.
Proof. unfold _get_pipenv. within_auto. Qed.

Lemma within_pipenv_body module env :
  (forall s, sites s = true) -> In "VIRTUAL_ENV" vars ->
  (forall r, good (ExitJson r)) ->
  hoare inside (pipenv_body host module env) kept.
Proof.
  intros Hs Hv Hx. unfold pipenv_body, has_changes.
  pose proof (fun e c o r =>
                within_ensure_virtualenv module e c o r (Hs _) (Hs _) (fun _ => Hx _)).
  pose proof within__get_pip.
  pose proof within__get_pipenv.
  pose proof (fun p c => within__get_packages p c (Hs _) (Hs _)).
  pose proof (Hs PipInstallPipenv). pose proof (Hs PipenvSync).
  within_auto.
Qed.

End Footprint.

(** The same tactics, outside of the section. *)
Ltac within_prim :=
  first [ apply within_ret | apply within_fail_json
        | apply within_exit_json; solve [auto]
        | apply within_raise | apply within__fail
        | apply within_lift_except | apply within_get_bin_path
        | apply within_path_exists | apply within_path_is_executable
        | apply within_run_command; first [assumption | reflexivity]
        | apply within_os_environ_set; first [assumption | now left]
        | solve [auto] ].

Ltac within_auto := repeat first [ within_prim | hoare_step ].


(** ** The process state around [main] *)

Lemma within_refl sites vars w : within sites vars w w.
Proof.
  split; [reflexivity|]. split; [reflexivity|].
  exists []. split; [now rewrite app_nil_r | constructor].
Qed.

Lemma land_valid_umask z : (0 <= z < 512)%Z -> Z.land z 511 = z.
Proof.
  intros H. change 511%Z with (Z.ones 9).
  rewrite Z.land_ones by lia. apply Z.mod_small. exact H.
Qed.

(** The statements around the [try] of both [main] functions leave the
    umask as it was, whatever the body changes outside of it. *)
Lemma guarded_body_frame host vars (body : M unit) umask_param w :
  (0 <= umask w < 512)%Z ->
  (forall w0, hoare (within (fun _ => true) vars w0) body
                    (always (fun _ => true) vars w0 (fun _ => True))) ->
  let w' := fst (bind (parse_umask host umask_param) (fun u =>
                 bind (set_umask u) (fun old_umask =>
                 try_finally body (restore_umask old_umask))) w) in
  umask w' = umask w
  /\ forall k, ~ In k vars -> environ w' !! k = environ w !! k.
Proof.
  intros Hu Hbody.
  assert (Hrun : forall w1 : World,
             umask (fst (body w1)) = umask w1
             /\ forall k, ~ In k vars ->
                          environ (fst (body w1)) !! k = environ w1 !! k).
  { intros w1. specialize (Hbody w1 w1 (within_refl _ _ _)).
    unfold always, post in Hbody.
    destruct (snd (body w1)); [destruct Hbody as (H1 & H2 & _)
                              | destruct Hbody as ((H1 & H2 & _) & _)]; auto. }
  unfold parse_umask, set_umask, restore_umask, try_finally, bind, ret,
    fail_json, raise, stop, os_umask.
  destruct umask_param as [s|].
  - destruct (Str.truthy s).
    + destruct (int_octal host s) as [z|]; cbn [fst]; [|auto].
      match goal with |- context [body ?w1] =>
        destruct (Hrun w1) as [H1 H2]; destruct (body w1) as [w2 r] end.
      cbn [fst snd umask environ] in *. split; [now apply land_valid_umask|].
      exact H2.
    + cbn [fst]. auto.
  - destruct (Hrun w) as [H1 H2]. destruct (body w) as [w2 r].
    cbn [fst snd] in *. auto.
Qed.

(** C3 (amended).  After [main()] of either module, however it ends, the
    umask is what it was before (a process umask lies in 0..0o777).
    Module pip leaves the environment variables as they were; module
    pipenv leaves every variable other than [VIRTUAL_ENV] as it was. *)
Theorem C3_umask_restored_after_main host module w :
  (0 <= umask w < 512)%Z ->
  (umask (fst (pip_main host module w)) = umask w
   /\ environ (fst (pip_main host module w)) = environ w)
  /\ (umask (fst (pipenv_main host module w)) = umask w
      /\ forall k, k <> "VIRTUAL_ENV" ->
                   environ (fst (pipenv_main host module w)) !! k = environ w !! k).
Proof.
  intros Hu. split.
  - assert (H : umask (fst (pip_main host module w)) = umask w
                /\ forall k, ~ In k [] ->
                     environ (fst (pip_main host module w)) !! k = environ w !! k).
    { unfold pip_main, when. destruct (HAS_SETUPTOOLS host); cbn [negb].
      - apply (guarded_body_frame host [] (pip_body host module (joined_env module))); auto.
        intros w0. apply within_pip_body; auto.
      - cbn. auto. }
    destruct H as [H1 H2]. split; [exact H1|].
    apply map_eq. intros k. apply H2. intros [].
  - assert (H : umask (fst (pipenv_main host module w)) = umask w
                /\ forall k, ~ In k ["VIRTUAL_ENV"] ->
                     environ (fst (pipenv_main host module w)) !! k = environ w !! k).
    { unfold pipenv_main, when. destruct (HAS_SETUPTOOLS host); cbn [negb].
      - apply (guarded_body_frame host ["VIRTUAL_ENV"]
                 (pipenv_body host module (joined_env module))); auto.
        intros w0. apply within_pipenv_body; auto. now left.
      - cbn. auto. }
    destruct H as [H1 H2]. split; [exact H1|].
    intros k Hk. apply H2. intros [E|[]]. congruence.
Qed.

Lemma C3_umask_restored_witness :
  (umask (fst (pip_main venv_host pip_requirements_module world0)) = umask world0
   /\ environ (fst (pip_main venv_host pip_requirements_module world0)) = environ world0)
  /\ (umask (fst (pipenv_main venv_host pip_requirements_module world0)) = umask world0
      /\ forall k, k <> "VIRTUAL_ENV" ->
           environ (fst (pipenv_main venv_host pip_requirements_module world0)) !! k
           = environ world0 !! k).
Proof.
  apply (C3_umask_restored_after_main venv_host pip_requirements_module world0).
  cbn. lia.
Defined.

(** C3 as stated fails: module pipenv sets [VIRTUAL_ENV] and leaves it
    set when [main()] is over. *)
Lemma C3_virtual_env_counterexample :
  environ (fst (pipenv_main venv_host pipenv_venv_module world0)) !! "VIRTUAL_ENV"
    = Some "/venv"
  /\ environ world0 !! "VIRTUAL_ENV" = None
  /\ exists r, snd (pipenv_main venv_host pipenv_venv_module world0)
               = Stop (ExitJson r).
Proof.
  split; [vm_compute; reflexivity|]. split; [reflexivity|].
  eexists. vm_compute. reflexivity.
Qed.

(** ** What module pipenv reports *)

Lemma pipenv_body_reports_changed host module env w0 :
  hoare (within (fun _ => true) ["VIRTUAL_ENV"] w0)
        (pipenv_body host module env)
        (always (fun _ => true) ["VIRTUAL_ENV"] w0 reports_changed).
Proof.
  assert (Gf : forall msg cmd, reports_changed (FailJson msg cmd))
    by (intros msg cmd r; discriminate).
  assert (Gr : forall e, reports_changed (Uncaught e))
    by (intros e r; discriminate).
  assert (Gx : reports_changed (ExitJson (exit_changed true)))
    by (intros r [= <-]; reflexivity).
  pose proof (fun e c o r =>
                within_ensure_virtualenv host (fun _ => true) ["VIRTUAL_ENV"] w0
                  reports_changed Gf module e c o r eq_refl eq_refl (fun _ => Gx))
    as Hvenv.
  pose proof (within__get_pip host (fun _ => true) ["VIRTUAL_ENV"] w0
                reports_changed Gf) as Hpip.
  pose proof (fun p c => within__get_packages host (fun _ => true) ["VIRTUAL_ENV"] w0
                           reports_changed Gf p c eq_refl eq_refl) as Hpk.
  pose proof (within__get_pipenv host (fun _ => true) ["VIRTUAL_ENV"] w0
                reports_changed Gf) as Hpe.
  assert (Hstep : forall A (c : M A),
             hoare (within (fun _ => true) ["VIRTUAL_ENV"] w0) c
                   (always (fun _ => true) ["VIRTUAL_ENV"] w0 reports_changed) ->
             hoare (within (fun _ => true) ["VIRTUAL_ENV"] w0) c
                   (post (within (fun _ => true) ["VIRTUAL_ENV"] w0)
                         (fun w o => within (fun _ => true) ["VIRTUAL_ENV"] w0 w
                                     /\ reports_changed o))) by auto.
  unfold pipenv_body, has_changes. cbv zeta.
  (* up to the call of has_changes *)
  apply hoare_bind_post; [apply Hvenv | intros [[venv_created out] err]].
  apply hoare_bind_post; [apply Hpip | intros pip].
  apply hoare_bind_post; [apply Hpk | intros [[command out_list] err_list]].
  apply hoare_bind_post; [apply within_lift_except; auto | intros is_present].
  apply hoare_bind_post; [| intros [[pipenv_installed out1] err1]].
  { destruct (negb is_present && truthy_opt env).
    - apply hoare_bind_post; [now apply within_run_command | intros [[rc o] e]].
      apply hoare_bind_post; [| intros _; now apply within_ret].
      unfold when. destruct (nonzero rc); [now apply within__fail | now apply within_ret].
    - now apply within_ret. }
  apply hoare_bind_post; [| intros lockfile].
  { destruct (p_path (params module)); [now apply within_ret | now apply within_raise]. }
  (* pipenv sync is always run, so ran_pipenv is True *)
  apply (hoare_bind _ (postv (within (fun _ => true) ["VIRTUAL_ENV"] w0)
                             (fun w o => within (fun _ => true) ["VIRTUAL_ENV"] w0 w
                                         /\ reports_changed o)
                             (fun v => fst (fst (fst v)) = true))).
  - apply hoare_bind_postv; [apply Hpe | intros pipenv].
    apply hoare_bind_postv; [| intros _].
    { unfold when. destruct (truthy_opt env);
        [apply within_os_environ_set; auto; now left | now apply within_ret]. }
    apply hoare_bind_postv; [now apply within_run_command | intros [[rc o] e]].
    apply hoare_bind_postv; [| intros _; now apply hoare_ret_postv].
    unfold when. destruct (nonzero rc); [now apply within__fail | now apply within_ret].
  - intros [[[ran cmd] o] e]. apply hoare_stop. intros w [Hw Hran].
    cbn in Hran. subst ran. split; [exact Hw|].
    intros r [= <-]. cbn. now rewrite orb_true_r.
  - intros w o H. exact H.
Qed.

(** C1, module pipenv.  [has_changes] always answers [True], so the sync
    command is always run and [ran_pipenv] is always set: whenever [main()]
    of module pipenv ends with [exit_json], it reports [changed=true],
    whatever the commands did. *)
Theorem C1_pipenv_always_reports_changed host module w r :
  snd (pipenv_main host module w) = Stop (ExitJson r) -> changed r = true.
Proof.
  assert (Hbody : forall w1 r,
             snd (pipenv_body host module (joined_env module) w1) = Stop (ExitJson r) ->
             changed r = true).
  { intros w1 r1 H.
    pose proof (pipenv_body_reports_changed host module (joined_env module) w1 w1
                  (within_refl _ _ _)) as Hb.
    rewrite H in Hb. destruct Hb as [_ Hb]. now apply Hb. }
  unfold pipenv_main, when, bind, fail_json, stop, ret.
  destruct (HAS_SETUPTOOLS host); cbn [negb]; [|discriminate].
  unfold parse_umask, set_umask, restore_umask, try_finally, bind, ret,
    fail_json, raise, stop, os_umask.
  destruct (p_umask (params module)) as [s|].
  - destruct (Str.truthy s).
    + destruct (int_octal host s) as [z|]; [|discriminate].
      match goal with |- context [pipenv_body ?h ?m ?e ?w1] =>
        specialize (Hbody w1 r); destruct (pipenv_body h m e w1) as [w2 res] end.
      cbn [fst snd] in *. exact Hbody.
    + discriminate.
  - specialize (Hbody w r).
    destruct (pipenv_body host module (joined_env module) w) as [w2 res].
    cbn [fst snd] in *. exact Hbody.
Qed.

(** The run of module pipenv on a host where every command it runs finds
    nothing to do. *)
Lemma C1_pipenv_always_reports_changed_witness :
  exists r, snd (pipenv_main venv_host pipenv_venv_module world0) = Stop (ExitJson r)
            /\ changed r = true.
Proof.
  eexists. split; [vm_compute; reflexivity|].
  apply (C1_pipenv_always_reports_changed venv_host pipenv_venv_module world0).
  vm_compute. reflexivity.
Defined.

(** ** The commands of a run and their exit codes *)

Lemma substring_refl s : substring s s.
Proof. exists EmptyString, EmptyString. now rewrite append_nil_r. Qed.

Lemma substring_empty t : substring EmptyString t.
Proof. exists EmptyString, t. reflexivity. Qed.

Lemma substring_app_l s a t : substring s t -> substring s (a +:+ t).
Proof.
  intros (x & y & ->). exists (a +:+ x), y. now rewrite append_assoc.
Qed.

Lemma substring_app_r s t b : substring s t -> substring s (t +:+ b).
Proof.
  intros (x & y & ->). exists x, (y +:+ b). now rewrite !append_assoc.
Qed.

Lemma append_empty a b : a +:+ b = EmptyString -> b = EmptyString.
Proof. destruct a; [auto | discriminate]. Qed.

Lemma truthy_false s : Str.truthy s = false -> s = EmptyString.
Proof. destruct s; [reflexivity | discriminate]. Qed.

(** The message of [_fail] holds the end of [out] and the end of [err]. *)
Lemma _fail_reports {A} cmd out err pre_out x pre_err y :
  out = pre_out +:+ x -> err = pre_err +:+ y ->
  exists msg, @_fail A cmd out err = stop (FailJson msg (Some cmd))
              /\ substring x msg /\ substring y msg.
Proof.
  intros Ho He. unfold _fail, fail_json. cbv zeta.
  eexists. split; [reflexivity|].
  assert (Hx : Str.truthy out = true -> substring x out)
    by (intros _; rewrite Ho; apply substring_app_l, substring_refl).
  assert (Hy : Str.truthy err = true -> substring y err)
    by (intros _; rewrite He; apply substring_app_l, substring_refl).
  assert (Hx0 : Str.truthy out = false -> x = EmptyString)
    by (intros H; apply truthy_false in H; rewrite Ho in H;
        now apply append_empty in H).
  assert (Hy0 : Str.truthy err = false -> y = EmptyString)
    by (intros H; apply truthy_false in H; rewrite He in H;
        now apply append_empty in H).
  destruct (Str.truthy out), (Str.truthy err); split;
    try (rewrite Hx0 by reflexivity; apply substring_empty);
    try (rewrite Hy0 by reflexivity; apply substring_empty).
  - apply substring_app_r, substring_app_l, substring_app_l. now apply Hx.
  - apply substring_app_l, substring_app_l. now apply Hy.
  - apply substring_app_l, substring_app_l. now apply Hx.
  - apply substring_app_l, substring_app_l. now apply Hy.
Qed.

Section Trace.
Context (host : Host) (tol : run_record -> Prop) (h0 : list run_record).

Lemma trace_ok_weaken o l : trace_ok tol None l -> trace_ok tol o l.
Proof.
  induction l as [|r l IH]; [auto|]. cbn [trace_ok].
  intros [[H|[H|[H|[_ []]]]] Hl]; split; auto.
Qed.

Lemma trace_ok_app o l1 l2 :
  trace_ok tol None l1 -> trace_ok tol o l2 -> trace_ok tol o (l1 ++ l2).
Proof.
  induction l1 as [|r l1 IH]; [auto|]. cbn [trace_ok app].
  intros [[H|[H|[H|[_ []]]]] Hl] H2; (split; [|auto]); auto.
  destruct H as (Hs & r2 & rest' & -> & Hf).
  right; left. split; [exact Hs|]. exists r2, (rest' ++ l2). auto.
Qed.

Local Abbreviation running := (traced tol h0).
Local Abbreviation stopped := (traced_stop tol h0).
Local Abbreviation tracking := (tracing tol h0).
Local Abbreviation waiting := (pending tol h0).
Local Abbreviation falling_back := (fallback_pending tol h0).

Lemma traced_ret {A} (a : A) : hoare running (ret a) tracking.
Proof. apply hoare_ret. auto. Qed.

Lemma traced_stop_any {A} o : hoare running (@stop A o) tracking.
Proof.
  apply hoare_stop. intros w (new & Hh & Ht).
  exists new. split; [exact Hh | now apply trace_ok_weaken].
Qed.

Lemma traced_fail_json {A} msg cmd : hoare running (@fail_json A msg cmd) tracking.
Proof. apply traced_stop_any. Qed.

Lemma traced_exit_json {A} r : hoare running (@exit_json A r) tracking.
Proof. apply traced_stop_any. Qed.

Lemma traced_raise {A} e : hoare running (@raise A e) tracking.
Proof. apply traced_stop_any. Qed.

Lemma traced_lift_except {A} (c : except A) : hoare running (lift_except c) tracking.
Proof. destruct c; [apply traced_ret | apply traced_raise]. Qed.

Lemma traced_get_bin_path arg dirs : hoare running (get_bin_path host arg dirs) tracking.
Proof. apply hoare_read. auto. Qed.

Lemma traced_path_exists p : hoare running (path_exists host p) tracking.
Proof. apply hoare_read. auto. Qed.

Lemma traced_path_is_executable p :
  hoare running (path_is_executable host p) tracking.
Proof. apply hoare_read. auto. Qed.

Lemma traced_os_environ_set key value :
  hoare running (os_environ_set key value) tracking.
Proof. intros w Hw. exact Hw. Qed.

(** Running a command leaves it waiting for what follows. *)
Lemma traced_run_command {B} site cmd cwd env prefix
    (k : Z * string * string -> M B) Q :
  (forall rc out err,
      hoare (waiting {| rr_inv := {| inv_site := site; inv_cmd := cmd;
                                     inv_cwd := cwd; inv_environ_update := env;
                                     inv_path_prefix := prefix |};
                        rr_rc := rc; rr_out := out; rr_err := err |})
            (k (rc, out, err)) Q) ->
  hoare running (bind (run_command host site cmd cwd env prefix) k) Q.
Proof.
  intros Hk w (new & Hh & Ht). unfold bind, run_command.
  destruct (run_command_result host w _) as [[rc out] err].
  apply Hk. exists new. cbn [history]. rewrite Hh, <- app_assoc. auto.
Qed.

Lemma pending_zero r w : rr_rc r = 0%Z -> waiting r w -> running w.
Proof.
  intros Hz (new & Hh & Ht). exists (new ++ [r]). split; [exact Hh|].
  apply trace_ok_app; [exact Ht|]. cbn. auto.
Qed.

Lemma pending_tolerated r w : tol r -> waiting r w -> running w.
Proof.
  intros Hz (new & Hh & Ht). exists (new ++ [r]). split; [exact Hh|].
  apply trace_ok_app; [exact Ht|]. cbn. auto.
Qed.

Lemma pending_reported r w msg cmd :
  substring (rr_out r) msg -> substring (rr_err r) msg ->
  waiting r w -> stopped w (FailJson msg cmd).
Proof.
  intros Ho He (new & Hh & Ht). exists (new ++ [r]). split; [exact Hh|].
  apply trace_ok_app; [exact Ht|]. cbn. split; [|exact I].
  right; right; right. auto.
Qed.

Lemma nonzero_false rc : nonzero rc = false -> rc = 0%Z.
Proof. unfold nonzero. intros H. apply negb_false_iff, Z.eqb_eq in H. exact H. Qed.

(** [if rc != 0: fail_json(msg)] after a command. *)
Lemma pending_checked r msg cmd :
  substring (rr_out r) msg -> substring (rr_err r) msg ->
  hoare (waiting r) (when (nonzero (rr_rc r)) (stop (FailJson msg cmd))) tracking.
Proof.
  intros Ho He w Hw. unfold when. destruct (nonzero (rr_rc r)) eqn:Hrc.
  - cbn. now apply (pending_reported r).
  - cbn. apply nonzero_false in Hrc. now apply (pending_zero r).
Qed.

Ltac traced_prim :=
  first [ apply traced_ret | apply traced_fail_json | apply traced_exit_json
        | apply traced_raise | apply traced_stop_any
        | apply traced_lift_except | apply traced_get_bin_path
        | apply traced_path_exists | apply traced_path_is_executable
        | apply traced_os_environ_set
        | solve [auto] ].

(** Follows the program up to the next command that it runs itself. *)
Ltac traced_step :=
  lazymatch goal with
  | |- hoare _ (bind (run_command _ _ _ _ _ _) _) _ => fail
  | _ => first [ traced_prim | hoare_step ]
  end.

Ltac traced_auto := repeat traced_step.

Lemma traced_get_bin_path_required arg :
  hoare running (get_bin_path_required host arg) tracking.
Proof. unfold get_bin_path_required. traced_auto. Qed.

Lemma traced__get_cmd_options cmd :
  hoare running (_get_cmd_options host cmd) tracking.
Proof.
  unfold _get_cmd_options. cbv zeta.
  apply traced_run_command. intros rc out err.
  apply (hoare_bind _ tracking); [| intros ?; apply traced_ret | auto].
  apply (pending_checked (Build_run_record _ rc out err)); cbn [rr_out rr_err].
  - apply substring_app_l, substring_app_l, substring_app_l, substring_app_r,
      substring_refl.
  - apply substring_app_l, substring_app_l, substring_app_l, substring_app_l,
      substring_refl.
Qed.

Lemma pending_run_command {B} r1 site cmd cwd env prefix
    (k : Z * string * string -> M B) Q :
  (forall rc out err,
      hoare (falling_back r1
               {| rr_inv := {| inv_site := site; inv_cmd := cmd;
                               inv_cwd := cwd; inv_environ_update := env;
                               inv_path_prefix := prefix |};
                  rr_rc := rc; rr_out := out; rr_err := err |})
            (k (rc, out, err)) Q) ->
  hoare (waiting r1) (bind (run_command host site cmd cwd env prefix) k) Q.
Proof.
  intros Hk w (new & Hh & Ht). unfold bind, run_command.
  destruct (run_command_result host w _) as [[rc out] err].
  apply Hk. exists new. cbn [history]. rewrite Hh, <- !app_assoc. auto.
Qed.

Lemma fallback_checked r1 r2 msg cmd :
  inv_site (rr_inv r1) = PipList -> inv_site (rr_inv r2) = PipFreeze ->
  substring (rr_out r2) msg -> substring (rr_err r2) msg ->
  hoare (falling_back r1 r2)
        (when (nonzero (rr_rc r2)) (stop (FailJson msg cmd))) tracking.
Proof.
  intros H1 H2 Ho He w (new & Hh & Ht). unfold when.
  destruct (nonzero (rr_rc r2)) eqn:Hrc; cbn.
  - exists (new ++ [r1; r2]). split; [exact Hh|].
    apply trace_ok_app; [exact Ht|]. cbn [trace_ok reported].
    split; [right; left; eauto|]. split; [|exact I]. right; right; right. auto.
  - exists (new ++ [r1; r2]). split; [exact Hh|].
    apply trace_ok_app; [exact Ht|]. cbn [trace_ok].
    split; [right; left; eauto|]. split; [|exact I]. left. now apply nonzero_false.
Qed.

Lemma traced__get_packages pip chdir :
  hoare running (_get_packages host pip chdir) tracking.
Proof.
  unfold _get_packages. cbv zeta.
  apply traced_run_command. intros rc out err.
  destruct (nonzero rc) eqn:Hrc.
  - apply pending_run_command. intros rc2 out2 err2.
    destruct (_fail_reports (A:=unit) (CmdStr (pip +:+ " freeze")) out2 err2
                EmptyString out2 EmptyString err2 eq_refl eq_refl)
      as (msg & -> & Ho & He).
    apply (hoare_bind _ tracking); [| intros ?; apply traced_ret | auto].
    now apply (fallback_checked _ (Build_run_record _ rc2 out2 err2)).
  - apply hoare_ret. intros w Hw. apply nonzero_false in Hrc.
    now apply (pending_zero _ w) in Hw.
Qed.

Lemma traced_find_pip_in_path candidates :
  hoare running (find_pip_in_path host candidates) tracking.
Proof.
  induction candidates as [|c l IH]; cbn [find_pip_in_path]; traced_auto.
Qed.

Lemma traced_find_pip_in_venv dir candidates :
  hoare running (find_pip_in_venv host dir candidates) tracking.
Proof.
  induction candidates as [|c l IH]; cbn [find_pip_in_venv]; traced_auto.
Qed.

Lemma traced__get_pip env executable :
  hoare running (_get_pip host env executable) tracking.
Proof.
  pose proof traced_find_pip_in_path. pose proof traced_find_pip_in_venv.
  unfold _get_pip.
  destruct executable as [e|]; [destruct (path_isabs e)|]; traced_auto.
Qed.

Lemma traced__get_package_info package env :
  (forall r, inv_site (rr_inv r) = SpecialProbe -> tol r) ->
  hoare running (_get_package_info host package env) tracking.
Proof.
  intros Htol. unfold _get_package_info. cbv zeta. traced_auto.
  apply traced_run_command. intros rc out err.
  eapply hoare_conseq; [ | intros ? ? Hq; exact Hq | ].
  - intros w1 Hw1. eapply pending_tolerated; [|exact Hw1]. now apply Htol.
  - traced_auto.
Qed.

(** A command followed by [out += ...; err += ...; if rc != 0: _fail(...)]. *)
Lemma traced_run_then_fail {B} site cmd cwd env prefix fcmd pre_out pre_err
    (k : Z * string * string -> M B) (rest : string -> string -> M B) :
  (forall rc out err,
      k (rc, out, err) =
      bind (when (nonzero rc) (_fail fcmd (pre_out +:+ out) (pre_err +:+ err)))
           (fun _ => rest (pre_out +:+ out) (pre_err +:+ err))) ->
  (forall out err, hoare running (rest out err) tracking) ->
  hoare running (bind (run_command host site cmd cwd env prefix) k) tracking.
Proof.
  intros Hk Hrest. apply traced_run_command. intros rc out err. rewrite Hk.
  destruct (_fail_reports (A:=unit) fcmd (pre_out +:+ out) (pre_err +:+ err)
              pre_out out pre_err err eq_refl eq_refl) as (msg & -> & Ho & He).
  apply (hoare_bind _ tracking); [| intros ?; apply Hrest | auto].
  now apply (pending_checked (Build_run_record _ rc out err)).
Qed.

Lemma traced_setup_virtualenv module env chdir out err :
  hoare running (setup_virtualenv host module env chdir out err) tracking.
Proof.
  pose proof traced_get_bin_path_required. pose proof traced__get_cmd_options.
  unfold setup_virtualenv. cbv zeta. traced_auto.
  all: eapply (traced_run_then_fail _ _ _ _ _ _ out err _ (fun o e => ret (o, e)));
    [ intros rc o e; reflexivity | intros o e; apply traced_ret ].
Qed.

Lemma traced_ensure_virtualenv module env chdir out err :
  hoare running (ensure_virtualenv host module env chdir out err) tracking.
Proof.
  pose proof (traced_setup_virtualenv module).
  unfold ensure_virtualenv. traced_auto.
Qed.

Lemma traced_build_packages name version :
  hoare running (build_packages host name version) tracking.
Proof. unfold build_packages. traced_auto. Qed.

Lemma traced_special_packages pkgs name env pkg_list out :
  (forall r, inv_site (rr_inv r) = SpecialProbe -> tol r) ->
  hoare running (special_packages host pkgs name env pkg_list out) tracking.
Proof.
  intros H. revert pkg_list out.
  induction pkgs as [|pkg rest IH]; intros pkg_list out;
    cbn [special_packages]; [traced_auto|].
  pose proof (fun p e => traced__get_package_info p e H).
  destruct (Str.mem pkg name); [|apply IH].
  apply hoare_bind_post; [auto|]. intros [dep|]; apply IH.
Qed.

Lemma traced_pip_check_mode module pip chdir env extra_args packages out err :
  (forall r, inv_site (rr_inv r) = SpecialProbe -> tol r) ->
  hoare running (pip_check_mode host module pip chdir env extra_args packages out err)
        tracking.
Proof.
  intros H. unfold pip_check_mode.
  pose proof traced__get_packages.
  pose proof (fun a b c d e => traced_special_packages a b c d e H).
  traced_auto.
Qed.

Lemma traced__get_pipenv env executable :
  hoare running (_get_pipenv host env executable) tracking.
Proof. unfold _get_pipenv. traced_auto. Qed.

End Trace.

(** The same tactics, outside of the section. *)
Ltac traced_prim :=
  first [ apply traced_ret | apply traced_fail_json | apply traced_exit_json
        | apply traced_raise | apply traced_stop_any
        | apply traced_lift_except | apply traced_get_bin_path
        | apply traced_path_exists | apply traced_path_is_executable
        | apply traced_os_environ_set
        | solve [auto] ].

Ltac traced_step :=
  lazymatch goal with
  | |- hoare _ (bind (run_command _ _ _ _ _ _) _) _ => fail
  | _ => first [ traced_prim | hoare_step ]
  end.

Ltac traced_auto := repeat traced_step.


Lemma state_eqb_eq a b : state_eqb a b = true -> a = b.
Proof. destruct a, b; (reflexivity || discriminate). Qed.

Lemma traced_pip_body host h0 module env :
  hoare (traced (pip_tolerates (p_state (params module))) h0)
        (pip_body host module env)
        (tracing (pip_tolerates (p_state (params module))) h0).
Proof.
  set (tol := pip_tolerates (p_state (params module))).
  assert (Htol : forall r, inv_site (rr_inv r) = SpecialProbe -> tol r)
    by (intros r Hr; now left).
  pose proof (traced_ensure_virtualenv host tol h0 module).
  pose proof (traced__get_pip host tol h0).
  pose proof (traced_build_packages host tol h0).
  pose proof (traced__get_packages host tol h0).
  pose proof (fun a b c d e f g h =>
                traced_pip_check_mode host tol h0 a b c d e f g h Htol).
  unfold pip_body. cbv zeta. traced_auto.
  all: apply traced_run_command; intros rc out_pip err_pip.
  all: apply (hoare_bind _ (tracing tol h0)); [| intros ?; traced_auto | auto].
  all: match goal with
       | |- hoare _ (if ?c then _ else _) _ => destruct c eqn:Hc
       end.
  all: try (apply hoare_ret; intros w Hw;
            apply andb_prop in Hc as [Hc Hni]; apply andb_prop in Hc as [Hrc Hst];
            apply Z.eqb_eq in Hrc; apply state_eqb_eq in Hst;
            eapply pending_tolerated; [|exact Hw];
            right; repeat split; assumption).
  all: match goal with
       | |- hoare _ (when _ (_fail ?c (?po +:+ ?o) (?pe +:+ ?e))) _ =>
           destruct (_fail_reports (A:=unit) c (po +:+ o) (pe +:+ e) po o pe e
                       eq_refl eq_refl) as (msg & -> & Ho & He);
           now apply (pending_checked tol h0 (Build_run_record _ rc o e))
       end.
Qed.

Lemma traced_pipenv_body host tol h0 module env :
  hoare (traced tol h0) (pipenv_body host module env) (tracing tol h0).
Proof.
  pose proof (traced_ensure_virtualenv host tol h0 module).
  pose proof (traced__get_pip host tol h0).
  pose proof (traced__get_pipenv host tol h0).
  pose proof (traced__get_packages host tol h0).
  unfold pipenv_body, has_changes. cbv zeta. traced_auto.
  - eapply (traced_run_then_fail host tol h0 _ _ _ _ _ _ _ _ _
              (fun o e => ret (true, o, e)));
      [ intros rc o e; reflexivity | intros o e; apply traced_ret ].
  - match goal with
    | |- hoare _ (bind (run_command _ _ ?c _ _ _) _) _ =>
        eapply (traced_run_then_fail host tol h0 _ _ _ _ _ _ _ _ _
                  (fun o e => ret (true, Some c, o, e)));
        [ intros rc o e; reflexivity | intros o e; apply traced_ret ]
    end.
Qed.

Lemma guarded_body_trace host tol (body : M unit) umask_param w :
  (forall h0, hoare (traced tol h0) body (tracing tol h0)) ->
  let c := bind (parse_umask host umask_param) (fun u =>
           bind (set_umask u) (fun old_umask =>
           try_finally body (restore_umask old_umask))) in
  exists new, history (fst (c w)) = history w ++ new
              /\ trace_ok tol (outcome_of (snd (c w))) new.
Proof.
  intros Hbody.
  assert (Hrun : forall w1 : World,
             exists new, history (fst (body w1)) = history w1 ++ new
                         /\ trace_ok tol (outcome_of (snd (body w1))) new).
  { intros w1.
    assert (H0 : traced tol (history w1) w1)
      by (exists []; split; [now rewrite app_nil_r | exact I]).
    specialize (Hbody (history w1) w1 H0). unfold tracing, post in Hbody.
    destruct (snd (body w1)); exact Hbody. }
  assert (Hnil : forall o, exists new : list run_record,
               history w = history w ++ new /\ trace_ok tol o new)
    by (intros o; exists []; split; [now rewrite app_nil_r | exact I]).
  cbv zeta.
  unfold parse_umask, set_umask, restore_umask, try_finally, bind, ret,
    fail_json, raise, stop, os_umask.
  destruct umask_param as [s|].
  - destruct (Str.truthy s).
    + destruct (int_octal host s) as [z|]; cbn [fst snd]; [|apply Hnil].
      match goal with |- context [body ?w1] =>
        destruct (Hrun w1) as (new & H1 & H2); destruct (body w1) as [w2 r] end.
      cbn [fst snd history] in *. exists new. auto.
    + cbn [fst snd]. apply Hnil.
  - destruct (Hrun w) as (new & H1 & H2). destruct (body w) as [w2 r].
    cbn [fst snd] in *. exists new. auto.
Qed.

Lemma pip_main_trace host module w :
  exists new, history (fst (pip_main host module w)) = history w ++ new
              /\ trace_ok (pip_tolerates (p_state (params module)))
                          (outcome_of (snd (pip_main host module w))) new.
Proof.
  unfold pip_main, when. destruct (HAS_SETUPTOOLS host); cbn [negb].
  - apply (guarded_body_trace host _ (pip_body host module (joined_env module))).
    intros h0. apply traced_pip_body.
  - exists []. split; [now rewrite app_nil_r | exact I].
Qed.

Lemma pipenv_main_trace host module w :
  exists new, history (fst (pipenv_main host module w)) = history w ++ new
              /\ trace_ok (fun _ => False)
                          (outcome_of (snd (pipenv_main host module w))) new.
Proof.
  unfold pipenv_main, when. destruct (HAS_SETUPTOOLS host); cbn [negb].
  - apply (guarded_body_trace host _ (pipenv_body host module (joined_env module))).
    intros h0. apply traced_pipenv_body.
  - exists []. split; [now rewrite app_nil_r | exact I].
Qed.

Lemma trace_ok_lookup tol o (new : list run_record) i r :
  trace_ok tol o new -> new !! i = Some r -> rr_rc r <> 0%Z ->
  (inv_site (rr_inv r) = PipList
   /\ exists r2, new !! S i = Some r2 /\ inv_site (rr_inv r2) = PipFreeze)
  \/ tol r
  \/ (S i = length new /\ reported o r).
Proof.
  revert i. induction new as [|x new IH]; intros i Ht Hi Hrc; [discriminate|].
  cbn [trace_ok] in Ht. destruct Ht as [Hx Hnew]. destruct i as [|i].
  - injection Hi as ->.
    destruct Hx as [H|[(Hs & r2 & rest & -> & Hf)|[H|[-> H]]]]; auto.
    + contradiction.
    + left. split; [exact Hs|]. exists r2. auto.
  - destruct (IH i Hnew Hi Hrc) as [(Hs & r2 & H2 & Hf)|[H|[H1 H2]]]; auto.
    + left. split; [exact Hs|]. exists r2. auto.
    + right; right. split; [cbn; lia | exact H2].
Qed.

Lemma reported_forwarded {A} (res : result A) r :
  reported (outcome_of res) r -> forwarded res r.
Proof.
  destruct res as [a|[x|msg cmd|e]]; cbn; try contradiction.
  intros [Ho He]. exists msg, cmd. auto.
Qed.

(** C2 (amended).  In a run of either module, a command that exits with
    a nonzero code makes the module report failure, with a message that
    holds the stdout and the stderr of the command, unless the command is
    [pip list --format=freeze] (then [pip freeze] is tried), the version
    probe of setuptools or pip, or [pip uninstall] answering with exit
    code 1 that the package is not installed. *)
Theorem C2_nonzero_exit_is_reported_unless_tolerated host module w :
  (exists new,
      history (fst (pip_main host module w)) = history w ++ new
      /\ forall i r, new !! i = Some r -> rr_rc r <> 0%Z ->
           inv_site (rr_inv r) = PipList
           \/ inv_site (rr_inv r) = SpecialProbe
           \/ uninstall_of_absent (p_state (params module)) r
           \/ (S i = length new /\ forwarded (snd (pip_main host module w)) r))
  /\ (exists new,
        history (fst (pipenv_main host module w)) = history w ++ new
        /\ forall i r, new !! i = Some r -> rr_rc r <> 0%Z ->
             inv_site (rr_inv r) = PipList
             \/ (S i = length new /\ forwarded (snd (pipenv_main host module w)) r)).
Proof.
  split.
  - destruct (pip_main_trace host module w) as (new & Hh & Ht).
    exists new. split; [exact Hh|]. intros i r Hi Hrc.
    destruct (trace_ok_lookup _ _ _ _ _ Ht Hi Hrc) as [[H _]|[[H|H]|[H1 H2]]]; auto.
    right; right; right. split; [exact H1 | now apply reported_forwarded].
  - destruct (pipenv_main_trace host module w) as (new & Hh & Ht).
    exists new. split; [exact Hh|]. intros i r Hi Hrc.
    destruct (trace_ok_lookup _ _ _ _ _ Ht Hi Hrc) as [[H _]|[[]|[H1 H2]]]; auto.
    right. split; [exact H1 | now apply reported_forwarded].
Qed.

(** C2 as stated fails: module pip, run with a requirements file on a
    host whose pip has no [list --format=freeze], sees that command exit
    with code 2 and ends with [exit_json]. *)
Lemma C2_listing_failure_counterexample :
  exists r x,
    In r (history (fst (pip_main venv_host pip_requirements_module world0)))
    /\ inv_site (rr_inv r) = PipList /\ rr_rc r = 2%Z
    /\ snd (pip_main venv_host pip_requirements_module world0) = Stop (ExitJson x).
Proof.
  eexists. eexists. split; [vm_compute; left; reflexivity|].
  split; [reflexivity|]. split; [reflexivity|]. vm_compute. reflexivity.
Qed.

Lemma nonzero_true rc : nonzero rc = true -> rc <> 0%Z.
Proof. unfold nonzero. intros H. apply negb_true_iff, Z.eqb_neq in H. exact H. Qed.

(** What [_get_packages] runs and returns. *)
Lemma _get_packages_runs host pip chdir w :
  exists r1,
    inv_cmd (rr_inv r1) = CmdStr (pip +:+ " list --format=freeze")
    /\ ((rr_rc r1 = 0%Z
         /\ history (fst (_get_packages host pip chdir w)) = history w ++ [r1]
         /\ snd (_get_packages host pip chdir w)
            = Ret (pip +:+ " list --format=freeze", rr_out r1, rr_err r1))
        \/ (rr_rc r1 <> 0%Z
            /\ exists r2,
                inv_cmd (rr_inv r2) = CmdStr (pip +:+ " freeze")
                /\ history (fst (_get_packages host pip chdir w)) = history w ++ [r1; r2]
                /\ ((rr_rc r2 = 0%Z
                     /\ snd (_get_packages host pip chdir w)
                        = Ret (pip +:+ " freeze", rr_out r2, rr_err r2))
                    \/ (rr_rc r2 <> 0%Z
                        /\ exists msg,
                            snd (_get_packages host pip chdir w)
                            = Stop (FailJson msg (Some (CmdStr (pip +:+ " freeze")))))))).
Proof.
  unfold _get_packages, bind, run_command, when, ret. cbv zeta.
  destruct (run_command_result host w _) as [[rc out] err].
  exists (Build_run_record
            (Build_invocation PipList (CmdStr (pip +:+ " list --format=freeze"))
                              (Some chdir) lang_env None) rc out err).
  split; [reflexivity|].
  destruct (nonzero rc) eqn:Hrc.
  - right. split; [now apply nonzero_true|].
    match goal with |- context [run_command_result host ?w1 ?i] =>
      destruct (run_command_result host w1 i) as [[rc2 out2] err2] end.
    exists (Build_run_record
              (Build_invocation PipFreeze (CmdStr (pip +:+ " freeze"))
                                (Some chdir) [] None) rc2 out2 err2).
    split; [reflexivity|].
    destruct (nonzero rc2) eqn:Hrc2; cbn [fst snd history rr_rc rr_out rr_err].
    + split; [now rewrite <- app_assoc|]. right.
      split; [now apply nonzero_true|]. eexists. reflexivity.
    + split; [now rewrite <- app_assoc|]. left.
      split; [now apply nonzero_false | reflexivity].
  - left. split; [now apply nonzero_false|]. split; reflexivity.
Qed.

(** The statements around the [try] of [main] add no command and let the
    way the body stops through. *)
Lemma guarded_body_summary host (body : M unit) umask_param
    (summary : list run_record -> result unit -> Prop) w :
  (forall msg cmd, summary [] (Stop (FailJson msg cmd))) ->
  (forall e, summary [] (Stop (Uncaught e))) ->
  (forall w1, exists new, history (fst (body w1)) = history w1 ++ new
                          /\ summary new (snd (body w1))) ->
  let c := bind (parse_umask host umask_param) (fun u =>
           bind (set_umask u) (fun old_umask =>
           try_finally body (restore_umask old_umask))) in
  exists new, history (fst (c w)) = history w ++ new
              /\ summary new (snd (c w)).
Proof.
  intros Hf He Hrun.
  assert (Hnil : forall r, summary [] r -> exists new : list run_record,
               history w = history w ++ new /\ summary new r)
    by (intros r Hr; exists []; split; [now rewrite app_nil_r | exact Hr]).
  cbv zeta.
  unfold parse_umask, set_umask, restore_umask, try_finally, bind, ret,
    fail_json, raise, stop, os_umask.
  destruct umask_param as [s|].
  - destruct (Str.truthy s).
    + destruct (int_octal host s) as [z|]; cbn [fst snd]; [|now apply Hnil].
      match goal with |- context [body ?w1] =>
        destruct (Hrun w1) as (new & H1 & H2); destruct (body w1) as [w2 r] end.
      cbn [fst snd history] in *. exists new. auto.
    + cbn [fst snd]. now apply Hnil.
  - destruct (Hrun w) as (new & H1 & H2). destruct (body w) as [w2 r].
    cbn [fst snd] in *. exists new. auto.
Qed.

(** ** Commands that are run at most once *)

Lemma runs_of_app s a b : runs_of s (a ++ b) = runs_of s a ++ runs_of s b.
Proof. apply List.filter_app. Qed.

Lemma runs_of_other s l :
  Forall (fun r => other_than s (inv_site (rr_inv r)) = true) l ->
  runs_of s l = [].
Proof.
  induction 1 as [|r l Hr _ IH]; [reflexivity|].
  cbn [runs_of List.filter]. unfold other_than in Hr.
  destruct (site_eqb (inv_site (rr_inv r)) s); [discriminate | exact IH].
Qed.

Lemma apart_from_extends {A} s (c : M A) w :
  apart_from s c ->
  exists ext, history (fst (c w)) = history w ++ ext /\ runs_of s ext = [].
Proof.
  intros Hc. specialize (Hc w w (within_refl _ _ _)).
  assert (Hw : within (other_than s) ["VIRTUAL_ENV"] w (fst (c w))).
  { unfold always, post in Hc. destruct (snd (c w)); [exact Hc | exact (proj1 Hc)]. }
  destruct Hw as (_ & _ & ext & He & Hs). exists ext. split; [exact He|].
  now apply runs_of_other.
Qed.

Section Once.
Context (host : Host) (s : call_site) (h0 : list run_record).

Local Abbreviation unused := (never_run s h0).
Local Abbreviation used_once := (run_at_most_once s h0).
Local Abbreviation sparing :=
  (post (run_at_most_once s h0) (fun w _ => run_at_most_once s h0 w)).

Lemma never_run_once w : unused w -> used_once w.
Proof.
  intros (new & Hh & Hn). exists new. rewrite Hn. split; [exact Hh | cbn; lia].
Qed.

Lemma never_run_frame {A} (c : M A) :
  apart_from s c -> hoare unused c (post unused (fun w _ => unused w)).
Proof.
  intros Hc w (new & Hh & Hn).
  destruct (apart_from_extends s c w Hc) as (ext & He & Hx).
  assert (Hu : unused (fst (c w))).
  { exists (new ++ ext). rewrite He, Hh, <- app_assoc. split; [reflexivity|].
    now rewrite runs_of_app, Hn, Hx. }
  unfold post. destruct (snd (c w)); exact Hu.
Qed.

Lemma run_at_most_once_frame {A} (c : M A) :
  apart_from s c -> hoare used_once c sparing.
Proof.
  intros Hc w (new & Hh & Hn).
  destruct (apart_from_extends s c w Hc) as (ext & He & Hx).
  assert (Hu : used_once (fst (c w))).
  { exists (new ++ ext). rewrite He, Hh, <- app_assoc. split; [reflexivity|].
    now rewrite runs_of_app, Hx, app_nil_r. }
  unfold post. destruct (snd (c w)); exact Hu.
Qed.

Lemma run_command_once site cmd cwd env prefix :
  hoare unused (run_command host site cmd cwd env prefix) sparing.
Proof.
  intros w (new & Hh & Hn). unfold run_command.
  destruct (run_command_result host w _) as [[rc out] err].
  cbn [fst snd post history]. eexists (new ++ [_]).
  rewrite Hh, <- app_assoc. split; [reflexivity|].
  rewrite runs_of_app, Hn. cbn [runs_of List.filter app].
  destruct (site_eqb _ s); cbn; lia.
Qed.

Lemma once_ret {A} (a : A) : hoare unused (ret a) sparing.
Proof. apply hoare_ret. intros w Hw. now apply never_run_once. Qed.

Lemma once_stop {A} o : hoare unused (@stop A o) sparing.
Proof. apply hoare_stop. intros w Hw. now apply never_run_once. Qed.

End Once.

(** The footprint of a block that does not use the call site [s]. *)
Ltac apart_block host s :=
  let w0 := fresh "w0" in
  intros w0;
  pose proof (within_get_bin_path_required host (other_than s) ["VIRTUAL_ENV"] w0
                (fun _ => True) (fun _ _ => I));
  pose proof (within__get_pip host (other_than s) ["VIRTUAL_ENV"] w0
                (fun _ => True) (fun _ _ => I));
  pose proof (within__get_pipenv host (other_than s) ["VIRTUAL_ENV"] w0
                (fun _ => True) (fun _ _ => I));
  pose proof (within_build_packages host (other_than s) ["VIRTUAL_ENV"] w0
                (fun _ => True) (fun _ _ => I) (fun _ => I));
  try pose proof (fun c => within__get_cmd_options host (other_than s)
                    ["VIRTUAL_ENV"] w0 (fun _ => True) (fun _ _ => I) c eq_refl);
  try pose proof (fun p c => within__get_packages host (other_than s)
                    ["VIRTUAL_ENV"] w0 (fun _ => True) (fun _ _ => I) p c
                    eq_refl eq_refl);
  try pose proof (fun m e c o r => within_ensure_virtualenv host (other_than s)
                    ["VIRTUAL_ENV"] w0 (fun _ => True) (fun _ _ => I) m e c o r
                    eq_refl eq_refl (fun _ => I));
  try pose proof (fun m p c e x pk o r => within_pip_check_mode host (other_than s)
                    ["VIRTUAL_ENV"] w0 (fun _ => True) (fun _ _ => I) (fun _ => I)
                    m p c e x pk o r eq_refl eq_refl eq_refl (fun _ => I));
  solve [within_auto].

(** One step along a program in which [s] is used by one command at
    most: the blocks before that command and the ones after it leave [s]
    out. *)
Ltac once_step host s h0 :=
  lazymatch goal with
  | |- hoare _ (bind (run_command _ s _ _ _ _) _) _ =>
      apply (hoare_bind _ (post (run_at_most_once s h0)
                                (fun w _ => run_at_most_once s h0 w)));
      [ apply run_command_once
      | intros ?; apply run_at_most_once_frame; apart_block host s
      | auto ]
  | |- hoare _ (bind _ _) _ =>
      first
        [ apply (hoare_bind _ (post (never_run s h0) (fun w _ => never_run s h0 w)));
          [ apply never_run_frame; apart_block host s
          | intros ?
          | intros ? ? ?; now apply never_run_once ]
        | apply (hoare_bind _ (post (run_at_most_once s h0)
                                    (fun w _ => run_at_most_once s h0 w)));
          [ | intros ?; apply run_at_most_once_frame; apart_block host s | auto ] ]
  | |- hoare _ (ret _) _ => apply once_ret
  | |- hoare _ (exit_json _) _ => apply once_stop
  | |- hoare _ (if ?b then _ else _) _ => destruct b
  | |- hoare _ (match ?x with _ => _ end) _ => destruct x
  | |- hoare _ (_get_packages _ _ _) _ => unfold _get_packages; cbv zeta
  | |- hoare _ (_get_cmd_options _ _) _ => unfold _get_cmd_options; cbv zeta
  | |- hoare _ (setup_virtualenv _ _ _ _ _ _) _ => unfold setup_virtualenv; cbv zeta
  | |- hoare _ (ensure_virtualenv _ _ _ _ _ _) _ => unfold ensure_virtualenv
  end.

Ltac once_auto host :=
  lazymatch goal with
  | |- hoare (never_run ?s ?h0) _ _ => repeat once_step host s h0
  end.

(** Module pip creates the virtualenv, asks for the options of the
    virtualenv command and runs the install or uninstall command once at
    most. *)
Lemma pip_body_once host module env s h0 :
  In s [VenvHelp; VenvCreate; PipAction] ->
  hoare (never_run s h0) (pip_body host module env)
        (post (run_at_most_once s h0) (fun w _ => run_at_most_once s h0 w)).
Proof.
  intros [<-|[<-|[<-|[]]]]; unfold pip_body; cbv zeta; once_auto host.
Qed.

(** Module pipenv runs each of its commands once at most. *)
Lemma pipenv_body_once host module env s h0 :
  hoare (never_run s h0) (pipenv_body host module env)
        (post (run_at_most_once s h0) (fun w _ => run_at_most_once s h0 w)).
Proof.
  destruct s; unfold pipenv_body, has_changes; cbv zeta; once_auto host.
Qed.

Lemma guarded_body_once host s (body : M unit) umask_param w :
  (forall h0, hoare (never_run s h0) body
                    (post (run_at_most_once s h0)
                          (fun w _ => run_at_most_once s h0 w))) ->
  let c := bind (parse_umask host umask_param) (fun u =>
           bind (set_umask u) (fun old_umask =>
           try_finally body (restore_umask old_umask))) in
  exists new, history (fst (c w)) = history w ++ new
              /\ length (runs_of s new) <= 1.
Proof.
  intros Hb.
  apply (guarded_body_summary host body umask_param
           (fun new _ => length (runs_of s new) <= 1));
    [ intros; cbn; lia | intros; cbn; lia | ].
  intros w1.
  assert (H0 : never_run s (history w1) w1)
    by (exists []; split; [now rewrite app_nil_r | reflexivity]).
  specialize (Hb (history w1) w1 H0). unfold post in Hb.
  destruct (snd (body w1)); exact Hb.
Qed.

Lemma pip_main_once host module w s :
  In s [VenvHelp; VenvCreate; PipAction] ->
  exists new, history (fst (pip_main host module w)) = history w ++ new
              /\ length (runs_of s new) <= 1.
Proof.
  intros Hs. unfold pip_main, when. destruct (HAS_SETUPTOOLS host); cbn [negb].
  - apply (guarded_body_once host s (pip_body host module (joined_env module))).
    intros h0. now apply pip_body_once.
  - exists []. split; [now rewrite app_nil_r | cbn; lia].
Qed.

Lemma pipenv_main_once host module w s :
  exists new, history (fst (pipenv_main host module w)) = history w ++ new
              /\ length (runs_of s new) <= 1.
Proof.
  unfold pipenv_main, when. destruct (HAS_SETUPTOOLS host); cbn [negb].
  - apply (guarded_body_once host s (pipenv_body host module (joined_env module))).
    intros h0. apply pipenv_body_once.
  - exists []. split; [now rewrite app_nil_r | cbn; lia].
Qed.

Lemma once_in_extension s (h h' new : list run_record) :
  h' = h ++ new ->
  (exists new', h' = h ++ new' /\ length (runs_of s new') <= 1) ->
  length (runs_of s new) <= 1.
Proof.
  intros Hh (new' & Hh' & Hl). rewrite Hh in Hh'.
  apply app_inv_head in Hh'. now subst new'.
Qed.

(** C6 (amended).  The one alternative invocation is the fallback of
    [_get_packages]: [pip list --format=freeze] is run once and, only when
    it exits with a nonzero code, [pip freeze] is run once; when that
    fails too the module fails and runs nothing more.  In a run of module
    pip, the options query and the creation of the virtualenv and the
    install or uninstall command are run once at most; in a run of module
    pipenv every command is.  In a run of either module, a command that
    exits with a nonzero code is followed by another command only when it
    is that [pip list] (then [pip freeze] comes next), the version probe
    of setuptools or pip, or [pip uninstall] of a package that is not
    installed. *)
Theorem C6_only_the_listing_has_a_fallback host module pip chdir w :
  (exists r1,
    inv_cmd (rr_inv r1) = CmdStr (pip +:+ " list --format=freeze")
    /\ ((rr_rc r1 = 0%Z
         /\ history (fst (_get_packages host pip chdir w)) = history w ++ [r1])
        \/ (rr_rc r1 <> 0%Z
            /\ exists r2,
                inv_cmd (rr_inv r2) = CmdStr (pip +:+ " freeze")
                /\ history (fst (_get_packages host pip chdir w)) = history w ++ [r1; r2]
                /\ (rr_rc r2 = 0%Z
                    \/ exists msg cmd,
                        snd (_get_packages host pip chdir w)
                        = Stop (FailJson msg cmd)))))
  /\ (exists new,
        history (fst (pip_main host module w)) = history w ++ new
        /\ Forall (fun s => length (runs_of s new) <= 1)
                  [VenvHelp; VenvCreate; PipAction]
        /\ forall i r, new !! i = Some r -> rr_rc r <> 0%Z -> S i < length new ->
             (inv_site (rr_inv r) = PipList
              /\ exists r2, new !! S i = Some r2 /\ inv_site (rr_inv r2) = PipFreeze)
             \/ inv_site (rr_inv r) = SpecialProbe
             \/ uninstall_of_absent (p_state (params module)) r)
  /\ (exists new,
        history (fst (pipenv_main host module w)) = history w ++ new
        /\ (forall s, length (runs_of s new) <= 1)
        /\ forall i r, new !! i = Some r -> rr_rc r <> 0%Z -> S i < length new ->
             inv_site (rr_inv r) = PipList
             /\ exists r2, new !! S i = Some r2 /\ inv_site (rr_inv r2) = PipFreeze).
Proof.
  split; [|split].
  - destruct (_get_packages_runs host pip chdir w)
      as (r1 & Hc & [(Hz & Hh & _)|(Hnz & r2 & Hc2 & Hh & Hres)]).
    + exists r1. split; [exact Hc|]. left. auto.
    + exists r1. split; [exact Hc|]. right. split; [exact Hnz|].
      exists r2. split; [exact Hc2|]. split; [exact Hh|].
      destruct Hres as [[Hz _]|[_ (msg & Hm)]]; [now left | right; eauto].
  - destruct (pip_main_trace host module w) as (new & Hh & Ht).
    exists new. split; [exact Hh|]. split.
    + apply List.Forall_forall. intros s Hs.
      eapply once_in_extension; [exact Hh|]. now apply pip_main_once.
    + intros i r Hi Hrc Hlt.
      destruct (trace_ok_lookup _ _ _ _ _ Ht Hi Hrc) as [H|[[H|H]|[H1 H2]]]; auto.
      lia.
  - destruct (pipenv_main_trace host module w) as (new & Hh & Ht).
    exists new. split; [exact Hh|]. split.
    + intros s. eapply once_in_extension; [exact Hh|]. apply pipenv_main_once.
    + intros i r Hi Hrc Hlt.
      destruct (trace_ok_lookup _ _ _ _ _ Ht Hi Hrc) as [H|[[]|[H1 H2]]]; auto.
      lia.
Qed.

(** Module pip obtains the listing before and after the install when a
    requirements file is given: the listing command is run twice. *)
Example pip_lists_before_and_after :
  map (fun r => inv_site (rr_inv r))
      (history (fst (pip_main listing_host pip_requirements_module world0)))
  = [PipList; PipAction; PipList].
Proof. vm_compute. reflexivity. Qed.

(** C6 as stated fails: when [pip list --format=freeze] exits with a
    nonzero code, [_get_packages] runs a second command for the listing. *)
Lemma C6_listing_fallback_counterexample :
  map (fun r => (inv_cmd (rr_inv r), rr_rc r))
      (history (fst (_get_packages venv_host "/usr/bin/pip3" "/tmp" world0)))
  = [(CmdStr "/usr/bin/pip3 list --format=freeze", 2%Z);
     (CmdStr "/usr/bin/pip3 freeze", 0%Z)].
Proof. vm_compute. reflexivity. Qed.

(** ** The checks on [version] *)

Lemma hoare_false {A} (P : World -> Prop) (c : M A) Q :
  (forall w, ~ P w) -> hoare P c Q.
Proof. intros H w Hw. destruct (H w Hw). Qed.

Lemma map_except_length {A B} (f : A -> except B) l bs :
  map_except f l = Ok bs -> length bs = length l.
Proof.
  revert bs. induction l as [|a l IH]; intros bs; cbn [map_except].
  - intros [= <-]. reflexivity.
  - destruct (f a) as [b|e]; cbn [except_bind]; [|discriminate].
    destruct (map_except f l) as [bs'|e]; cbn [except_bind]; [|discriminate].
    intros [= <-]. cbn. now rewrite (IH bs').
Qed.

(** With such a [name], the statements under [if name:] do not reach
    the end. *)
Lemma build_packages_rejects host name v w :
  1 < length (_recover_package_name name)
  \/ (exists p pk, _recover_package_name name = [p]
                   /\ Package_init host p None = Ok pk
                   /\ has_version_specifier pk = true) ->
  exists o, build_packages host name (Some v) w = (w, Stop o) /\ is_failure o.
Proof.
  intros H. unfold build_packages, bind, lift_except, when, raise, fail_json,
              stop, ret. cbv zeta.
  destruct H as [Hlen | (p & pk & Hp & Hpk & Hspec)].
  - destruct (map_except _ (_recover_package_name name)) as [packages|e] eqn:Hm.
    + apply map_except_length in Hm. rewrite Hm.
      destruct (Nat.ltb_spec 1 (length (_recover_package_name name))); [|lia].
      eexists. split; [reflexivity | exact I].
    + eexists. split; [reflexivity | exact I].
  - rewrite Hp. cbn [map_except]. rewrite Hpk. cbn [except_bind length Nat.ltb Nat.leb].
    rewrite Hspec. eexists. split; [reflexivity | exact I].
Qed.

Lemma joined_env_truthy module :
  truthy_opt (joined_env module) = true ->
  truthy_opt (p_virtualenv (params module)) = true.
Proof.
  unfold joined_env.
  destruct (truthy_opt (p_virtualenv (params module))) eqn:E; [reflexivity|].
  cbn [andb]. now rewrite E.
Qed.

Lemma pip_body_rejects host module w0 :
  version_conflict host module ->
  hoare (within venv_sites [] w0)
        (pip_body host module (joined_env module))
        (fun w r => within venv_sites [] w0 w
                    /\ exists o, r = Stop o /\ rejected module o).
Proof.
  intros [Hv Hcase].
  assert (Gf : forall msg cmd, rejected module (FailJson msg cmd))
    by (intros; left; exact I).
  assert (Gr : forall e, rejected module (Uncaught e)) by (intros; left; exact I).
  destruct (p_version (params module)) as [v|] eqn:Ev; [clear Hv | discriminate].
  pose (stops := fun (A : Type) (w : World) (r : result A) =>
                   within venv_sites [] w0 w
                   /\ exists o, r = Stop o /\ rejected module o).
  unfold pip_body. cbv zeta. rewrite Ev. cbn [is_some].
  destruct (state_eqb (p_state (params module)) latest) eqn:Hst.
  - (* state == 'latest' and version is not None *)
    cbn [andb when].
    apply (hoare_bind _ (stops unit)); [ | intros ?; apply hoare_false; intros w (_ & o & Ho & _); discriminate
        | intros w o (Hw & o' & [= ->] & Hr); split; [exact Hw | exists o'; auto] ].
    apply hoare_stop. intros w Hw. split; [exact Hw|].
    eexists. split; [reflexivity | apply Gf].
  - assert (Hnl : p_state (params module) <> latest)
      by (intros E; rewrite E in Hst; discriminate).
    destruct Hcase as [E | Hname]; [contradiction|].
    cbn [andb when].
    apply (hoare_bind _ (always venv_sites [] w0 (rejected module)));
      [ apply within_ret | intros ? | intros w o [Hw Ho]; split; eauto ].
    apply (hoare_bind _ (always venv_sites [] w0 (rejected module)));
      [ | intros [[venv_created out] err] | intros w o [Hw Ho]; split; eauto ].
    { destruct (truthy_opt (joined_env module)) eqn:Henv.
      - apply within_ensure_virtualenv; auto.
        intros Hcm. right. repeat split; auto. now apply joined_env_truthy.
      - unfold ensure_virtualenv. rewrite Henv. apply within_ret. }
    apply (hoare_bind _ (always venv_sites [] w0 (rejected module)));
      [ now apply within__get_pip | intros pip | intros w o [Hw Ho]; split; eauto ].
    apply (hoare_bind _ (stops (bool * list Package)%type));
      [ | intros ?; apply hoare_false; intros w (_ & o & Ho & _); discriminate
        | intros w o (Hw & o' & [= ->] & Hr); split; [exact Hw | exists o'; auto] ].
    assert (Htr : truthy_list (p_name (params module)) = true)
      by (destruct Hname as [[H _]|[H _]]; exact H).
    rewrite Htr. intros w Hw.
    destruct (build_packages_rejects host (or_nil (p_name (params module))) v w)
      as (o & -> & Ho).
    { destruct Hname as [[_ H]|[_ H]]; auto. }
    cbn [fst snd]. split; [exact Hw|]. exists o. split; [reflexivity | now left].
Qed.

(** The two checks on [name], and check mode on a host where foo 1.0 is
    installed. *)
Example pip_rejects_version_with_two_packages :
  exists msg,
    snd (pip_main listing_host (pip_named_module ["a"; "b"] (Some "1.0") false) world0)
    = Stop (FailJson msg None)
    /\ Str.startswith "'version' argument is ambiguous" msg = true.
Proof. eexists. split; vm_compute; reflexivity. Qed.

Example pip_rejects_version_with_specifier :
  exists msg,
    snd (pip_main listing_host (pip_named_module ["foo==1.0"] (Some "2.0") false) world0)
    = Stop (FailJson msg None)
    /\ Str.startswith "The 'version' argument conflicts" msg = true.
Proof. eexists. split; vm_compute; reflexivity. Qed.

Example pip_check_mode_present :
  exists r,
    snd (pip_main listing_host (pip_named_module ["foo"] (Some "1.0") true) world0)
    = Stop (ExitJson r)
    /\ changed r = false.
Proof. eexists. split; vm_compute; reflexivity. Qed.

Example pip_check_mode_other_version :
  exists r,
    snd (pip_main listing_host (pip_named_module ["foo"] (Some "1.1") true) world0)
    = Stop (ExitJson r)
    /\ changed r = true.
Proof. eexists. split; vm_compute; reflexivity. Qed.

(** C7 (amended).  When [version] comes with [state=latest], with more
    than one package in [name], or with a single package whose name
    carries a version specifier, module pip runs no install or uninstall
    command, and it ends in failure -- except in check mode when the
    virtualenv has to be created first: [setup_virtualenv] then exits with
    [changed=true] before the arguments are checked.  With [state=latest]
    the module always fails. *)
Theorem C7_version_conflict_runs_no_pip_command host module w :
  version_conflict host module ->
  exists new o,
    history (fst (pip_main host module w)) = history w ++ new
    /\ Forall (fun r => inv_site (rr_inv r) <> PipAction) new
    /\ snd (pip_main host module w) = Stop o
    /\ rejected module o.
Proof.
  intros Hc.
  assert (H : exists new,
             history (fst (pip_main host module w)) = history w ++ new
             /\ (Forall (fun r => inv_site (rr_inv r) <> PipAction) new
                 /\ exists o, snd (pip_main host module w) = Stop o
                              /\ rejected module o)).
  { unfold pip_main, when. destruct (HAS_SETUPTOOLS host); cbn [negb].
    - apply (guarded_body_summary host (pip_body host module (joined_env module)) _
               (fun new r => Forall (fun r => inv_site (rr_inv r) <> PipAction) new
                             /\ exists o, r = Stop o /\ rejected module o)).
      + intros msg cmd. split; [constructor|]. eexists. split; [reflexivity|now left].
      + intros e. split; [constructor|]. eexists. split; [reflexivity|now left].
      + intros w1.
        destruct (pip_body_rejects host module w1 Hc w1 (within_refl _ _ _))
          as ((_ & _ & new & Hh & Hs) & Ho).
        exists new. split; [exact Hh|]. split; [|exact Ho].
        eapply Forall_impl; [exact Hs|]. intros r Hr E. cbv beta in Hr.
        rewrite E in Hr. discriminate.
    - exists []. split; [now rewrite app_nil_r|]. split; [constructor|].
      eexists. split; [reflexivity | now left]. }
  destruct H as (new & Hh & Hf & o & Ho & Hr). exists new, o. auto.
Qed.

Lemma C7_version_conflict_witness :
  exists new o,
    history (fst (pip_main listing_host pip_conflict_module world0)) = history world0 ++ new
    /\ Forall (fun r => inv_site (rr_inv r) <> PipAction) new
    /\ snd (pip_main listing_host pip_conflict_module world0) = Stop o
    /\ rejected pip_conflict_module o.
Proof.
  apply (C7_version_conflict_runs_no_pip_command listing_host pip_conflict_module world0).
  split; [reflexivity|]. right; left. split; [reflexivity|]. vm_compute. lia.
Defined.

(** C7 as stated fails: in check mode, with a virtualenv that does not
    exist yet, [version] together with two packages ends with
    [exit_json(changed=True)], not with a failure. *)
Lemma C7_check_mode_counterexample :
  version_conflict venv_host pip_check_conflict_module
  /\ snd (pip_main venv_host pip_check_conflict_module world0)
     = Stop (ExitJson (exit_changed true)).
Proof.
  split.
  - split; [reflexivity|]. right; left. split; [reflexivity|]. vm_compute. lia.
  - vm_compute. reflexivity.
Qed.

(** ** [Package.is_satisfied_by] *)

(** The fallback for old setuptools compares with the operator that
    [op_dict] holds for each constraint. *)
Lemma is_satisfied_by_fallback host n r v :
  specifier r = None ->
  is_satisfied_by host (PlainPackage n r) v = all_specs_hold host v (specs r).
Proof. intros H. cbn [is_satisfied_by]. now rewrite H. Qed.

(** For the six comparison operators the fallback is the standard
    meaning (here on numeric versions). *)
Lemma fallback_standard_without_compat op v ver :
  op <> OpCompat -> op_dict op (numeric_cmp v ver) = standard_meaning op v ver.
Proof. destruct op; (reflexivity || congruence). Qed.

(** [op_dict] holds [operator.ge] for ['~=']: the fallback reads a
    compatible-release clause as a plain [>=]. *)
Lemma compat_is_ge c : op_dict OpCompat c = op_dict OpGe c.
Proof. reflexivity. Qed.







(** ** The check of module pipenv in a run *)

(** A block that runs no listing keeps the invariant. *)
Lemma unlisted_frame {A} h0 sites (c : M A) :
  sites PipList = false -> sites PipFreeze = false ->
  (forall w0, hoare (within sites ["VIRTUAL_ENV"] w0) c
                    (always sites ["VIRTUAL_ENV"] w0 (fun _ => True))) ->
  hoare (unlisted h0) c (post (unlisted h0) (fun w _ => unlisted h0 w)).
Proof.
  intros Hl Hf Hc w (new & Hh & Hn).
  specialize (Hc w w (within_refl _ _ _)).
  assert (Hw : within sites ["VIRTUAL_ENV"] w (fst (c w))).
  { unfold always, post in Hc. destruct (snd (c w)); [exact Hc | exact (proj1 Hc)]. }
  destruct Hw as (_ & _ & ext & He & Hs).
  assert (Hu : unlisted h0 (fst (c w))).
  { exists (new ++ ext). rewrite He, Hh, <- app_assoc. split; [reflexivity|].
    apply Forall_app; split; [exact Hn|].
    eapply Forall_impl; [exact Hs|]. intros r Hr ([E|E] & _);
      cbv beta in Hr; rewrite E in Hr; congruence. }
  unfold post. destruct (snd (c w)); exact Hu.
Qed.

Lemma _get_packages_unlisted host h0 pip chdir :
  hoare (unlisted h0) (_get_packages host pip chdir)
        (fun w r => match r with
                    | Ret (command, out, err) =>
                        if any_has_separator command out err then True
                        else unlisted h0 w
                    | Stop _ => unlisted h0 w
                    end).
Proof.
  intros w (new & Hh & Hn).
  assert (Hfail : forall r, rr_rc r <> 0%Z -> ~ listing_with_separator r)
    by (intros r Hr (_ & Hz & _); contradiction).
  assert (Hclean : forall r c, inv_cmd (rr_inv r) = CmdStr c ->
                               any_has_separator c (rr_out r) (rr_err r) = false ->
                               ~ listing_with_separator r).
  { intros r c Hc Hany (_ & _ & c' & Hc' & Hany').
    rewrite Hc in Hc'. injection Hc' as <-. congruence. }
  destruct (_get_packages_runs host pip chdir w)
    as (r1 & Hc1 & [(Hz & Hh1 & Hres)
                   |(Hnz & r2 & Hc2 & Hh2 & [(Hz2 & Hres)|(Hnz2 & msg & Hres)])]);
    rewrite Hres.
  - destruct (any_has_separator _ _ _) eqn:Hany; [exact I|].
    exists (new ++ [r1]). rewrite Hh1, Hh, <- app_assoc. split; [reflexivity|].
    apply Forall_app; split; [exact Hn|]. constructor; [|constructor]. eauto.
  - destruct (any_has_separator _ _ _) eqn:Hany; [exact I|].
    exists (new ++ [r1; r2]). rewrite Hh2, Hh, <- app_assoc. split; [reflexivity|].
    apply Forall_app; split; [exact Hn|].
    constructor; [auto|]. constructor; [eauto | constructor].
  - exists (new ++ [r1; r2]). rewrite Hh2, Hh, <- app_assoc. split; [reflexivity|].
    apply Forall_app; split; [exact Hn|].
    constructor; [auto|]. constructor; [auto | constructor].
Qed.

Lemma pipenv_body_check host module env h0 :
  hoare (unlisted h0) (pipenv_body host module env)
        (fun w r => unlisted h0 w \/ check_raised r).
Proof.
  assert (Gt : forall o : outcome, (fun _ => True) o) by auto.
  unfold pipenv_body. cbv zeta.
  apply (hoare_bind _ (post (unlisted h0) (fun w _ => unlisted h0 w)));
    [ | intros [[venv_created out] err] | intros w o H; now left ].
  { apply (unlisted_frame h0 venv_sites); [reflexivity | reflexivity |].
    intros w0. apply within_ensure_virtualenv; auto. }
  apply (hoare_bind _ (post (unlisted h0) (fun w _ => unlisted h0 w)));
    [ | intros pip | intros w o H; now left ].
  { apply (unlisted_frame h0 venv_sites); [reflexivity | reflexivity |].
    intros w0. apply within__get_pip; auto. }
  eapply hoare_bind; [ apply _get_packages_unlisted | | intros w o H; now left ].
  intros [[command out_list] err_list]. cbv beta iota.
  destruct (any_has_separator command out_list err_list) eqn:Hany.
  - (* the check raises *)
    intros w _. unfold bind.
    destruct (pipenv_check_raises host command out_list err_list Hany) as [-> | ->];
      cbn; right; [left | right]; reflexivity.
  - rewrite (pipenv_check_passes host command out_list err_list Hany).
    eapply hoare_conseq;
      [ intros w H; exact H
      | |
        apply (unlisted_frame h0 pipenv_sites); [reflexivity | reflexivity |] ].
    + intros w [a|o] H; left; exact H.
    + intros w0. unfold has_changes.
      pose proof (eq_refl : pipenv_sites PipInstallPipenv = true).
      pose proof (eq_refl : pipenv_sites PipenvSync = true).
      assert (In "VIRTUAL_ENV" ["VIRTUAL_ENV"]) by now left.
      pose proof (within__get_pipenv host pipenv_sites ["VIRTUAL_ENV"] w0
                    (fun _ => True) (fun _ _ => I)).
      within_auto.
Qed.

(** C8.  The check of module pipenv passes the string ['pipenv'] and the
    tuple [(command, out, err)] of [_get_packages] to [_is_present]: as
    soon as one of the three strings holds ['=='], the call raises
    [ValueError] or [AttributeError]; and every run of [main()] in which
    the listing succeeded with such strings ends with that exception. *)
Theorem C8_pipenv_check_raises host :
  (forall command out err,
      any_has_separator command out err = true ->
      _is_present host (ReqStr "pipenv") [command; out; err] = Raise ValueError
      \/ _is_present host (ReqStr "pipenv") [command; out; err]
         = Raise AttributeError)
  /\ (forall module w,
        exists new,
          history (fst (pipenv_main host module w)) = history w ++ new
          /\ ((exists r, In r new /\ listing_with_separator r) ->
              check_raised (snd (pipenv_main host module w)))).
Proof.
  split; [apply pipenv_check_raises|].
  intros module w.
  assert (H : exists new,
             history (fst (pipenv_main host module w)) = history w ++ new
             /\ (Forall (fun r => ~ listing_with_separator r) new
                 \/ check_raised (snd (pipenv_main host module w)))).
  { unfold pipenv_main, when. destruct (HAS_SETUPTOOLS host); cbn [negb].
    - apply (guarded_body_summary host (pipenv_body host module (joined_env module)) _
               (fun new r => Forall (fun r => ~ listing_with_separator r) new
                             \/ check_raised r)).
      + intros; left; constructor.
      + intros; left; constructor.
      + intros w1.
        assert (H0 : unlisted (history w1) w1)
          by (exists []; split; [now rewrite app_nil_r | constructor]).
        destruct (pipenv_body_check host module (joined_env module) (history w1) w1 H0)
          as [(new & Hh & Hn) | Hr].
        * exists new. auto.
        * pose proof (within_pipenv_body host (fun _ => true) ["VIRTUAL_ENV"] w1
                        (fun _ => True) (fun _ _ => I) (fun _ => I) module
                        (joined_env module) (fun _ => eq_refl)
                        (or_introl eq_refl) (fun _ => I) w1 (within_refl _ _ _)) as Hw.
          assert (Hx : exists new,
                     history (fst (pipenv_body host module (joined_env module) w1))
                     = history w1 ++ new).
          { unfold always, post in Hw.
            destruct (snd (pipenv_body host module (joined_env module) w1));
              [destruct Hw as (_ & _ & new & Hh & _)
              | destruct Hw as ((_ & _ & new & Hh & _) & _)]; eauto. }
          destruct Hx as (new & Hh). exists new. auto.
    - exists []. split; [now rewrite app_nil_r | left; constructor]. }
  destruct H as (new & Hh & [Hn | Hr]); exists new; (split; [exact Hh|]); [|auto].
  intros (r & Hin & Hr). rewrite Forall_forall in Hn.
  destruct (Hn r); [|exact Hr]. now apply list_elem_of_In.
Qed.

Lemma C8_pipenv_check_raises_witness :
  _is_present quiet_host (ReqStr "pipenv")
              ["/usr/bin/pip3 list --format=freeze"; "six==1.11.0"; ""]
  = Raise ValueError
  \/ _is_present quiet_host (ReqStr "pipenv")
                 ["/usr/bin/pip3 list --format=freeze"; "six==1.11.0"; ""]
     = Raise AttributeError.
Proof.
  apply (proj1 (C8_pipenv_check_raises quiet_host)). reflexivity.
Defined.

(* ===================================================================== *)
(** * Further properties of the code *)
(* ===================================================================== *)

(** ** Strings split on one character *)

(** Splitting on a separator of one character. *)
Lemma startswith_char d c s :
  Str.startswith (String d EmptyString) (String c s) = Ascii.eqb d c.
Proof. cbn. apply andb_true_r. Qed.

Lemma contains_char_cons d c s :
  Str.contains (String d EmptyString) (String c s)
  = Ascii.eqb d c || Str.contains (String d EmptyString) s.
Proof. cbn [Str.contains]. now rewrite startswith_char. Qed.

Lemma split_char_free d s :
  Forall (fun t => Str.contains (String d EmptyString) t = false)
         (Str.split (String d EmptyString) s).
Proof.
  unfold Str.split. induction s as [|c s IH].
  - constructor; [reflexivity | constructor].
  - cbn [Str.split_from String.length Nat.sub]. rewrite startswith_char.
    destruct (Ascii.eqb d c) eqn:Hc.
    + constructor; [reflexivity | exact IH].
    + destruct (Str.split_from (String d EmptyString) s 0) as [|h t]; constructor.
      * now rewrite contains_char_cons, Hc.
      * constructor.
      * rewrite contains_char_cons, Hc. now inversion IH.
      * now inversion IH.
Qed.

Lemma split_char_token d t s :
  Str.contains (String d EmptyString) t = false ->
  Str.split (String d EmptyString) (t +:+ String d EmptyString +:+ s)
  = t :: Str.split (String d EmptyString) s.
Proof.
  unfold Str.split. induction t as [|c t IH]; intros Hc.
  - change (EmptyString +:+ String d EmptyString +:+ s) with (String d s).
    cbn [Str.split_from String.length Nat.sub].
    now rewrite startswith_char, Ascii.eqb_refl.
  - rewrite contains_char_cons in Hc. apply orb_false_iff in Hc as [Hc Ht].
    rewrite append_cons. cbn [Str.split_from]. rewrite startswith_char, Hc.
    now rewrite (IH Ht).
Qed.

Lemma split_char_single d t :
  Str.contains (String d EmptyString) t = false ->
  Str.split (String d EmptyString) t = [t].
Proof.
  unfold Str.split. induction t as [|c t IH]; intros Hc; [reflexivity|].
  rewrite contains_char_cons in Hc. apply orb_false_iff in Hc as [Hc Ht].
  cbn [Str.split_from]. rewrite startswith_char, Hc. now rewrite (IH Ht).
Qed.

Lemma split_join_char d l :
  l <> [] -> Forall (fun t => Str.contains (String d EmptyString) t = false) l ->
  Str.split (String d EmptyString) (Str.join (String d EmptyString) l) = l.
Proof.
  induction l as [|t l IH]; intros Hne Hl; [congruence|].
  inversion Hl as [|? ? Ht Hl']; subst.
  destruct l as [|u l].
  - now apply split_char_single.
  - rewrite join_cons by discriminate.
    rewrite split_char_token by exact Ht. now rewrite IH.
Qed.

(** ** Runs of [main] *)

Section Recording.
Context (host : Host) (ok : run_record -> Prop) (good : outcome -> Prop).
Context (h0 : list run_record).

Lemma recorded_refl w : history w = h0 -> recorded ok h0 w.
Proof. intros H. exists []. split; [now rewrite app_nil_r | constructor]. Qed.

Lemma recording_frame {A} sites vars (c : M A) :
  (forall r, sites (inv_site (rr_inv r)) = true -> ok r) ->
  (forall w0, hoare (within sites vars w0) c (always sites vars w0 good)) ->
  hoare (recorded ok h0) c (recording ok good h0).
Proof.
  intros Hok Hc w (new & Hh & Hn).
  specialize (Hc w w (within_refl _ _ _)).
  assert (Hext : forall w', within sites vars w w' -> recorded ok h0 w').
  { intros w' (_ & _ & ext & He & Hs). exists (new ++ ext).
    rewrite He, Hh, <- app_assoc. split; [reflexivity|].
    apply Forall_app; split; [exact Hn|].
    eapply Forall_impl; [exact Hs | exact Hok]. }
  unfold recording, always, post in *.
  destruct (snd (c w)); [now apply Hext | split; [apply Hext|]; tauto].
Qed.

Lemma recording_run_command site cmd cwd env prefix :
  (forall rc out err,
      ok {| rr_inv := {| inv_site := site; inv_cmd := cmd; inv_cwd := cwd;
                         inv_environ_update := env; inv_path_prefix := prefix |};
            rr_rc := rc; rr_out := out; rr_err := err |}) ->
  hoare (recorded ok h0) (run_command host site cmd cwd env prefix)
        (recording ok good h0).
Proof.
  intros Hok w (new & Hh & Hn). unfold run_command.
  destruct (run_command_result host w _) as [[rc out] err].
  cbn [fst snd recording post history]. eexists (new ++ [_]).
  rewrite Hh, <- app_assoc. split; [reflexivity|].
  apply Forall_app; split; [exact Hn|]. constructor; [apply Hok | constructor].
Qed.

Lemma recording_ret {A} (a : A) : hoare (recorded ok h0) (ret a) (recording ok good h0).
Proof. apply hoare_ret. auto. Qed.

Lemma recording_stop {A} o :
  good o -> hoare (recorded ok h0) (@stop A o) (recording ok good h0).
Proof. intros Hg. apply hoare_stop. intros w Hw. split; assumption. Qed.

Lemma ending_stop {A} o :
  good o -> hoare (recorded ok h0) (@stop A o) (ending ok good h0).
Proof. intros Hg. apply hoare_stop. intros w Hw. exists o. auto. Qed.

Lemma ending_bind {A B} P (c : M A) (k : A -> M B) :
  hoare P c (ending ok good h0) -> hoare P (bind c k) (ending ok good h0).
Proof.
  intros Hc w Hw. specialize (Hc w Hw). unfold bind.
  destruct (c w) as [w1 r]. cbn [fst snd] in *.
  destruct Hc as (o & -> & H). exists o. auto.
Qed.

Lemma recording_then_ending {A B} (c : M A) (k : A -> M B) :
  hoare (recorded ok h0) c (recording ok good h0) ->
  (forall a, hoare (recorded ok h0) (k a) (ending ok good h0)) ->
  hoare (recorded ok h0) (bind c k) (ending ok good h0).
Proof.
  intros Hc Hk. apply (hoare_bind _ (recording ok good h0)); [exact Hc | exact Hk |].
  intros w o [Hw Hg]. exists o. auto.
Qed.

Lemma ending_recording {A} P (c : M A) :
  hoare P c (ending ok good h0) -> hoare P c (recording ok good h0).
Proof.
  intros Hc w Hw. destruct (Hc w Hw) as (o & -> & H). exact H.
Qed.

End Recording.

(** What holds of the world and of the result after [main], for a
    property [S] that does not depend on the umask. *)
Lemma guarded_run host umask_param (body : M unit)
    (S : World -> result unit -> Prop) w :
  (forall w1 w2 r, history w2 = history w1 -> environ w2 = environ w1 ->
                   S w1 r -> S w2 r) ->
  (forall msg cmd, S w (Stop (FailJson msg cmd))) ->
  (forall e, S w (Stop (Uncaught e))) ->
  (forall w1, history w1 = history w -> environ w1 = environ w ->
              S (fst (body w1)) (snd (body w1))) ->
  S (fst (guarded host umask_param body w)) (snd (guarded host umask_param body w)).
Proof.
  intros Hum Hf He Hbody.
  unfold guarded, parse_umask, set_umask, restore_umask, try_finally, bind, ret,
    fail_json, raise, stop, os_umask.
  destruct umask_param as [s|].
  - destruct (Str.truthy s).
    + destruct (int_octal host s) as [z|]; cbn [fst snd]; [|apply Hf].
      match goal with |- context [body ?w1] =>
        specialize (Hbody w1 eq_refl eq_refl); destruct (body w1) as [w2 r] end.
      cbn [fst snd] in *. eapply Hum; [| |exact Hbody]; reflexivity.
    + cbn [fst snd]. apply He.
  - specialize (Hbody w eq_refl eq_refl). destruct (body w) as [w2 r].
    cbn [fst snd] in *. exact Hbody.
Qed.

Lemma pip_main_run host module (S : World -> result unit -> Prop) w :
  (forall w1 w2 r, history w2 = history w1 -> environ w2 = environ w1 ->
                   S w1 r -> S w2 r) ->
  (forall msg cmd, S w (Stop (FailJson msg cmd))) ->
  (forall e, S w (Stop (Uncaught e))) ->
  (forall w1, history w1 = history w -> environ w1 = environ w ->
              S (fst (pip_body host module (joined_env module) w1))
                (snd (pip_body host module (joined_env module) w1))) ->
  S (fst (pip_main host module w)) (snd (pip_main host module w)).
Proof.
  intros Hum Hf He Hbody. unfold pip_main, when.
  destruct (HAS_SETUPTOOLS host); cbn [negb]; [|apply Hf].
  now apply (guarded_run host (p_umask (params module))
               (pip_body host module (joined_env module)) S w).
Qed.

Lemma pipenv_main_run host module (S : World -> result unit -> Prop) w :
  (forall w1 w2 r, history w2 = history w1 -> environ w2 = environ w1 ->
                   S w1 r -> S w2 r) ->
  (forall msg cmd, S w (Stop (FailJson msg cmd))) ->
  (forall e, S w (Stop (Uncaught e))) ->
  (forall w1, history w1 = history w -> environ w1 = environ w ->
              S (fst (pipenv_body host module (joined_env module) w1))
                (snd (pipenv_body host module (joined_env module) w1))) ->
  S (fst (pipenv_main host module w)) (snd (pipenv_main host module w)).
Proof.
  intros Hum Hf He Hbody. unfold pipenv_main, when.
  destruct (HAS_SETUPTOOLS host); cbn [negb]; [|apply Hf].
  now apply (guarded_run host (p_umask (params module))
               (pipenv_body host module (joined_env module)) S w).
Qed.

(** The footprint of a block, from the lemmas on the functions it calls. *)
Ltac frame_with host sites vars good module :=
  let w0 := fresh "w0" in
  intros w0;
  lazymatch goal with
  | Gf : forall msg cmd, good (FailJson msg cmd), Gr : forall e, good (Uncaught e) |- _ =>
      pose proof (within_get_bin_path_required host sites vars w0 good Gf);
      pose proof (within__get_pip host sites vars w0 good Gf);
      pose proof (within__get_pipenv host sites vars w0 good Gf);
      pose proof (within_build_packages host sites vars w0 good Gf Gr);
      try pose proof (fun p c => within__get_packages host sites vars w0 good Gf p c
                                   eq_refl eq_refl);
      try (lazymatch goal with
           | Gx : check_mode module = true -> good (ExitJson (exit_changed true)) |- _ =>
               pose proof (fun e c o r =>
                             within_ensure_virtualenv host sites vars w0 good Gf
                               module e c o r eq_refl eq_refl Gx)
           end);
      try (lazymatch goal with
           | Gj : forall r, good (ExitJson r) |- _ =>
               pose proof (fun m p c e x pk o r =>
                             within_pip_check_mode host sites vars w0 good Gf Gr
                               m p c e x pk o r eq_refl eq_refl eq_refl Gj)
           end)
  end;
  solve [within_auto].


Lemma hoare_bind_value {A B} (P : World -> Prop) (c : M A) (a : A) (k : A -> M B) Q :
  (forall w, c w = (w, Ret a)) -> hoare P (k a) Q -> hoare P (bind c k) Q.
Proof. intros Hc Hk w Hw. unfold bind. rewrite Hc. now apply Hk. Qed.

Lemma setup_virtualenv_check_mode host module env chdir out err w :
  check_mode module = true ->
  setup_virtualenv host module env chdir out err w
  = (w, Stop (ExitJson (exit_changed true))).
Proof. intros H. unfold setup_virtualenv, bind, when. now rewrite H. Qed.

Lemma _get_pip_absolute host env e w :
  path_isabs e = true -> _get_pip host env (Some e) w = (w, Ret e).
Proof. intros H. unfold _get_pip. cbv zeta. now rewrite H. Qed.

(** ** [_recover_package_name]: how many names, and its fixed points *)

Lemma recover_loop_length names name_parts package_names :
  name_parts <> [] ->
  length (recover_loop names name_parts package_names)
  = length package_names + length (List.filter _is_package_name names) + 1.
Proof.
  revert name_parts package_names.
  induction names as [|name rest IH]; intros parts acc Hne; cbn [recover_loop List.filter].
  - rewrite length_app. cbn. lia.
  - destruct (_is_package_name name).
    + destruct parts as [|p parts]; [congruence|].
      rewrite IH by discriminate. rewrite length_app. cbn. lia.
    + rewrite IH by (destruct parts; discriminate). lia.
Qed.

Lemma recover_loop_first name rest :
  recover_loop (name :: rest) [] [] = recover_loop rest [name] [].
Proof. cbn [recover_loop]. destruct (_is_package_name name); reflexivity. Qed.

Lemma recover_package_name_nonempty names : _recover_package_name names <> [].
Proof.
  unfold _recover_package_name. cbv zeta.
  destruct (flat_map (Str.split ",") names) as [|t rest]; [discriminate|].
  rewrite recover_loop_first. intros E.
  pose proof (recover_loop_length rest [t] [] ltac:(discriminate)) as Hl.
  rewrite E in Hl. cbn in Hl. lia.
Qed.

(** X1.  [_recover_package_name] returns one name for the first token of
    the input and one for every later token that is a package name, the
    tokens being the comma-separated parts of the input strings; so it
    never returns an empty list (an empty input gives one empty name). *)
Theorem X1_recover_package_name_length (names : list string) :
  length (_recover_package_name names)
  = S (length (List.filter _is_package_name
                           (tail (flat_map (Str.split ",") names)))).
Proof.
  unfold _recover_package_name. cbv zeta.
  destruct (flat_map (Str.split ",") names) as [|t rest]; [reflexivity|].
  rewrite recover_loop_first, recover_loop_length by discriminate.
  cbn [tail length]. lia.
Qed.

Lemma flat_map_split_single names :
  Forall (fun t => Str.contains "," t = false) names ->
  flat_map (Str.split ",") names = names.
Proof.
  induction 1 as [|t l Ht _ IH]; [reflexivity|].
  cbn [flat_map]. now rewrite (split_char_single ","%char), IH.
Qed.

Lemma recover_loop_names names p package_names :
  Forall (fun n => _is_package_name n = true) names ->
  recover_loop names [p] package_names = package_names ++ p :: names.
Proof.
  revert p package_names.
  induction names as [|n rest IH]; intros p acc Hn; cbn [recover_loop].
  - reflexivity.
  - inversion Hn as [|? ? H1 H2]; subst. rewrite H1. cbn [app].
    rewrite IH by exact H2. now rewrite <- app_assoc.
Qed.

(** X2.  A non-empty list of package names without commas is returned as
    it is. *)
Theorem X2_recover_package_name_plain_names (names : list string) :
  names <> [] ->
  Forall (fun n => Str.contains "," n = false /\ _is_package_name n = true) names ->
  _recover_package_name names = names.
Proof.
  intros Hne Hn. unfold _recover_package_name. cbv zeta.
  rewrite flat_map_split_single
    by (eapply Forall_impl; [exact Hn | intros n [H _]; exact H]).
  destruct names as [|n rest]; [congruence|].
  inversion Hn as [|? ? _ Hrest]; subst.
  rewrite recover_loop_first, recover_loop_names; [reflexivity|].
  eapply Forall_impl; [exact Hrest | intros m [_ H]; exact H].
Qed.

Lemma X2_recover_package_name_plain_names_witness :
  _recover_package_name ["django"; "ipaddress"; " six"] = ["django"; "ipaddress"; " six"].
Proof.
  apply X2_recover_package_name_plain_names; [discriminate|].
  repeat constructor.
Defined.

Lemma recover_loop_tokens names name_parts package_names :
  Forall (fun t => Str.contains "," t = false) names ->
  Forall (fun t => Str.contains "," t = false) name_parts ->
  name_parts <> [] ->
  flat_map (Str.split ",") (recover_loop names name_parts package_names)
  = flat_map (Str.split ",") package_names ++ name_parts ++ names.
Proof.
  revert name_parts package_names.
  induction names as [|t rest IH]; intros parts acc Hn Hp Hne; cbn [recover_loop].
  - rewrite flat_map_app. cbn [flat_map].
    now rewrite (split_join_char ","%char), !app_nil_r.
  - inversion Hn as [|? ? Ht Hrest]; subst.
    destruct (_is_package_name t).
    + destruct parts as [|p parts]; [congruence|].
      rewrite IH; [|exact Hrest | now constructor | discriminate].
      rewrite flat_map_app. cbn [flat_map].
      rewrite (split_join_char ","%char) by (assumption || discriminate).
      now rewrite app_nil_r, <- !app_assoc.
    + rewrite IH; [now rewrite <- !app_assoc | exact Hrest | | ].
      * apply Forall_app; split; [exact Hp | now constructor].
      * destruct parts; discriminate.
Qed.

Lemma flat_map_split_comma_free names :
  Forall (fun t => Str.contains "," t = false) (flat_map (Str.split ",") names).
Proof.
  induction names as [|n rest IH]; cbn [flat_map]; [constructor|].
  apply Forall_app; split; [apply split_comma_free | exact IH].
Qed.

(** X3.  [_recover_package_name] is idempotent: its result is in the form
    that it produces. *)
Theorem X3_recover_package_name_idempotent (names : list string) :
  _recover_package_name (_recover_package_name names) = _recover_package_name names.
Proof.
  unfold _recover_package_name at 1 3. cbv zeta.
  pose proof (flat_map_split_comma_free names) as Hfree.
  unfold _recover_package_name. cbv zeta.
  destruct (flat_map (Str.split ",") names) as [|t rest]; [reflexivity|].
  inversion Hfree as [|? ? Ht Hrest]; subst.
  rewrite recover_loop_first.
  rewrite recover_loop_tokens;
    [ cbn [flat_map app]; apply recover_loop_first
    | exact Hrest | now constructor | discriminate ].
Qed.

(** ** [_get_cmd_options] *)

Lemma all_chars_rev P s acc :
  all_chars P (Str.rev_string s acc) = all_chars P s && all_chars P acc.
Proof.
  revert acc. induction s as [|c s IH]; intros acc; cbn [Str.rev_string all_chars].
  - reflexivity.
  - rewrite IH. cbn [all_chars]. now destruct (P c), (all_chars P s), (all_chars P acc).
Qed.

Lemma rev_string_nonempty s acc :
  acc <> EmptyString -> Str.rev_string s acc <> EmptyString.
Proof.
  revert acc. induction s as [|c s IH]; intros acc Hacc; cbn [Str.rev_string];
    [exact Hacc | apply IH; discriminate].
Qed.

Lemma words_from_no_space s cur :
  match cur with
  | Some w => no_space w = true /\ w <> EmptyString
  | None => True
  end ->
  Forall (fun x => no_space x = true /\ x <> EmptyString) (Str.words_from s cur).
Proof.
  assert (Hrev : forall w, no_space w = true -> w <> EmptyString ->
                   no_space (Str.rev_string w EmptyString) = true
                   /\ Str.rev_string w EmptyString <> EmptyString).
  { intros w Hw Hne. split.
    - unfold no_space. rewrite all_chars_rev. cbn [all_chars].
      now rewrite andb_true_r.
    - destruct w as [|c w]; [congruence|]. cbn [Str.rev_string].
      apply rev_string_nonempty. discriminate. }
  revert cur. induction s as [|c s IH]; intros cur Hcur; cbn [Str.words_from].
  - destruct cur as [w|]; constructor; [now apply Hrev | constructor].
  - destruct (Str.is_space c) eqn:Hc.
    + destruct cur as [w|]; [constructor; [now apply Hrev|]|]; now apply IH.
    + destruct cur as [w|]; apply IH.
      * split; [|discriminate]. unfold no_space. cbn [all_chars].
        rewrite Hc. exact (proj1 Hcur).
      * split; [|discriminate]. unfold no_space. cbn [all_chars]. now rewrite Hc.
Qed.

(** X4.  [_get_cmd_options] runs one command, [cmd --help].  When it
    returns, that command exited with 0 and every option returned starts
    with [--] and holds no whitespace; otherwise the command exited with a
    nonzero code and the failure names it, followed by its stdout and
    stderr. *)
Theorem X4_get_cmd_options_result host cmd w :
  exists r,
    history (fst (_get_cmd_options host cmd w)) = history w ++ [r]
    /\ inv_cmd (rr_inv r) = CmdStr (cmd +:+ " --help")
    /\ match snd (_get_cmd_options host cmd w) with
       | Ret cmd_options =>
           rr_rc r = 0%Z
           /\ Forall (fun o => Str.startswith "--" o = true /\ no_space o = true)
                     cmd_options
       | Stop o =>
           rr_rc r <> 0%Z
           /\ o = FailJson ("Could not get output from " +:+ cmd +:+ " --help: "
                            +:+ rr_out r +:+ rr_err r) None
       end.
Proof.
  unfold _get_cmd_options, bind, run_command, when, ret, fail_json, stop. cbv zeta.
  destruct (run_command_result host w _) as [[rc out] err].
  eexists. cbn [fst snd history]. destruct (nonzero rc) eqn:Hrc; cbn [fst snd history].
  - split; [reflexivity|]. split; [reflexivity|].
    cbn [rr_rc rr_out rr_err]. split; [now apply nonzero_true|].
    now rewrite !append_assoc.
  - split; [reflexivity|]. split; [reflexivity|].
    cbn [rr_rc]. split; [now apply nonzero_false|].
    apply List.Forall_forall. intros o Ho. apply List.filter_In in Ho as [Hin Hs].
    split; [exact Hs|].
    pose proof (words_from_no_space (Str.strip out) None I) as Hw.
    rewrite List.Forall_forall in Hw. exact (proj1 (Hw o Hin)).
Qed.

(** ** [_get_packages]: what is returned *)

(** X5.  When [_get_packages] returns [(command, out, err)], [command]
    is the last command it ran ([pip list --format=freeze] or
    [pip freeze], in [chdir]), that command exited with 0, and [out] and
    [err] are its outputs.  When it does not return, [pip freeze] was the
    last command, it exited with a nonzero code, and the failure carries
    its command line. *)
Theorem X5_get_packages_returns_last_command host pip chdir w :
  match snd (_get_packages host pip chdir w) with
  | Ret (command, out, err) =>
      exists pre r,
        history (fst (_get_packages host pip chdir w)) = pre ++ [r]
        /\ inv_cmd (rr_inv r) = CmdStr command
        /\ inv_cwd (rr_inv r) = Some chdir
        /\ rr_rc r = 0%Z /\ rr_out r = out /\ rr_err r = err
        /\ (command = pip +:+ " list --format=freeze" \/ command = pip +:+ " freeze")
  | Stop o =>
      exists pre r msg,
        history (fst (_get_packages host pip chdir w)) = pre ++ [r]
        /\ inv_cmd (rr_inv r) = CmdStr (pip +:+ " freeze")
        /\ rr_rc r <> 0%Z
        /\ o = FailJson msg (Some (CmdStr (pip +:+ " freeze")))
  end.
Proof.
  unfold _get_packages, bind, run_command, when, ret, _fail, fail_json, stop.
  cbv zeta.
  destruct (run_command_result host w _) as [[rc out] err].
  destruct (nonzero rc) eqn:Hrc.
  - match goal with |- context [run_command_result host ?w1 ?i] =>
      destruct (run_command_result host w1 i) as [[rc2 out2] err2] end.
    destruct (nonzero rc2) eqn:Hrc2; cbn [fst snd history].
    + eexists _, _, _. split; [reflexivity|].
      cbn [rr_inv inv_cmd rr_rc]. split; [reflexivity|].
      split; [now apply nonzero_true | reflexivity].
    + eexists _, _. split; [reflexivity|].
      cbn [rr_inv inv_cmd inv_cwd rr_rc rr_out rr_err].
      repeat split; [now apply nonzero_false | now right].
  - cbn [fst snd history]. eexists _, _. split; [reflexivity|].
    cbn [rr_inv inv_cmd inv_cwd rr_rc rr_out rr_err].
    repeat split; [now apply nonzero_false | now left].
Qed.

(** ** [_is_present] and the case of the name *)

Lemma lower_char_idempotent c : Str.lower_char (Str.lower_char c) = Str.lower_char c.
Proof. destruct c as [[] [] [] [] [] [] [] []]; reflexivity. Qed.

Lemma lower_idempotent s : Str.lower (Str.lower s) = Str.lower s.
Proof.
  induction s as [|c s IH]; [reflexivity|].
  cbn [Str.lower]. now rewrite lower_char_idempotent, IH.
Qed.

(** X6.  [_is_present] lowers the name of the listing only: for a package
    whose [package_name] is not in lower case it never returns true. *)
Theorem X6_is_present_misses_upper_case_names host p installed_pkgs :
  Str.lower (package_name p) <> package_name p ->
  _is_present host (ReqPackage p) installed_pkgs = Ok false
  \/ _is_present host (ReqPackage p) installed_pkgs = Raise ValueError.
Proof.
  intros Hup. induction installed_pkgs as [|pkg l IH]; [now left|].
  cbn [_is_present]. destruct (Str.contains "==" pkg); [|exact IH].
  destruct (Str.split "==" pkg) as [|a [|b [|c t]]]; try (now right).
  cbn [req_package_name except_bind].
  destruct (String.eqb_spec (Str.lower a) (package_name p)) as [E|_]; [|exact IH].
  exfalso. apply Hup. rewrite <- E. apply lower_idempotent.
Qed.

Lemma X6_is_present_misses_upper_case_names_witness :
  _is_present quiet_host (ReqPackage django_package) ["Django==2.2"; "django==2.2"]
  = Ok false
  \/ _is_present quiet_host (ReqPackage django_package) ["Django==2.2"; "django==2.2"]
     = Raise ValueError.
Proof.
  apply X6_is_present_misses_upper_case_names. vm_compute. discriminate.
Defined.

(** ** [_get_pip] *)

Lemma find_pip_in_path_world host candidates w :
  fst (find_pip_in_path host candidates w) = w.
Proof.
  induction candidates as [|c l IH]; cbn [find_pip_in_path]; [reflexivity|].
  unfold bind, get_bin_path. cbn [fst snd].
  destruct (get_bin_path_result host w c []); [reflexivity | exact IH].
Qed.

Lemma find_pip_in_venv_world host dir candidates w :
  fst (find_pip_in_venv host dir candidates w) = w.
Proof.
  induction candidates as [|c l IH]; cbn [find_pip_in_venv]; [reflexivity|].
  unfold bind, path_exists, path_is_executable, ret. cbv zeta. cbn [fst snd].
  destruct (os_path_exists host w _); cbn [fst snd];
    [destruct (is_executable host w _)|]; cbn [fst snd]; auto.
Qed.

Lemma find_pip_in_venv_found host dir candidates w pip :
  snd (find_pip_in_venv host dir candidates w) = Ret (Some pip) ->
  exists b, In b candidates /\ pip = path_join dir b
            /\ os_path_exists host w pip = true /\ is_executable host w pip = true.
Proof.
  induction candidates as [|c l IH]; cbn [find_pip_in_venv]; [discriminate|].
  unfold bind, path_exists, path_is_executable, ret. cbv zeta. cbn [fst snd].
  destruct (os_path_exists host w (path_join dir c)) eqn:Hex; cbn [fst snd].
  - destruct (is_executable host w (path_join dir c)) eqn:Hx; cbn [fst snd].
    + intros [= <-]. exists c. repeat split; auto. now left.
    + intros H. destruct (IH H) as (b & Hb & Hrest). exists b. split; [now right | exact Hrest].
  - intros H. destruct (IH H) as (b & Hb & Hrest). exists b. split; [now right | exact Hrest].
Qed.

(** X7.  [_get_pip] runs no command and leaves the process state as it
    was; an absolute [executable] is returned as it is, whatever
    [env] is and without a look at the file system. *)
Theorem X7_get_pip_reads_only host env executable w :
  fst (_get_pip host env executable w) = w
  /\ forall e, executable = Some e -> path_isabs e = true ->
               snd (_get_pip host env executable w) = Ret e.
Proof.
  split.
  - unfold _get_pip. cbv zeta.
    destruct executable as [e|]; [destruct (path_isabs e)|];
      try reflexivity;
      (destruct env as [env|]; unfold bind;
       [ pose proof (find_pip_in_venv_world host (path_join env "bin")) as Hw
       | pose proof (find_pip_in_path_world host) as Hw ];
       match goal with
       | |- context [find_pip_in_venv host ?d ?c w] =>
           specialize (Hw c w); destruct (find_pip_in_venv host d c w) as [w1 [[p|]|o]]
       | |- context [find_pip_in_path host ?c w] =>
           specialize (Hw c w); destruct (find_pip_in_path host c w) as [w1 [[p|]|o]]
       end; cbn [fst snd] in *; subst; reflexivity).
  - intros e -> Habs. now rewrite _get_pip_absolute.
Qed.

(** X8.  With a virtualenv, and no absolute [executable], the pip that
    [_get_pip] returns is [env/bin/b] for [b] one of the two candidate
    names (the first one is [executable], or else pip3 or pip2 with the
    Python version, the second one is pip), and that file exists and is
    executable. *)
Theorem X8_get_pip_in_virtualenv host env executable w pip :
  snd (_get_pip host (Some env) executable w) = Ret pip ->
  (forall e, executable = Some e -> path_isabs e = false) ->
  exists b,
    In b [match executable with
          | Some e => e
          | None => if PY3 host then "pip3" else "pip2"
          end; "pip"]
    /\ pip = path_join (path_join env "bin") b
    /\ os_path_exists host w pip = true
    /\ is_executable host w pip = true.
Proof.
  intros Hr Hrel. apply find_pip_in_venv_found.
  unfold _get_pip in Hr. cbv zeta in Hr.
  destruct executable as [e|].
  - rewrite (Hrel e eq_refl) in Hr. cbn [hd] in Hr. unfold bind in Hr.
    destruct (find_pip_in_venv host _ _ w) as [w1 [[p|]|o]]; cbn [snd] in *;
      try discriminate. unfold ret in Hr. cbn in Hr. congruence.
  - unfold bind in Hr.
    destruct (PY3 host); cbn [hd] in Hr;
      destruct (find_pip_in_venv host _ _ w) as [w1 [[p|]|o]]; cbn [snd] in *;
      try discriminate; unfold ret in Hr; cbn in Hr; congruence.
Qed.

Lemma X8_get_pip_in_virtualenv_witness :
  exists b,
    In b ["pip3"; "pip"]
    /\ "/venv/bin/pip" = path_join (path_join "/venv" "bin") b
    /\ os_path_exists venv_host world0 "/venv/bin/pip" = true
    /\ is_executable venv_host world0 "/venv/bin/pip" = true.
Proof.
  apply (X8_get_pip_in_virtualenv venv_host "/venv" None world0 "/venv/bin/pip").
  - vm_compute. reflexivity.
  - intros e H. discriminate H.
Defined.

(** ** [_get_package_info] *)


(** ** [setup_virtualenv] *)

Ltac run_setup host :=
  repeat first
    [ progress cbn [fst snd history rr_inv inv_site inv_cmd inv_cwd rr_rc rr_out rr_err negb] in *
    | match goal with
      | |- context [run_command_result host ?w ?i] =>
          destruct (run_command_result host w i) as [[? ?] ?] eqn:?
      | |- context [get_bin_path_result host ?w ?a ?d] =>
          destruct (get_bin_path_result host w a d) eqn:?
      | |- context [if ?b then _ else _] => destruct b eqn:?
      end ].

Ltac setup_done :=
  cbn [app fst snd history rr_inv inv_site inv_cmd inv_cwd rr_rc rr_out rr_err];
  (split; [rewrite <- ?app_assoc; reflexivity|]);
  (split; [repeat constructor|]);
  (split; [reflexivity|]); (split; [reflexivity|]); (split; [reflexivity|]);
  (split; [now apply nonzero_false|]); split; reflexivity.

(** X10.  When [setup_virtualenv] returns, check mode is off, and the
    last command run is the creation command: a command line that ends
    with the path [env], run in [chdir], which exited with 0; before it
    at most the options query was run; the outputs returned are [out] and
    [err] followed by the ones of the creation command. *)
Theorem X10_setup_virtualenv_returns host module env chdir out err w :
  match snd (setup_virtualenv host module env chdir out err w) with
  | Ret (out', err') =>
      check_mode module = false
      /\ exists pre r cmd,
           history (fst (setup_virtualenv host module env chdir out err w))
           = history w ++ pre ++ [r]
           /\ Forall (fun q => inv_site (rr_inv q) = VenvHelp) pre
           /\ inv_site (rr_inv r) = VenvCreate
           /\ inv_cmd (rr_inv r) = CmdStr (cmd +:+ " " +:+ env)
           /\ inv_cwd (rr_inv r) = Some chdir
           /\ rr_rc r = 0%Z
           /\ out' = out +:+ rr_out r /\ err' = err +:+ rr_err r
  | Stop _ => True
  end.
Proof.
  unfold setup_virtualenv, _get_cmd_options, get_bin_path_required, get_bin_path,
    bind, run_command, when, ret, _fail, fail_json, exit_json, stop.
  cbv zeta.
  run_setup host; try exact I;
    (split; [reflexivity|]);
    first [ eexists [], _, _; setup_done | eexists [_], _, _; setup_done ].
Qed.

Ltac refuse_done :=
  (split; [cbn [history]; rewrite ?app_nil_r; reflexivity|]);
  (split; [repeat constructor|]);
  (split; [reflexivity | intros; discriminate]).

(** X11.  In check mode, and when [virtualenv_python] is given together
    with a [virtualenv_command] that holds [pyvenv] or [-m venv],
    [setup_virtualenv] does not return and creates no virtualenv (the
    options query is all that may have run); in check mode it runs
    nothing and exits with [changed=True]. *)
Theorem X11_setup_virtualenv_refuses host module env chdir out err w :
  check_mode module = true
  \/ (uses_venv_module module = true
      /\ truthy_opt (p_virtualenv_python (params module)) = true) ->
  exists new o,
    history (fst (setup_virtualenv host module env chdir out err w)) = history w ++ new
    /\ Forall (fun q => inv_site (rr_inv q) = VenvHelp) new
    /\ snd (setup_virtualenv host module env chdir out err w) = Stop o
    /\ (check_mode module = true -> new = [] /\ o = ExitJson (exit_changed true)).
Proof.
  intros H.
  unfold setup_virtualenv, _get_cmd_options, get_bin_path_required, get_bin_path,
    bind, run_command, when, ret, _fail, fail_json, exit_json, stop.
  cbv zeta.
  destruct (check_mode module) eqn:Hcm.
  - exists [], (ExitJson (exit_changed true)). cbn [fst snd].
    split; [now rewrite app_nil_r|]. split; [constructor|]. split; [reflexivity|].
    intros _. split; reflexivity.
  - destruct H as [H|[Hv Hp]]; [discriminate|].
    unfold uses_venv_module in Hv. rewrite Hv, Hp. cbn [negb].
    run_setup host;
      first [ eexists [], _; refuse_done | eexists [_], _; refuse_done ].
Qed.

Lemma X11_setup_virtualenv_refuses_witness :
  exists new o,
    history (fst (setup_virtualenv venv_host pip_check_conflict_module "/venv" "/tmp"
                                   EmptyString EmptyString world0))
    = history world0 ++ new
    /\ Forall (fun q => inv_site (rr_inv q) = VenvHelp) new
    /\ snd (setup_virtualenv venv_host pip_check_conflict_module "/venv" "/tmp"
                             EmptyString EmptyString world0) = Stop o
    /\ (check_mode pip_check_conflict_module = true
        -> new = [] /\ o = ExitJson (exit_changed true)).
Proof.
  apply X11_setup_virtualenv_refuses. left. reflexivity.
Defined.

(** ** [Package.__init__] *)

(** X12.  [Package(name, version)] with a [version] that is not empty
    and holds whitespace only raises [IndexError] ([version_string[0]] on
    the stripped string). *)
Theorem X12_package_blank_version_raises host name_string version_string :
  version_string <> EmptyString -> Str.lstrip version_string = EmptyString ->
  Package_init host name_string (Some version_string) = Raise IndexError.
Proof.
  intros Hne Hblank. unfold Package_init. cbv zeta.
  cbn [truthy_opt or_empty].
  destruct version_string as [|c v]; [congruence|].
  cbn [Str.truthy]. now rewrite Hblank.
Qed.

Lemma X12_package_blank_version_raises_witness :
  Package_init listing_host "foo" (Some "  ") = Raise IndexError.
Proof.
  apply X12_package_blank_version_raises; [discriminate | reflexivity].
Defined.

(** X13.  The [Package] that [__init__] builds: when the requirement was
    parsed, [package_name] is its [project_name], with ["setuptools"] in
    place of ["distribute"], hence never ["distribute"]; when it was not,
    the package keeps the name given (the version is dropped), prints as
    that name, has no version specifier and is satisfied by no version. *)
Theorem X13_package_init_result host name_string version_string p :
  Package_init host name_string version_string = Ok p ->
  match p with
  | PlainPackage n r =>
      n <> "distribute"
      /\ (n = project_name r \/ (project_name r = "distribute" /\ n = "setuptools"))
  | RawPackage n =>
      n = name_string /\ Package_str p = name_string
      /\ has_version_specifier p = false
      /\ forall v, is_satisfied_by host p v = Ok false
  end.
Proof.
  unfold Package_init. cbv zeta.
  destruct (if truthy_opt version_string then _ else _) as [joined|e];
    cbn [except_bind]; [|discriminate].
  destruct (Requirement_global host) as [parse|]; [|discriminate].
  destruct (parse joined) as [r|].
  - destruct (String.eqb_spec (project_name r) "distribute") as [E|E];
      intros [= <-].
    + split; [discriminate | right; split; [exact E | reflexivity]].
    + split; [exact E | now left].
  - intros [= <-]. repeat split.
Qed.

Lemma X13_package_init_result_witness :
  "foo" <> "distribute"
  /\ ("foo" = project_name foo_requirement
      \/ (project_name foo_requirement = "distribute" /\ "foo" = "setuptools")).
Proof.
  apply (X13_package_init_result listing_host "foo" None foo_package).
  vm_compute. reflexivity.
Defined.

(** ** The checks before the [try] of [main] *)

(** X14.  The checks before the [try] of both [main] functions run
    nothing and leave the process state as it was: without setuptools
    the module fails with its message; with a [umask] that is not an
    octal number it fails with ["umask must be an octal integer"]; with an
    empty [umask] string, [os.umask] raises [TypeError]. *)
Theorem X14_main_rejects_before_running host module w :
  (HAS_SETUPTOOLS host = false ->
   pip_main host module w
   = (w, Stop (FailJson "No setuptools found in remote host, please install it first."
                        None))
   /\ pipenv_main host module w
      = (w, Stop (FailJson "No setuptools found in remote host, please install it first."
                           None)))
  /\ (HAS_SETUPTOOLS host = true ->
      forall s, p_umask (params module) = Some s ->
                s = EmptyString \/ int_octal host s = None ->
      pip_main host module w
      = (w, Stop (if Str.truthy s
                  then FailJson "umask must be an octal integer" None
                  else Uncaught TypeError))
      /\ pipenv_main host module w
         = (w, Stop (if Str.truthy s
                     then FailJson "umask must be an octal integer" None
                     else Uncaught TypeError))).
Proof.
  split.
  - intros H. unfold pip_main, pipenv_main, when, bind, fail_json, stop.
    rewrite H. split; reflexivity.
  - intros H s Hs Hbad.
    unfold pip_main, pipenv_main, when, bind, ret, parse_umask, set_umask,
      fail_json, raise, stop.
    rewrite H, Hs. cbn [negb].
    destruct (Str.truthy s) eqn:Ht.
    + destruct Hbad as [->|Hbad]; [discriminate|]. rewrite Hbad. split; reflexivity.
    + split; reflexivity.
Qed.

Lemma X14_main_rejects_before_running_witness :
  pip_main venv_host bad_umask_module world0
  = (world0, Stop (FailJson "umask must be an octal integer" None))
  /\ pipenv_main venv_host bad_umask_module world0
     = (world0, Stop (FailJson "umask must be an octal integer" None)).
Proof.
  apply (proj2 (X14_main_rejects_before_running venv_host bad_umask_module world0)
               eq_refl "8" eq_refl).
  right. reflexivity.
Defined.

(** ** Module pip as the file stands: [Requirement] is not bound *)

Lemma build_packages_unbound host name version w :
  Requirement_global host = None ->
  build_packages host name version w = (w, Stop (Uncaught NameError)).
Proof.
  intros Hreq. unfold build_packages, bind. cbv zeta.
  destruct (_recover_package_name name) as [|p rest] eqn:Hp;
    [now apply recover_package_name_nonempty in Hp|].
  cbn [map_except]. unfold Package_init at 1. cbv zeta.
  cbn [truthy_opt except_bind]. rewrite Hreq. reflexivity.
Qed.

Lemma venv_sites_not_action r :
  venv_sites (inv_site (rr_inv r)) = true -> inv_site (rr_inv r) <> PipAction.
Proof. intros H E. rewrite E in H. discriminate. Qed.

Lemma pip_body_unbound host module env h0 :
  Requirement_global host = None ->
  truthy_list (p_name (params module)) = true ->
  hoare (recorded (fun r => inv_site (rr_inv r) <> PipAction) h0)
        (pip_body host module env)
        (ending (fun r => inv_site (rr_inv r) <> PipAction) (unsuccessful module) h0).
Proof.
  intros Hreq Hname.
  assert (Gf : forall msg cmd, unsuccessful module (FailJson msg cmd))
    by (intros; left; exact I).
  assert (Gr : forall e, unsuccessful module (Uncaught e)) by (intros; left; exact I).
  unfold pip_body. cbv zeta.
  apply recording_then_ending.
  { apply (recording_frame _ _ _ venv_sites []); [apply venv_sites_not_action|].
    intros w0. within_auto. }
  intros _. apply recording_then_ending.
  { apply (recording_frame _ _ _ venv_sites []); [apply venv_sites_not_action|].
    intros w0. apply within_ensure_virtualenv; auto.
    intros Hcm. right. auto. }
  intros [[venv_created out] err]. apply recording_then_ending.
  { apply (recording_frame _ _ _ venv_sites []); [apply venv_sites_not_action|].
    intros w0. now apply within__get_pip. }
  intros pip. apply ending_bind. rewrite Hname.
  intros w Hw. rewrite build_packages_unbound by exact Hreq. cbn [fst snd].
  exists (Uncaught NameError). auto.
Qed.

(** X15.  As module_utils/pip.py stands, the name [Requirement] is not
    bound there.  Then module pip with a non-empty [name] never runs the
    install or uninstall command: the run ends without a report of
    success (or with the exit of [setup_virtualenv] in check mode). *)
Theorem X15_pip_name_needs_requirement host module w :
  Requirement_global host = None ->
  truthy_list (p_name (params module)) = true ->
  exists new o,
    history (fst (pip_main host module w)) = history w ++ new
    /\ Forall (fun r => inv_site (rr_inv r) <> PipAction) new
    /\ snd (pip_main host module w) = Stop o
    /\ unsuccessful module o.
Proof.
  intros Hreq Hname.
  apply (pip_main_run host module
           (fun w' r => exists new o,
                history w' = history w ++ new
                /\ Forall (fun r => inv_site (rr_inv r) <> PipAction) new
                /\ r = Stop o /\ unsuccessful module o)).
  - intros w1 w2 r Hh _ (new & o & H1 & H). exists new, o. rewrite Hh. auto.
  - intros msg cmd. exists [], (FailJson msg cmd). rewrite app_nil_r.
    repeat split; [constructor | left; exact I].
  - intros e. exists [], (Uncaught e). rewrite app_nil_r.
    repeat split; [constructor | left; exact I].
  - intros w1 Hh _.
    destruct (pip_body_unbound host module (joined_env module) (history w) Hreq Hname
                w1 (recorded_refl _ _ _ Hh))
      as (o & Ho & (new & Hn & Hf) & Hg).
    exists new, o. auto.
Qed.

Lemma X15_pip_name_needs_requirement_witness :
  exists new o,
    history (fst (pip_main venv_host (pip_named_module ["foo"] None false) world0))
    = history world0 ++ new
    /\ Forall (fun r => inv_site (rr_inv r) <> PipAction) new
    /\ snd (pip_main venv_host (pip_named_module ["foo"] None false) world0) = Stop o
    /\ unsuccessful (pip_named_module ["foo"] None false) o.
Proof.
  apply X15_pip_name_needs_requirement; reflexivity.
Defined.

(** ** [editable]: the option [-e] among the extra arguments *)

Lemma join_snoc_nonempty sep l x :
  x <> EmptyString -> Str.join sep (l ++ [x]) <> EmptyString.
Proof.
  intros Hx. induction l as [|a l IH]; [exact Hx|].
  cbn [app]. rewrite join_cons by (destruct l; discriminate).
  intros E. destruct a as [|c a]; [|discriminate].
  change (EmptyString +:+ sep +:+ Str.join sep (l ++ [x]))
    with (sep +:+ Str.join sep (l ++ [x])) in E.
  destruct sep as [|c sep]; [exact (IH E) | discriminate].
Qed.

Lemma mem_snoc x l : Str.mem x (l ++ [x]) = true.
Proof.
  unfold Str.mem. rewrite existsb_app. cbn [existsb].
  rewrite String.eqb_refl. now rewrite orb_true_r.
Qed.

(** X16.  With [editable], the extra arguments become the ones given,
    split on spaces, followed by [-e] unless [-e] is among them already;
    the result is not empty, and doing it again changes nothing. *)
Theorem X16_editable_args_adds_flag (extra_args : option string) :
  let args_list := if truthy_opt extra_args
                   then Str.split " " (or_empty extra_args) else [] in
  let result := editable_args true extra_args in
  Str.split " " (or_empty result)
  = (if Str.mem "-e" args_list then args_list else args_list ++ ["-e"])
  /\ truthy_opt result = true
  /\ editable_args true result = result.
Proof.
  cbv zeta. unfold editable_args.
  set (args_list := if truthy_opt extra_args
                    then Str.split " " (or_empty extra_args) else []).
  assert (Hfree : Forall (fun t => Str.contains " " t = false) (args_list ++ ["-e"])).
  { apply Forall_app; split; [|repeat constructor].
    unfold args_list. destruct (truthy_opt extra_args); [apply split_char_free | constructor]. }
  destruct (Str.mem "-e" args_list) eqn:Hmem; cbn [negb].
  - assert (Ht : truthy_opt extra_args = true).
    { unfold args_list in Hmem. destruct (truthy_opt extra_args); [reflexivity | discriminate]. }
    unfold args_list in *. rewrite Ht in *. rewrite Hmem. auto.
  - assert (Hsplit : Str.split " " (Str.join " " (args_list ++ ["-e"]))
                     = args_list ++ ["-e"]).
    { apply (split_join_char " "%char); [destruct args_list; discriminate | exact Hfree]. }
    assert (Htr : Str.truthy (Str.join " " (args_list ++ ["-e"])) = true).
    { destruct (Str.join " " (args_list ++ ["-e"])) eqn:E; [|reflexivity].
      now apply join_snoc_nonempty in E. }
    cbn [or_empty truthy_opt]. rewrite Htr, Hsplit, mem_snoc. cbn [negb]. auto.
Qed.

(** ** Module pip without a name and without a requirements file *)

Lemma pip_body_nothing_to_do host module env h0 :
  check_mode module = false ->
  truthy_list (p_name (params module)) = false ->
  truthy_opt (p_requirements (params module)) = false ->
  hoare (recorded (fun r => venv_sites (inv_site (rr_inv r)) = true) h0)
        (pip_body host module env)
        (ending (fun r => venv_sites (inv_site (rr_inv r)) = true)
                (fun o => is_failure o \/ o = ExitJson nothing_to_do) h0).
Proof.
  intros Hcm Hname Hreq.
  pose (good := fun o => is_failure o \/ o = ExitJson nothing_to_do).
  assert (Gf : forall msg cmd, good (FailJson msg cmd)) by (intros; left; exact I).
  assert (Gr : forall e, good (Uncaught e)) by (intros; left; exact I).
  assert (Gx : check_mode module = true -> good (ExitJson (exit_changed true)))
    by (rewrite Hcm; discriminate).
  fold good.
  unfold pip_body. cbv zeta. rewrite Hname, Hreq.
  apply recording_then_ending.
  { apply (recording_frame _ _ _ venv_sites []); [auto|].
    frame_with host venv_sites (@nil string) good module. }
  intros _. apply recording_then_ending.
  { apply (recording_frame _ _ _ venv_sites []); [auto|].
    frame_with host venv_sites (@nil string) good module. }
  intros [[venv_created out] err]. apply recording_then_ending.
  { apply (recording_frame _ _ _ venv_sites []); [auto|].
    frame_with host venv_sites (@nil string) good module. }
  intros pip. apply recording_then_ending.
  { apply (recording_frame _ _ _ venv_sites []); [auto|].
    frame_with host venv_sites (@nil string) good module. }
  intros [has_vcs packages]. apply recording_then_ending.
  { apply (recording_frame _ _ _ venv_sites []); [auto|].
    frame_with host venv_sites (@nil string) good module. }
  intros cmd. apply ending_bind. apply ending_stop. now right.
Qed.

(** X17.  Outside of check mode, module pip with neither a [name] nor a
    requirements file runs no pip command: it fails, or it exits with
    [changed=False] and the warning, also when it has just created the
    virtualenv. *)
Theorem X17_pip_nothing_to_do host module w :
  check_mode module = false ->
  truthy_list (p_name (params module)) = false ->
  truthy_opt (p_requirements (params module)) = false ->
  exists new o,
    history (fst (pip_main host module w)) = history w ++ new
    /\ Forall (fun r => venv_sites (inv_site (rr_inv r)) = true) new
    /\ snd (pip_main host module w) = Stop o
    /\ (is_failure o \/ o = ExitJson nothing_to_do).
Proof.
  intros Hcm Hname Hreq.
  apply (pip_main_run host module
           (fun w' r => exists new o,
                history w' = history w ++ new
                /\ Forall (fun r => venv_sites (inv_site (rr_inv r)) = true) new
                /\ r = Stop o /\ (is_failure o \/ o = ExitJson nothing_to_do))).
  - intros w1 w2 r Hh _ (new & o & H1 & H). exists new, o. rewrite Hh. auto.
  - intros msg cmd. exists [], (FailJson msg cmd). rewrite app_nil_r.
    repeat split; [constructor | left; exact I].
  - intros e. exists [], (Uncaught e). rewrite app_nil_r.
    repeat split; [constructor | left; exact I].
  - intros w1 Hh _.
    destruct (pip_body_nothing_to_do host module (joined_env module) (history w)
                Hcm Hname Hreq w1 (recorded_refl _ _ _ Hh))
      as (o & Ho & (new & Hn & Hf) & Hg).
    exists new, o. auto.
Qed.

Lemma X17_pip_nothing_to_do_witness :
  exists new o,
    history (fst (pip_main creating_host pip_empty_module world0)) = history world0 ++ new
    /\ Forall (fun r => venv_sites (inv_site (rr_inv r)) = true) new
    /\ snd (pip_main creating_host pip_empty_module world0) = Stop o
    /\ (is_failure o \/ o = ExitJson nothing_to_do).
Proof.
  apply X17_pip_nothing_to_do; reflexivity.
Defined.

(** The virtualenv is created all the same, and the report says that
    nothing changed. *)
Example pip_nothing_to_do_creates_virtualenv :
  map (fun r => inv_cmd (rr_inv r))
      (history (fst (pip_main creating_host pip_empty_module world0)))
  = [CmdStr "/usr/bin/virtualenv --help";
     CmdStr "/usr/bin/virtualenv -p/usr/bin/python3 /venv2"]
  /\ snd (pip_main creating_host pip_empty_module world0) = Stop (ExitJson nothing_to_do).
Proof. split; vm_compute; reflexivity. Qed.

(** ** Module pip in check mode *)

Lemma pip_body_check_mode host module env h0 :
  check_mode module = true ->
  hoare (recorded (fun r => query_sites (inv_site (rr_inv r)) = true) h0)
        (pip_body host module env)
        (ending (fun r => query_sites (inv_site (rr_inv r)) = true) (fun _ => True) h0).
Proof.
  intros Hcm.
  pose (good := fun _ : outcome => True).
  assert (Gf : forall msg cmd, good (FailJson msg cmd)) by (intros; exact I).
  assert (Gr : forall e, good (Uncaught e)) by (intros; exact I).
  assert (Gj : forall r, good (ExitJson r)) by (intros; exact I).
  fold good.
  unfold pip_body. cbv zeta.
  apply recording_then_ending.
  { apply (recording_frame _ _ _ query_sites []); [auto|].
    frame_with host query_sites (@nil string) good module. }
  intros _. apply recording_then_ending.
  { unfold ensure_virtualenv. destruct (truthy_opt env); [|apply recording_ret].
    apply (hoare_bind_post (recorded _ h0)).
    - apply (recording_frame _ _ _ query_sites []); [auto|].
      frame_with host query_sites (@nil string) good module.
    - intros ex. destruct (negb ex); [|apply recording_ret].
      apply ending_recording, ending_bind. intros w Hw.
      rewrite setup_virtualenv_check_mode by exact Hcm. cbn [fst snd].
      eexists. split; [reflexivity|]. split; [exact Hw | exact I]. }
  intros [[venv_created out] err]. apply recording_then_ending.
  { apply (recording_frame _ _ _ query_sites []); [auto|].
    frame_with host query_sites (@nil string) good module. }
  intros pip. apply recording_then_ending.
  { apply (recording_frame _ _ _ query_sites []); [auto|].
    frame_with host query_sites (@nil string) good module. }
  intros [has_vcs packages]. apply recording_then_ending.
  { apply (recording_frame _ _ _ query_sites []); [auto|].
    frame_with host query_sites (@nil string) good module. }
  intros cmd. apply recording_then_ending.
  { apply (recording_frame _ _ _ query_sites []); [auto|].
    frame_with host query_sites (@nil string) good module. }
  intros cmd'. apply ending_bind. rewrite Hcm. cbn [when].
  unfold pip_check_mode. cbv zeta.
  apply recording_then_ending.
  { apply (recording_frame _ _ _ query_sites []); [auto|].
    frame_with host query_sites (@nil string) good module. }
  intros _. apply recording_then_ending.
  { apply (recording_frame _ _ _ query_sites []); [auto|].
    frame_with host query_sites (@nil string) good module. }
  intros [[pkg_cmd out_pip] err_pip]. apply recording_then_ending.
  { apply (recording_frame _ _ _ query_sites []); [auto|].
    intros w0.
    pose proof (fun a b c d e =>
                  within_special_packages host query_sites [] w0 good Gr
                    a b c d e eq_refl).
    within_auto. }
  intros [changed out']. apply ending_stop. exact I.
Qed.

(** X18.  In check mode module pip runs queries only: the two listing
    commands and the version probe; it creates no virtualenv and runs no
    install or uninstall command. *)
Theorem X18_pip_check_mode_only_queries host module w :
  check_mode module = true ->
  exists new o,
    history (fst (pip_main host module w)) = history w ++ new
    /\ Forall (fun r => query_sites (inv_site (rr_inv r)) = true) new
    /\ snd (pip_main host module w) = Stop o.
Proof.
  intros Hcm.
  apply (pip_main_run host module
           (fun w' r => exists new o,
                history w' = history w ++ new
                /\ Forall (fun r => query_sites (inv_site (rr_inv r)) = true) new
                /\ r = Stop o)).
  - intros w1 w2 r Hh _ (new & o & H1 & H). exists new, o. rewrite Hh. auto.
  - intros msg cmd. exists [], (FailJson msg cmd). rewrite app_nil_r.
    repeat split. constructor.
  - intros e. exists [], (Uncaught e). rewrite app_nil_r. repeat split. constructor.
  - intros w1 Hh _.
    destruct (pip_body_check_mode host module (joined_env module) (history w) Hcm
                w1 (recorded_refl _ _ _ Hh))
      as (o & Ho & (new & Hn & Hf) & _).
    exists new, o. auto.
Qed.

Lemma X18_pip_check_mode_only_queries_witness :
  exists new o,
    history (fst (pip_main listing_host (pip_named_module ["foo"] (Some "1.1") true) world0))
    = history world0 ++ new
    /\ Forall (fun r => query_sites (inv_site (rr_inv r)) = true) new
    /\ snd (pip_main listing_host (pip_named_module ["foo"] (Some "1.1") true) world0)
       = Stop o.
Proof.
  apply X18_pip_check_mode_only_queries. reflexivity.
Defined.

Lemma pip_body_check_requirements host module env h0 :
  check_mode module = true ->
  truthy_opt (p_requirements (params module)) = true ->
  hoare (recorded (fun _ => False) h0)
        (pip_body host module env)
        (ending (fun _ => False)
                (fun o => is_failure o \/ o = ExitJson (exit_changed true)) h0).
Proof.
  intros Hcm Hreq.
  pose (good := fun o => is_failure o \/ o = ExitJson (exit_changed true)).
  assert (Gf : forall msg cmd, good (FailJson msg cmd)) by (intros; left; exact I).
  assert (Gr : forall e, good (Uncaught e)) by (intros; left; exact I).
  fold good.
  assert (Hframe : forall A (c : M A),
             (forall w0, hoare (within (fun _ => false) [] w0) c
                               (always (fun _ => false) [] w0 good)) ->
             hoare (recorded (fun _ => False) h0) c
                   (recording (fun _ => False) good h0)).
  { intros A c Hc.
    apply (recording_frame _ _ _ (fun _ => false) []); [discriminate | exact Hc]. }
  unfold pip_body. cbv zeta.
  apply recording_then_ending.
  { apply Hframe. frame_with host (fun _ : call_site => false) (@nil string) good module. }
  intros _. apply recording_then_ending.
  { unfold ensure_virtualenv. destruct (truthy_opt env); [|apply recording_ret].
    apply (hoare_bind_post (recorded _ h0)).
    - apply Hframe.
      frame_with host (fun _ : call_site => false) (@nil string) good module.
    - intros ex. destruct (negb ex); [|apply recording_ret].
      apply ending_recording, ending_bind. intros w Hw.
      rewrite setup_virtualenv_check_mode by exact Hcm. cbn [fst snd].
      eexists. split; [reflexivity|]. split; [exact Hw | now right]. }
  intros [[venv_created out] err]. apply recording_then_ending.
  { apply Hframe. frame_with host (fun _ : call_site => false) (@nil string) good module. }
  intros pip. apply recording_then_ending.
  { apply Hframe. frame_with host (fun _ : call_site => false) (@nil string) good module. }
  intros [has_vcs packages]. apply recording_then_ending.
  { apply Hframe. frame_with host (fun _ : call_site => false) (@nil string) good module. }
  intros cmd. apply recording_then_ending.
  { destruct (truthy_list (p_name (params module))); [apply recording_ret|].
    rewrite Hreq. apply recording_ret. }
  intros cmd'. apply ending_bind. rewrite Hcm. cbn [when].
  unfold pip_check_mode. cbv zeta. rewrite Hreq, orb_true_r. cbn [orb when].
  apply ending_bind, ending_stop. now right.
Qed.

(** X19.  In check mode with a requirements file module pip runs no
    command at all: it fails, or it reports [changed=True] without a look
    at what is installed. *)
Theorem X19_pip_check_mode_requirements host module w :
  check_mode module = true ->
  truthy_opt (p_requirements (params module)) = true ->
  history (fst (pip_main host module w)) = history w
  /\ exists o, snd (pip_main host module w) = Stop o
               /\ (is_failure o \/ o = ExitJson (exit_changed true)).
Proof.
  intros Hcm Hreq.
  apply (pip_main_run host module
           (fun w' r => history w' = history w
                        /\ exists o, r = Stop o
                                     /\ (is_failure o \/ o = ExitJson (exit_changed true)))).
  - intros w1 w2 r Hh _ [H1 H]. rewrite Hh. auto.
  - intros msg cmd. split; [reflexivity|]. eexists. split; [reflexivity | left; exact I].
  - intros e. split; [reflexivity|]. eexists. split; [reflexivity | left; exact I].
  - intros w1 Hh _.
    destruct (pip_body_check_requirements host module (joined_env module) (history w)
                Hcm Hreq w1 (recorded_refl _ _ _ Hh))
      as (o & Ho & (new & Hn & Hf) & Hg).
    destruct new as [|r new]; [|inversion Hf; contradiction].
    rewrite app_nil_r in Hn. split; [exact Hn|]. exists o. auto.
Qed.

Lemma X19_pip_check_mode_requirements_witness :
  history (fst (pip_main listing_host pip_check_requirements_module world0))
  = history world0
  /\ exists o, snd (pip_main listing_host pip_check_requirements_module world0) = Stop o
               /\ (is_failure o \/ o = ExitJson (exit_changed true)).
Proof.
  apply X19_pip_check_mode_requirements; reflexivity.
Defined.



(** ** The install or uninstall command of module pip *)



(** ** A report of success of module pip *)

(** X22.  When module pip ends with [exit_json], every command of the
    run exited with 0, but for the tolerated ones: [pip list] followed by
    [pip freeze], the version probe, and [pip uninstall] of a package
    that is not installed. *)
Theorem X22_pip_success_means_commands_succeeded host module w res :
  snd (pip_main host module w) = Stop (ExitJson res) ->
  exists new,
    history (fst (pip_main host module w)) = history w ++ new
    /\ forall i r, new !! i = Some r ->
         rr_rc r = 0%Z
         \/ (inv_site (rr_inv r) = PipList
             /\ exists r2, new !! S i = Some r2 /\ inv_site (rr_inv r2) = PipFreeze)
         \/ inv_site (rr_inv r) = SpecialProbe
         \/ uninstall_of_absent (p_state (params module)) r.
Proof.
  intros Hres.
  destruct (pip_main_trace host module w) as (new & Hh & Ht).
  exists new. split; [exact Hh|]. intros i r Hi.
  destruct (Z.eq_dec (rr_rc r) 0%Z) as [Hz|Hnz]; [now left|]. right.
  rewrite Hres in Ht. cbn [outcome_of] in Ht.
  destruct (trace_ok_lookup _ _ _ _ _ Ht Hi Hnz) as [H|[[H|H]|[_ H]]]; auto.
  destruct H.
Qed.

Lemma X22_pip_success_means_commands_succeeded_witness :
  exists new,
    history (fst (pip_main listing_host pip_requirements_module world0))
    = history world0 ++ new
    /\ forall i r, new !! i = Some r ->
         rr_rc r = 0%Z
         \/ (inv_site (rr_inv r) = PipList
             /\ exists r2, new !! S i = Some r2 /\ inv_site (rr_inv r2) = PipFreeze)
         \/ inv_site (rr_inv r) = SpecialProbe
         \/ uninstall_of_absent (p_state (params pip_requirements_module)) r.
Proof.
  eapply X22_pip_success_means_commands_succeeded. vm_compute. reflexivity.
Defined.

(** ** [_get_pipenv] *)

(** X23.  [_get_pipenv] runs nothing.  With a virtualenv it returns
    [env/bin/pipenv] without a look at the file system; else a non-empty
    [executable] as it is; else what [get_bin_path] finds for [pipenv].
    Its one failure is the last case when nothing is found, and the
    message spells the name letter by letter. *)
Theorem X23_get_pipenv_result host env executable w :
  fst (_get_pipenv host env executable w) = w
  /\ match snd (_get_pipenv host env executable w) with
     | Ret pipenv =>
         if truthy_opt env then pipenv = path_join (or_empty env) "bin/pipenv"
         else if truthy_opt executable then executable = Some pipenv
         else get_bin_path_result host w "pipenv" [] = Some pipenv
     | Stop o =>
         truthy_opt env = false /\ truthy_opt executable = false
         /\ get_bin_path_result host w "pipenv" [] = None
         /\ o = FailJson "Unable to find p, i, p, e, n, v. pipenv needs to be installed."
                         None
     end.
Proof.
  unfold _get_pipenv, bind, get_bin_path, ret, fail_json, stop. cbv zeta.
  destruct (truthy_opt env); [split; reflexivity|].
  destruct executable as [e|]; cbn [truthy_opt or_empty].
  - destruct (Str.truthy e); [split; reflexivity|]. cbn [fst snd].
    destruct (get_bin_path_result host w "pipenv" []); cbn [fst snd]; auto.
  - cbn [fst snd].
    destruct (get_bin_path_result host w "pipenv" []); cbn [fst snd]; auto.
Qed.

(** ** Module pipenv: the executable used for the listing *)

Lemma pipenv_body_lists_with_chdir host module env h0 :
  path_isabs (main_chdir host module) = true ->
  hoare (recorded (lists_with (main_chdir host module)) h0)
        (pipenv_body host module env)
        (recording (lists_with (main_chdir host module)) (fun _ => True) h0).
Proof.
  intros Habs.
  pose (good := fun _ : outcome => True).
  pose (ok := lists_with (main_chdir host module)).
  assert (Gf : forall msg cmd, good (FailJson msg cmd)) by (intros; exact I).
  assert (Gr : forall e, good (Uncaught e)) by (intros; exact I).
  assert (Gj : forall r, good (ExitJson r)) by (intros; exact I).
  assert (Gx : check_mode module = true -> good (ExitJson (exit_changed true)))
    by (intros; exact I).
  fold good. fold ok.
  unfold pipenv_body, has_changes. cbv zeta. fold (main_chdir host module).
  apply hoare_bind_post.
  { apply (recording_frame _ _ _ venv_sites []).
    - intros r Hr. split; intros E; rewrite E in Hr; discriminate.
    - frame_with host venv_sites (@nil string) good module. }
  intros [[venv_created out] err].
  apply (hoare_bind_value _ _ (main_chdir host module));
    [intros w; now apply _get_pip_absolute|].
  apply hoare_bind_post.
  { unfold _get_packages. cbv zeta.
    apply hoare_bind_post.
    { apply recording_run_command. intros rc o e. split; [reflexivity | discriminate]. }
    intros [[rc o] e]. destruct (nonzero rc); [|apply recording_ret].
    apply hoare_bind_post.
    { apply recording_run_command. intros rc2 o2 e2. split; [discriminate | reflexivity]. }
    intros [[rc2 o2] e2].
    apply (recording_frame _ _ _ (fun _ => false) []); [discriminate|].
    frame_with host (fun _ : call_site => false) (@nil string) good module. }
  intros [[command out_list] err_list].
  apply (recording_frame _ _ _ pipenv_sites ["VIRTUAL_ENV"]).
  - intros r Hr. split; intros E; rewrite E in Hr; discriminate.
  - frame_with host pipenv_sites ["VIRTUAL_ENV"] good module.
Qed.

(** X24.  Module pipenv hands [chdir] to [_get_pip] where [executable]
    is expected: when [chdir] (the temporary directory by default) is an
    absolute path, the listing commands of the run use that directory in
    the place of the pip executable. *)
Theorem X24_pipenv_lists_with_chdir host module w :
  path_isabs (main_chdir host module) = true ->
  exists new,
    history (fst (pipenv_main host module w)) = history w ++ new
    /\ Forall (lists_with (main_chdir host module)) new.
Proof.
  intros Habs.
  apply (pipenv_main_run host module
           (fun w' _ => exists new,
                history w' = history w ++ new
                /\ Forall (lists_with (main_chdir host module)) new)).
  - intros w1 w2 r Hh _ (new & H1 & H). exists new. rewrite Hh. auto.
  - intros msg cmd. exists []. rewrite app_nil_r. split; [reflexivity | constructor].
  - intros e. exists []. rewrite app_nil_r. split; [reflexivity | constructor].
  - intros w1 Hh _.
    pose proof (pipenv_body_lists_with_chdir host module (joined_env module) (history w)
                  Habs w1 (recorded_refl _ _ _ Hh)) as H.
    unfold recording, post in H.
    destruct (snd (pipenv_body host module (joined_env module) w1));
      [exact H | exact (proj1 H)].
Qed.

Lemma X24_pipenv_lists_with_chdir_witness :
  exists new,
    history (fst (pipenv_main venv_host pipenv_plain_module world0)) = history world0 ++ new
    /\ Forall (lists_with (main_chdir venv_host pipenv_plain_module)) new.
Proof.
  apply X24_pipenv_lists_with_chdir. reflexivity.
Defined.

(** The temporary directory stands for pip in the listing commands. *)
Example pipenv_lists_with_tempdir :
  map (fun r => inv_cmd (rr_inv r))
      (history (fst (pipenv_main venv_host pipenv_plain_module world0)))
  = [CmdStr "/tmp list --format=freeze"; CmdStr "/tmp freeze";
     CmdList ["/usr/bin/pipenv"; "sync"]].
Proof. vm_compute. reflexivity. Qed.

(** ** Module pipenv without a virtualenv *)

Lemma joined_env_falsy module :
  truthy_opt (p_virtualenv (params module)) = false ->
  truthy_opt (joined_env module) = false.
Proof. intros H. unfold joined_env. now rewrite H. Qed.

Lemma pipenv_body_plain host module env w0 :
  truthy_opt env = false ->
  hoare (within plain_pipenv_sites [] w0) (pipenv_body host module env)
        (always plain_pipenv_sites [] w0 (fun _ => True)).
Proof.
  intros Henv.
  pose (good := fun _ : outcome => True).
  assert (Gf : forall msg cmd, good (FailJson msg cmd)) by (intros; exact I).
  assert (Gr : forall e, good (Uncaught e)) by (intros; exact I).
  assert (Gj : forall r, good (ExitJson r)) by (intros; exact I).
  fold good.
  pose proof (within__get_pip host plain_pipenv_sites [] w0 good Gf).
  pose proof (within__get_pipenv host plain_pipenv_sites [] w0 good Gf).
  pose proof (fun p c => within__get_packages host plain_pipenv_sites [] w0 good Gf p c
                           eq_refl eq_refl).
  unfold pipenv_body, ensure_virtualenv, has_changes. cbv zeta. rewrite Henv.
  apply hoare_bind_post; [within_auto|]. intros [[venv_created out] err].
  apply hoare_bind_post; [within_auto|]. intros pip.
  apply hoare_bind_post; [within_auto|]. intros [[command out_list] err_list].
  apply hoare_bind_post; [within_auto|]. intros is_present.
  rewrite andb_false_r. cbn [when]. within_auto.
Qed.

(** X25.  Without a virtualenv module pipenv leaves every environment
    variable as it was, and runs nothing but the listing commands and
    [pipenv sync]. *)
Theorem X25_pipenv_without_virtualenv host module w :
  truthy_opt (p_virtualenv (params module)) = false ->
  environ (fst (pipenv_main host module w)) = environ w
  /\ exists new,
       history (fst (pipenv_main host module w)) = history w ++ new
       /\ Forall (fun r => plain_pipenv_sites (inv_site (rr_inv r)) = true) new.
Proof.
  intros Henv. apply joined_env_falsy in Henv.
  apply (pipenv_main_run host module
           (fun w' _ => environ w' = environ w
                        /\ exists new,
                             history w' = history w ++ new
                             /\ Forall (fun r => plain_pipenv_sites (inv_site (rr_inv r))
                                                 = true) new)).
  - intros w1 w2 r Hh He (H0 & new & H1 & H). rewrite Hh, He. eauto.
  - intros msg cmd. split; [reflexivity|].
    exists []. rewrite app_nil_r. split; [reflexivity | constructor].
  - intros e. split; [reflexivity|].
    exists []. rewrite app_nil_r. split; [reflexivity | constructor].
  - intros w1 Hh He.
    pose proof (pipenv_body_plain host module (joined_env module) w1 Henv
                  w1 (within_refl _ _ _)) as H.
    assert (Hw : within plain_pipenv_sites [] w1
                        (fst (pipenv_body host module (joined_env module) w1))).
    { unfold always, post in H.
      destruct (snd (pipenv_body host module (joined_env module) w1));
        [exact H | exact (proj1 H)]. }
    destruct Hw as (_ & Hvars & new & Hnew & Hs). split.
    + rewrite <- He. apply map_eq. intros k. apply Hvars. intros [].
    + exists new. rewrite Hnew, Hh. auto.
Qed.

Lemma X25_pipenv_without_virtualenv_witness :
  environ (fst (pipenv_main venv_host pipenv_plain_module world0)) = environ world0
  /\ exists new,
       history (fst (pipenv_main venv_host pipenv_plain_module world0))
       = history world0 ++ new
       /\ Forall (fun r => plain_pipenv_sites (inv_site (rr_inv r)) = true) new.
Proof.
  apply X25_pipenv_without_virtualenv. reflexivity.
Defined.

(** ** Module pipenv without [path] *)

Lemma pipenv_body_without_path host module env h0 :
  p_path (params module) = None ->
  hoare (recorded (fun r => inv_site (rr_inv r) <> PipenvSync) h0)
        (pipenv_body host module env)
        (ending (fun r => inv_site (rr_inv r) <> PipenvSync) (unsuccessful module) h0).
Proof.
  intros Hpath.
  pose (good := unsuccessful module).
  assert (Gf : forall msg cmd, good (FailJson msg cmd)) by (intros; left; exact I).
  assert (Gr : forall e, good (Uncaught e)) by (intros; left; exact I).
  assert (Gx : check_mode module = true -> good (ExitJson (exit_changed true)))
    by (intros Hcm; right; auto).
  fold good.
  assert (Hframe : forall A (c : M A),
             (forall w0, hoare (within (other_than PipenvSync) [] w0) c
                               (always (other_than PipenvSync) [] w0 good)) ->
             hoare (recorded (fun r => inv_site (rr_inv r) <> PipenvSync) h0) c
                   (recording (fun r => inv_site (rr_inv r) <> PipenvSync) good h0)).
  { intros A c Hc.
    apply (recording_frame _ _ _ (other_than PipenvSync) []); [|exact Hc].
    intros r Hr E. rewrite E in Hr. discriminate. }
  unfold pipenv_body, has_changes. cbv zeta. rewrite Hpath.
  apply recording_then_ending.
  { apply Hframe. frame_with host (other_than PipenvSync) (@nil string) good module. }
  intros [[venv_created out] err]. apply recording_then_ending.
  { apply Hframe. frame_with host (other_than PipenvSync) (@nil string) good module. }
  intros pip. apply recording_then_ending.
  { apply Hframe. frame_with host (other_than PipenvSync) (@nil string) good module. }
  intros [[command out_list] err_list]. apply recording_then_ending.
  { apply Hframe. frame_with host (other_than PipenvSync) (@nil string) good module. }
  intros is_present. apply recording_then_ending.
  { apply Hframe. frame_with host (other_than PipenvSync) (@nil string) good module. }
  intros [[pipenv_installed out'] err']. apply ending_bind.
  apply ending_stop. left. exact I.
Qed.

(** X26.  Without [path] module pipenv never runs [pipenv sync]: the run
    ends without a report of success (or with the exit of
    [setup_virtualenv] in check mode). *)
Theorem X26_pipenv_needs_path host module w :
  p_path (params module) = None ->
  exists new o,
    history (fst (pipenv_main host module w)) = history w ++ new
    /\ Forall (fun r => inv_site (rr_inv r) <> PipenvSync) new
    /\ snd (pipenv_main host module w) = Stop o
    /\ unsuccessful module o.
Proof.
  intros Hpath.
  apply (pipenv_main_run host module
           (fun w' r => exists new o,
                history w' = history w ++ new
                /\ Forall (fun r => inv_site (rr_inv r) <> PipenvSync) new
                /\ r = Stop o /\ unsuccessful module o)).
  - intros w1 w2 r Hh _ (new & o & H1 & H). exists new, o. rewrite Hh. auto.
  - intros msg cmd. exists [], (FailJson msg cmd). rewrite app_nil_r.
    repeat split; [constructor | left; exact I].
  - intros e. exists [], (Uncaught e). rewrite app_nil_r.
    repeat split; [constructor | left; exact I].
  - intros w1 Hh _.
    destruct (pipenv_body_without_path host module (joined_env module) (history w)
                Hpath w1 (recorded_refl _ _ _ Hh))
      as (o & Ho & (new & Hn & Hf) & Hg).
    exists new, o. auto.
Qed.

Lemma X26_pipenv_needs_path_witness :
  exists new o,
    history (fst (pipenv_main venv_host pip_requirements_module world0))
    = history world0 ++ new
    /\ Forall (fun r => inv_site (rr_inv r) <> PipenvSync) new
    /\ snd (pipenv_main venv_host pip_requirements_module world0) = Stop o
    /\ unsuccessful pip_requirements_module o.
Proof.
  apply X26_pipenv_needs_path. reflexivity.
Defined.

(** ** Module pipenv: [VIRTUAL_ENV] when [pipenv sync] is run *)

Lemma runs_of_nil_no_site s l r :
  runs_of s l = [] -> In r l -> inv_site (rr_inv r) <> s.
Proof.
  intros Hl Hin E.
  assert (H : In r (runs_of s l)).
  { apply List.filter_In. split; [exact Hin|]. rewrite E.
    unfold site_eqb. apply Nat.eqb_refl. }
  rewrite Hl in H. destruct H.
Qed.

Lemma never_run_activated v h0 w :
  never_run PipenvSync h0 w -> activated_if_synced v h0 w.
Proof.
  intros (new & Hh & Hn). exists new. split; [exact Hh|].
  intros (r & Hin & Hs). now destruct (runs_of_nil_no_site _ _ _ Hn Hin).
Qed.

Lemma activated_weaken v h0 w : activated v h0 w -> activated_if_synced v h0 w.
Proof. intros [(new & Hh) He]. exists new. auto. Qed.

Lemma activated_frame {A} v h0 (c : M A) :
  (forall w0, hoare (within (fun _ => true) [] w0) c
                    (always (fun _ => true) [] w0 (fun _ => True))) ->
  hoare (activated v h0) c (post (activated v h0) (fun w _ => activated v h0 w)).
Proof.
  intros Hc w [(new & Hh) He].
  specialize (Hc w w (within_refl _ _ _)).
  assert (Hw : within (fun _ => true) [] w (fst (c w))).
  { unfold always, post in Hc. destruct (snd (c w)); [exact Hc | exact (proj1 Hc)]. }
  destruct Hw as (_ & Hvars & ext & Hext & _).
  assert (Ha : activated v h0 (fst (c w))).
  { split.
    - exists (new ++ ext). now rewrite Hext, Hh, <- app_assoc.
    - rewrite Hvars; [exact He | intros []]. }
  unfold post. destruct (snd (c w)); exact Ha.
Qed.

Lemma pipenv_body_activates host module env h0 :
  truthy_opt env = true ->
  hoare (never_run PipenvSync h0) (pipenv_body host module env)
        (post (activated_if_synced (or_empty env) h0)
              (fun w _ => activated_if_synced (or_empty env) h0 w)).
Proof.
  intros Henv.
  pose (v := or_empty env).
  assert (Hpre : forall A (c : M A),
             apart_from PipenvSync c ->
             hoare (never_run PipenvSync h0) c
                   (post (never_run PipenvSync h0)
                         (fun w _ => never_run PipenvSync h0 w))).
  { intros A c Hc. now apply never_run_frame. }
  assert (Hstop : forall (w : World) (o : outcome),
             never_run PipenvSync h0 w -> activated_if_synced v h0 w).
  { intros w o. apply never_run_activated. }
  unfold pipenv_body, has_changes. cbv zeta. rewrite Henv. fold v.
  apply (hoare_bind _ (post (never_run PipenvSync h0) (fun w _ => never_run PipenvSync h0 w)));
    [apply Hpre; apart_block host PipenvSync | intros [[venv_created out] err] | exact Hstop].
  apply (hoare_bind _ (post (never_run PipenvSync h0) (fun w _ => never_run PipenvSync h0 w)));
    [apply Hpre; apart_block host PipenvSync | intros pip | exact Hstop].
  apply (hoare_bind _ (post (never_run PipenvSync h0) (fun w _ => never_run PipenvSync h0 w)));
    [apply Hpre; apart_block host PipenvSync | intros [[command out_list] err_list]
    | exact Hstop].
  apply (hoare_bind _ (post (never_run PipenvSync h0) (fun w _ => never_run PipenvSync h0 w)));
    [apply Hpre; apart_block host PipenvSync | intros is_present | exact Hstop].
  apply (hoare_bind _ (post (never_run PipenvSync h0) (fun w _ => never_run PipenvSync h0 w)));
    [apply Hpre; apart_block host PipenvSync | intros [[pipenv_installed out'] err']
    | exact Hstop].
  apply (hoare_bind _ (post (never_run PipenvSync h0) (fun w _ => never_run PipenvSync h0 w)));
    [apply Hpre; apart_block host PipenvSync | intros lockfile | exact Hstop].
  (* the block of [pipenv sync] *)
  apply (hoare_bind _ (post (activated v h0) (fun w _ => activated_if_synced v h0 w)));
    [ | intros [[[ran_pipenv cmd] out''] err''] | auto ].
  - apply (hoare_bind _ (post (never_run PipenvSync h0)
                              (fun w _ => activated_if_synced v h0 w)));
      [ | intros pipenv | auto ].
    { eapply hoare_conseq; [ | | apply Hpre; apart_block host PipenvSync ]; [auto|].
      intros w [?|o] Hw; [exact Hw | now apply never_run_activated]. }
    cbn [when].
    apply (hoare_bind _ (post (activated v h0) (fun w _ => activated_if_synced v h0 w)));
      [ | intros ? | auto ].
    { intros w (new & Hh & _). unfold os_environ_set. cbn [fst snd post].
      split; [exists new; exact Hh|]. cbn [environ]. apply lookup_insert_eq. }
    eapply hoare_conseq;
      [ | | apply (activated_frame v h0) ]; [auto | | ].
    { intros w [?|o] Hw; [exact Hw | now apply activated_weaken]. }
    intros w0. pose (good := fun _ : outcome => True).
    assert (Gf : forall msg cmd, good (FailJson msg cmd)) by (intros; exact I).
    within_auto.
  - eapply hoare_conseq; [ | | apply (activated_frame v h0) ]; [auto | | ].
    { intros w [?|o] Hw; now apply activated_weaken. }
    intros w0. pose (good := fun _ : outcome => True).
    assert (Gj : forall r, good (ExitJson r)) by (intros; exact I).
    within_auto.
Qed.

Lemma path_join_truthy a b : Str.truthy b = true -> Str.truthy (path_join a b) = true.
Proof.
  intros Hb. unfold path_join.
  destruct (Str.startswith "/" b); [exact Hb|].
  destruct b as [|c b]; [discriminate|].
  destruct (negb (Str.truthy a) || Str.endswith "/" a).
  - destruct a; reflexivity.
  - destruct a; reflexivity.
Qed.

Lemma joined_env_of_virtualenv module :
  truthy_opt (p_virtualenv (params module)) = true ->
  truthy_opt (joined_env module) = true.
Proof.
  intros H. unfold joined_env. rewrite H. cbn [andb].
  destruct (truthy_opt (p_chdir (params module))); [|exact H].
  cbn [truthy_opt]. apply path_join_truthy.
  destruct (p_virtualenv (params module)); [exact H | discriminate].
Qed.

(** X27.  With a virtualenv, when [pipenv sync] has been run, the
    environment variable [VIRTUAL_ENV] holds the path of the virtualenv
    after the run. *)
Theorem X27_pipenv_sync_sets_virtual_env host module w :
  truthy_opt (p_virtualenv (params module)) = true ->
  exists new,
    history (fst (pipenv_main host module w)) = history w ++ new
    /\ ((exists r, In r new /\ inv_site (rr_inv r) = PipenvSync) ->
        environ (fst (pipenv_main host module w)) !! "VIRTUAL_ENV"
        = Some (or_empty (joined_env module))).
Proof.
  intros Henv. apply joined_env_of_virtualenv in Henv.
  apply (pipenv_main_run host module
           (fun w' _ => activated_if_synced (or_empty (joined_env module)) (history w) w')).
  - intros w1 w2 r Hh He (new & H1 & H). exists new. rewrite Hh, He. auto.
  - intros msg cmd. exists []. rewrite app_nil_r. split; [reflexivity|].
    intros (r & [] & _).
  - intros e. exists []. rewrite app_nil_r. split; [reflexivity|].
    intros (r & [] & _).
  - intros w1 Hh _.
    assert (H0 : never_run PipenvSync (history w) w1)
      by (exists []; split; [now rewrite app_nil_r | reflexivity]).
    pose proof (pipenv_body_activates host module (joined_env module) (history w)
                  Henv w1 H0) as H.
    unfold post in H.
    destruct (snd (pipenv_body host module (joined_env module) w1)); exact H.
Qed.

Lemma X27_pipenv_sync_sets_virtual_env_witness :
  exists new,
    history (fst (pipenv_main venv_host pipenv_venv_module world0)) = history world0 ++ new
    /\ ((exists r, In r new /\ inv_site (rr_inv r) = PipenvSync) ->
        environ (fst (pipenv_main venv_host pipenv_venv_module world0)) !! "VIRTUAL_ENV"
        = Some (or_empty (joined_env pipenv_venv_module))).
Proof.
  apply X27_pipenv_sync_sets_virtual_env. reflexivity.
Defined.

(** ** A report of success of module pipenv *)

(** X28.  When module pipenv ends with [exit_json], every command of
    the run exited with 0, but for a [pip list] that was followed by
    [pip freeze]. *)
Theorem X28_pipenv_success_means_commands_succeeded host module w res :
  snd (pipenv_main host module w) = Stop (ExitJson res) ->
  exists new,
    history (fst (pipenv_main host module w)) = history w ++ new
    /\ forall i r, new !! i = Some r ->
         rr_rc r = 0%Z
         \/ (inv_site (rr_inv r) = PipList
             /\ exists r2, new !! S i = Some r2 /\ inv_site (rr_inv r2) = PipFreeze).
Proof.
  intros Hres.
  destruct (pipenv_main_trace host module w) as (new & Hh & Ht).
  exists new. split; [exact Hh|]. intros i r Hi.
  destruct (Z.eq_dec (rr_rc r) 0%Z) as [Hz|Hnz]; [now left|]. right.
  rewrite Hres in Ht. cbn [outcome_of] in Ht.
  destruct (trace_ok_lookup _ _ _ _ _ Ht Hi Hnz) as [H|[[]|[_ H]]]; auto.
  destruct H.
Qed.

Lemma X28_pipenv_success_means_commands_succeeded_witness :
  exists new,
    history (fst (pipenv_main venv_host pipenv_venv_module world0))
    = history world0 ++ new
    /\ forall i r, new !! i = Some r ->
         rr_rc r = 0%Z
         \/ (inv_site (rr_inv r) = PipList
             /\ exists r2, new !! S i = Some r2 /\ inv_site (rr_inv r2) = PipFreeze).
Proof.
  eapply X28_pipenv_success_means_commands_succeeded. vm_compute. reflexivity.
Defined.
